(** * idevicebtlogger: capture of the Bluetooth HCI packet log

    A shallow embedding of [tools/idevicebtlogger.c].  The process-wide
    variables of the tool are the fields of one [state] record, every call
    into libimobiledevice, libpcap or libc is recorded as an [effect] in the
    order the program makes it, and the answers of those libraries are inputs
    of the functions that ask for them.  The model follows the build for POSIX
    systems (the [#ifndef WIN32] branches). *)

From Stdlib Require Import ZArith List Bool Lia.
From Stdlib Require Import Strings.String Strings.Ascii Strings.Byte.
From Stdlib Require Import Numbers.DecimalString.
Import ListNotations.
Open Scope Z_scope.

(** ** Machine integers and bytes *)

Definition byte_to_Z (b : byte) : Z := Z.of_N (Byte.to_N b).

Definition Z_to_byte (z : Z) : byte :=
  match Byte.of_N (Z.to_N (z mod 256)) with
  | Some b => b
  | None => x00
  end.

(** Conversion to [uint32_t] and to [uint16_t]. *)
Definition wrap32 (z : Z) : Z := z mod 2 ^ 32.
Definition wrap16 (z : Z) : Z := z mod 2 ^ 16.

(** The byte order of the machine the tool runs on. *)
Inductive byte_order : Set := LittleEndian | BigEndian.

Definition le_bytes32 (x : Z) : list byte :=
  [Z_to_byte x; Z_to_byte (x / 2 ^ 8); Z_to_byte (x / 2 ^ 16); Z_to_byte (x / 2 ^ 24)].

Definition le_decode (bs : list byte) : Z :=
  fold_right (fun b acc => byte_to_Z b + 256 * acc) 0 bs.

(** The four bytes a [uint32_t] occupies in memory, and the value four bytes
    of memory hold. *)
Definition store32 (order : byte_order) (x : Z) : list byte :=
  match order with
  | LittleEndian => le_bytes32 x
  | BigEndian => rev (le_bytes32 x)
  end.

Definition load32 (order : byte_order) (bs : list byte) : Z :=
  match order with
  | LittleEndian => le_decode bs
  | BigEndian => le_decode (rev bs)
  end.

(** [ntohl] and [htonl] of <arpa/inet.h>: the value whose memory image on the
    host is the network (big-endian) image of the other. *)
Definition ntohl (host : byte_order) (x : Z) : Z := load32 BigEndian (store32 host x).
Definition htonl (host : byte_order) (x : Z) : Z := load32 host (store32 BigEndian x).

(** What four bytes mean when read most significant byte first. *)
Definition be32 (bs : list byte) : Z := le_decode (rev bs).

(** ** Buffers *)

(** [*(uint32_t* )&data[off]]: defined when the four bytes lie in the buffer. *)
Definition read32 (host : byte_order) (data : list byte) (off : nat) : option Z :=
  let bs := firstn 4 (skipn off data) in
  if Nat.eqb (List.length bs) 4 then Some (load32 host bs) else None.

(** Overwrite [length bs] bytes of [data] from index [off]. *)
Definition write_bytes (data : list byte) (off : nat) (bs : list byte) : list byte :=
  firstn off data ++ bs ++ skipn (off + List.length bs) data.

(** ** Types of the libraries *)

Definition idevice_t := nat.
Definition bt_packet_logger_client_t := nat.
Definition pcap_dumper_t := nat.

Inductive idevice_event_type : Set :=
  | IDEVICE_DEVICE_ADD
  | IDEVICE_DEVICE_REMOVE
  | IDEVICE_DEVICE_PAIRED.

Inductive idevice_connection_type : Set :=
  | CONNECTION_USBMUXD
  | CONNECTION_NETWORK.

Record idevice_event_t : Set := {
  event : idevice_event_type;
  event_udid : string;
  conn_type : idevice_connection_type
}.

Record pcap_pkthdr : Set := {
  tv_sec : Z;
  tv_usec : Z;
  caplen : Z;
  len : Z
}.

(** An error code of lockdownd: success, or one of the failures. *)
Inductive lockdownd_error_t : Set :=
  | LOCKDOWN_E_SUCCESS
  | LOCKDOWN_E_failure (code : Z).

Inductive log_format_t : Set := LOG_FORMAT_PACKETLOGGER | LOG_FORMAT_PCAP.

Inductive PacketLoggerCallback : Set := callback_pcap | callback_packetlogger.

Inductive signal_t : Set := SIGINT | SIGTERM | SIGQUIT | SIGPIPE.

Inductive sighandler_t : Set := handler_clean_exit | SIG_IGN.

(** Modelled from the spec: the declaration of [bt_packet_logger_header_t]
    (libimobiledevice/bt_packet_logger.h) is not part of the sources.  The
    spec gives the header as three 32-bit fields, declared length, timestamp
    seconds and timestamp microseconds, in this order, directly before the
    type byte. *)
Definition offsetof_length : nat := 0.
Definition offsetof_ts_secs : nat := 4.
Definition offsetof_ts_usecs : nat := 8.
Definition sizeof_bt_packet_logger_header_t : Z := 12.

Definition sizeof_uint32_t : Z := 4.

(** ** Calls that leave the program *)

Inductive effect : Set :=
  | Stdout (text : string)
  | Stderr (text : string)
  | Fflush
  | WriteFd (fd : Z) (bytes : list byte)
  | PcapDump (dumper : option pcap_dumper_t) (h : pcap_pkthdr) (sp : list byte)
  | PcapDumpFlush (dumper : option pcap_dumper_t)
  | PcapDumpOpen (fname : string) (result : option pcap_dumper_t)
  | PcapDumpClose (dumper : pcap_dumper_t)
  | Open (fname : string) (result : Z)
  | Close (fd : Z)
  | DeviceNew (network : bool) (result : option idevice_t)
  | DeviceFree (d : idevice_t)
  | LockdowndHandshake (result : lockdownd_error_t)
  | ClientStartService (result : option bt_packet_logger_client_t)
  | ClientStartCapture (c : option bt_packet_logger_client_t) (cb : PacketLoggerCallback) (ok : bool)
  | ClientFree (c : option bt_packet_logger_client_t)
  | EventSubscribe
  | EventUnsubscribe
  | GetDeviceList (num : Z)
  | SetDebugLevel (level : Z)
  | Signal (sig : signal_t) (h : sighandler_t).

(** ** The variables of the program *)

(** The [int] variables are integers of [Z]: the program stores 0, 1 and the
    result of [open] in them, and [quit_flag] only counts up from 0, once for
    a signal or a disconnect. *)

Record state : Set := {
  quit_flag : Z;
  exit_on_disconnect : Z;
  udid : option string;
  device : option idevice_t;
  bt_packet_logger : option bt_packet_logger_client_t;
  use_network : Z;
  out_filename : option string;
  log_format_string : option string;
  pcap_dumper : option pcap_dumper_t;
  packetlogger_fd : Z;
  log_format : log_format_t;
  trace : list effect
}.

Definition initial_state : state := {|
  quit_flag := 0;
  exit_on_disconnect := 0;
  udid := None;
  device := None;
  bt_packet_logger := None;
  use_network := 0;
  out_filename := None;
  log_format_string := None;
  pcap_dumper := None;
  packetlogger_fd := -1;
  log_format := LOG_FORMAT_PACKETLOGGER;
  trace := []
|}.

Definition set_quit_flag (v : Z) (s : state) : state :=
  {| quit_flag := v; exit_on_disconnect := exit_on_disconnect s; udid := udid s;
     device := device s; bt_packet_logger := bt_packet_logger s;
     use_network := use_network s; out_filename := out_filename s;
     log_format_string := log_format_string s; pcap_dumper := pcap_dumper s;
     packetlogger_fd := packetlogger_fd s; log_format := log_format s;
     trace := trace s |}.

Definition set_exit_on_disconnect (v : Z) (s : state) : state :=
  {| quit_flag := quit_flag s; exit_on_disconnect := v; udid := udid s;
     device := device s; bt_packet_logger := bt_packet_logger s;
     use_network := use_network s; out_filename := out_filename s;
     log_format_string := log_format_string s; pcap_dumper := pcap_dumper s;
     packetlogger_fd := packetlogger_fd s; log_format := log_format s;
     trace := trace s |}.

Definition set_udid (v : option string) (s : state) : state :=
  {| quit_flag := quit_flag s; exit_on_disconnect := exit_on_disconnect s; udid := v;
     device := device s; bt_packet_logger := bt_packet_logger s;
     use_network := use_network s; out_filename := out_filename s;
     log_format_string := log_format_string s; pcap_dumper := pcap_dumper s;
     packetlogger_fd := packetlogger_fd s; log_format := log_format s;
     trace := trace s |}.

Definition set_device (v : option idevice_t) (s : state) : state :=
  {| quit_flag := quit_flag s; exit_on_disconnect := exit_on_disconnect s; udid := udid s;
     device := v; bt_packet_logger := bt_packet_logger s;
     use_network := use_network s; out_filename := out_filename s;
     log_format_string := log_format_string s; pcap_dumper := pcap_dumper s;
     packetlogger_fd := packetlogger_fd s; log_format := log_format s;
     trace := trace s |}.

Definition set_bt_packet_logger (v : option bt_packet_logger_client_t) (s : state) : state :=
  {| quit_flag := quit_flag s; exit_on_disconnect := exit_on_disconnect s; udid := udid s;
     device := device s; bt_packet_logger := v;
     use_network := use_network s; out_filename := out_filename s;
     log_format_string := log_format_string s; pcap_dumper := pcap_dumper s;
     packetlogger_fd := packetlogger_fd s; log_format := log_format s;
     trace := trace s |}.

Definition set_use_network (v : Z) (s : state) : state :=
  {| quit_flag := quit_flag s; exit_on_disconnect := exit_on_disconnect s; udid := udid s;
     device := device s; bt_packet_logger := bt_packet_logger s;
     use_network := v; out_filename := out_filename s;
     log_format_string := log_format_string s; pcap_dumper := pcap_dumper s;
     packetlogger_fd := packetlogger_fd s; log_format := log_format s;
     trace := trace s |}.

Definition set_out_filename (v : option string) (s : state) : state :=
  {| quit_flag := quit_flag s; exit_on_disconnect := exit_on_disconnect s; udid := udid s;
     device := device s; bt_packet_logger := bt_packet_logger s;
     use_network := use_network s; out_filename := v;
     log_format_string := log_format_string s; pcap_dumper := pcap_dumper s;
     packetlogger_fd := packetlogger_fd s; log_format := log_format s;
     trace := trace s |}.

Definition set_log_format_string (v : option string) (s : state) : state :=
  {| quit_flag := quit_flag s; exit_on_disconnect := exit_on_disconnect s; udid := udid s;
     device := device s; bt_packet_logger := bt_packet_logger s;
     use_network := use_network s; out_filename := out_filename s;
     log_format_string := v; pcap_dumper := pcap_dumper s;
     packetlogger_fd := packetlogger_fd s; log_format := log_format s;
     trace := trace s |}.

Definition set_pcap_dumper (v : option pcap_dumper_t) (s : state) : state :=
  {| quit_flag := quit_flag s; exit_on_disconnect := exit_on_disconnect s; udid := udid s;
     device := device s; bt_packet_logger := bt_packet_logger s;
     use_network := use_network s; out_filename := out_filename s;
     log_format_string := log_format_string s; pcap_dumper := v;
     packetlogger_fd := packetlogger_fd s; log_format := log_format s;
     trace := trace s |}.

Definition set_packetlogger_fd (v : Z) (s : state) : state :=
  {| quit_flag := quit_flag s; exit_on_disconnect := exit_on_disconnect s; udid := udid s;
     device := device s; bt_packet_logger := bt_packet_logger s;
     use_network := use_network s; out_filename := out_filename s;
     log_format_string := log_format_string s; pcap_dumper := pcap_dumper s;
     packetlogger_fd := v; log_format := log_format s;
     trace := trace s |}.

Definition set_log_format (v : log_format_t) (s : state) : state :=
  {| quit_flag := quit_flag s; exit_on_disconnect := exit_on_disconnect s; udid := udid s;
     device := device s; bt_packet_logger := bt_packet_logger s;
     use_network := use_network s; out_filename := out_filename s;
     log_format_string := log_format_string s; pcap_dumper := pcap_dumper s;
     packetlogger_fd := packetlogger_fd s; log_format := v;
     trace := trace s |}.

Definition set_trace (v : list effect) (s : state) : state :=
  {| quit_flag := quit_flag s; exit_on_disconnect := exit_on_disconnect s; udid := udid s;
     device := device s; bt_packet_logger := bt_packet_logger s;
     use_network := use_network s; out_filename := out_filename s;
     log_format_string := log_format_string s; pcap_dumper := pcap_dumper s;
     packetlogger_fd := packetlogger_fd s; log_format := log_format s;
     trace := v |}.

(** Record one call, after those already made. *)
Definition emit (e : effect) (s : state) : state := set_trace (trace s ++ [e]) s.

(** [printf] of an [int] with [%d]. *)
Definition show_int (z : Z) : string := NilZero.string_of_int (Z.to_int z).

(** The line feed of the C string literals. *)
Definition LF : string := String (ascii_of_nat 10) EmptyString.

(** [typedef enum { ... } PacketLoggerPacketType] *)
Definition HCI_COMMAND : byte := x00.
Definition HCI_EVENT : byte := x01.
Definition SENT_ACL_DATA : byte := x02.
Definition RECV_ACL_DATA : byte := x03.

Definition DLT_BLUETOOTH_HCI_H4_WITH_PHDR : Z := 201.

(** ** The program *)

(** A step of [main] goes on with a state, or [main] returns there. *)
Definition step : Set := state + Z * state.

Notation "'do' s <- m ; k" :=
  (match m with
   | inl s => k
   | inr r => inr r
   end) (at level 10, s name, m at level 100, k at level 200, only parsing).

Section Program.

(** The byte order of the host. *)
Variable host : byte_order.

(** [BT_MAX_PACKET_SIZE] is defined in libimobiledevice/bt_packet_logger.h,
    which is not part of the sources; the program only compares with it and
    hands it to [pcap_open_dead] as the snapshot length.  The comparisons
    below are those of C for a constant that is not negative. *)
Variable BT_MAX_PACKET_SIZE : Z.

(** Strings of config.h. *)
Variables PACKAGE_URL PACKAGE_BUGREPORT PACKAGE_VERSION : string.

Definition TOOL_NAME : string := "idevicebtlogger".

Definition LIBPCAP_BT_PHDR_SENT : Z := 0.
Definition LIBPCAP_BT_PHDR_RECV : Z := htonl host 1.

(** Callback from the packet logger service, PacketLogger format: the frame
    is written to the file as it came. *)
Definition bt_packet_logger_callback_packetlogger
    (data : list byte) (len : Z) (s : state) : list byte * state :=
  (data, emit (WriteFd (packetlogger_fd s) (firstn (Z.to_nat len) data)) s).

(** The [switch] on the packet type: the H4 type and the direction. *)
Definition map_packet_type (packet_type : byte) : byte * Z :=
  match packet_type with
  | x01 => (x04, LIBPCAP_BT_PHDR_RECV)
  | x00 => (x01, LIBPCAP_BT_PHDR_SENT)
  | x02 => (x02, LIBPCAP_BT_PHDR_SENT)
  | x03 => (x02, LIBPCAP_BT_PHDR_RECV)
  | _ => (packet_type, LIBPCAP_BT_PHDR_RECV)
  end.

(** Callback from the packet logger service, pcap format.  [data] is the
    frame, which the callback rewrites in place, and [len] its byte count.
    The result is the frame afterwards and the new state; it is [None] when
    the callback reads or writes a byte that is not in [data], which C leaves
    undefined.  [pcap_dump] is handed the dumper, the header and the
    address [&data[offset]]: the effect records the call, with the header
    and the bytes of the frame from that address on, and not what libpcap
    does with them (it uses the dumper and copies [caplen] bytes). *)
Definition bt_packet_logger_callback_pcap
    (data : list byte) (len : Z) (s : state) : option (list byte * state) :=
  let offset := wrap16 sizeof_bt_packet_logger_header_t in
  match read32 host data offsetof_length,
        read32 host data offsetof_ts_secs,
        read32 host data offsetof_ts_usecs with
  | Some h_length, Some h_ts_secs, Some h_ts_usecs =>
      let pcap_header_caplen := wrap32 (ntohl host h_length + sizeof_uint32_t) in
      let pcap_header_len :=
        wrap32 (len - sizeof_bt_packet_logger_header_t + sizeof_uint32_t) in
      let pcap_header :=
        {| caplen := pcap_header_caplen;
           len := pcap_header_len;
           tv_sec := ntohl host h_ts_secs;
           tv_usec := ntohl host h_ts_usecs |} in
      if (pcap_header_len >? BT_MAX_PACKET_SIZE)
         || (pcap_header_caplen >? BT_MAX_PACKET_SIZE)
      then
        Some (data,
              emit (Stderr ("WARNING: Packet length exceeded max size, corruption likely."
                            ++ LF ++ " ")) s)
      else
        match nth_error data (Z.to_nat offset) with
        | None => None
        | Some packet_type =>
            let '(hci_h4_type, direction) := map_packet_type packet_type in
            if Byte.eqb hci_h4_type xff then Some (data, s)
            else
              let data1 := write_bytes data (Z.to_nat offset) [hci_h4_type] in
              let offset' := wrap16 (offset - sizeof_uint32_t) in
              let data2 := write_bytes data1 (Z.to_nat offset') (store32 host direction) in
              let s1 := emit (PcapDump (pcap_dumper s) pcap_header
                                (skipn (Z.to_nat offset') data2)) s in
              Some (data2, emit (PcapDumpFlush (pcap_dumper s)) s1)
        end
  | _, _, _ => None
  end.

(** Disable HCI log capture. *)
Definition stop_logging (s : state) : state :=
  let s := emit Fflush s in
  let s := match bt_packet_logger s with
           | Some c => set_bt_packet_logger None (emit (ClientFree (Some c)) s)
           | None => s
           end in
  match device s with
  | Some d => set_device None (emit (DeviceFree d) s)
  | None => s
  end.

(** What the libraries answer while a capture is started. *)
Record connect_answers : Set := {
  idevice_new_result : option idevice_t;
  handshake_result : lockdownd_error_t;
  start_service_result : option bt_packet_logger_client_t;
  start_capture_ok : bool
}.

(** [printf] of a [char*] with [%s]. *)
Definition show (p : option string) : string :=
  match p with
  | Some u => u
  | None => "(null)"
  end.

Definition select_callback (f : log_format_t) : PacketLoggerCallback :=
  match f with
  | LOG_FORMAT_PCAP => callback_pcap
  | LOG_FORMAT_PACKETLOGGER => callback_packetlogger
  end.

(** Enable HCI log capture: the value returned and the new state.  The
    lockdownd client the handshake yields is a local variable the function
    neither uses nor releases; of the handshake the calls record the error
    code only. *)
Definition start_logging (ans : connect_answers) (s : state) : Z * state :=
  let s := emit (DeviceNew (negb (use_network s =? 0)) (idevice_new_result ans)) s in
  match idevice_new_result ans with
  | None =>
      (-1, emit (Stderr ("Device with udid " ++ show (udid s) ++ " not found!?" ++ LF)) s)
  | Some d =>
      let s := set_device (Some d) s in
      let s := emit (LockdowndHandshake (handshake_result ans)) s in
      match handshake_result ans with
      | LOCKDOWN_E_failure lerr =>
        let s := emit (Stderr ("ERROR: Could not connect to lockdownd: "
                               ++ show_int lerr ++ LF)) s in
        let s := emit (DeviceFree d) s in
        (-1, set_device None s)
      | LOCKDOWN_E_SUCCESS =>
        let s := emit (ClientStartService (start_service_result ans)) s in
        let s := set_bt_packet_logger (start_service_result ans) s in
        let callback := select_callback (log_format s) in
        let s := emit (ClientStartCapture (bt_packet_logger s) callback
                         (start_capture_ok ans)) s in
        if negb (start_capture_ok ans) then
          let s := emit (Stderr ("ERROR: Unable to start capturing bt_packet_logger." ++ LF)) s in
          let s := emit (ClientFree (bt_packet_logger s)) s in
          let s := set_bt_packet_logger None s in
          let s := emit (DeviceFree d) s in
          (-1, set_device None s)
        else
          let s := emit (Stdout ("[connected:" ++ show (udid s) ++ "]" ++ LF)) s in
          (0, emit Fflush s)
      end
  end.

(** [strcmp(udid, other) == 0].  [udid] is not [NULL] where the program
    compares: see [logger_has_udid] below. *)
Definition udid_is (p : option string) (other : string) : bool :=
  match p with
  | Some u => String.eqb u other
  | None => false
  end.

(** Callback for device events. *)
Definition device_event_cb (e : idevice_event_t) (ans : connect_answers) (s : state) : state :=
  if negb (use_network s =? 0)
     && match conn_type e with CONNECTION_NETWORK => false | _ => true end
  then s
  else if (use_network s =? 0)
     && match conn_type e with CONNECTION_USBMUXD => false | _ => true end
  then s
  else
    match event e with
    | IDEVICE_DEVICE_ADD =>
        match bt_packet_logger s with
        | Some _ => s
        | None =>
            let s := match udid s with
                     | None => set_udid (Some (event_udid e)) s
                     | Some _ => s
                     end in
            if udid_is (udid s) (event_udid e) then
              let '(r, s) := start_logging ans s in
              if negb (r =? 0) then
                emit (Stderr ("Could not start logger for udid " ++ show (udid s) ++ LF)) s
              else s
            else s
        end
    | IDEVICE_DEVICE_REMOVE =>
        match bt_packet_logger s with
        | Some _ =>
            if udid_is (udid s) (event_udid e) then
              let s := stop_logging s in
              let s := emit (Stdout ("[disconnected:" ++ show (udid s) ++ "]" ++ LF)) s in
              if negb (exit_on_disconnect s =? 0) then set_quit_flag (quit_flag s + 1) s
              else s
            else s
        | None => s
        end
    | _ => s
    end.

(** Signal handler function for cleaning up properly. *)
Definition clean_exit (sig : signal_t) (s : state) : state :=
  let s := emit (Stderr (LF ++ "Exiting..." ++ LF)) s in
  set_quit_flag (quit_flag s + 1) s.

(** [strrchr(s, '/')] moved one past the slash: what follows the last slash
    of [s], when there is one. *)
Fixpoint after_last_slash (s : string) : option string :=
  match s with
  | EmptyString => None
  | String c r =>
      match after_last_slash r with
      | Some t => Some t
      | None => if Ascii.eqb c "/" then Some r else None
      end
  end.

(** Print usage information. *)
Definition print_usage (argv0 : string) (is_error : bool) (s : state) : state :=
  let name := match after_last_slash argv0 with
              | Some t => t
              | None => argv0
              end in
  let out := if is_error then Stderr else Stdout in
  let s := emit (out ("Usage: " ++ name ++ " [OPTIONS] <FILE>" ++ LF)%string) s in
  emit (out (LF
    ++ "Capture HCI packets from a connected device." ++ LF
    ++ LF
    ++ "OPTIONS:" ++ LF
    ++ "  -u, --udid UDID     target specific device by UDID" ++ LF
    ++ "  -n, --network       connect to network device" ++ LF
    ++ "  -f, --format FORMAT logging format: packetlogger (default) or pcap" ++ LF
    ++ "  -x, --exit          exit when device disconnects" ++ LF
    ++ "  -h, --help          prints usage information" ++ LF
    ++ "  -d, --debug         enable communication debugging" ++ LF
    ++ "  -v, --version       prints version information" ++ LF
    ++ LF
    ++ "Homepage:    <" ++ PACKAGE_URL ++ ">" ++ LF
    ++ "Bug Reports: <" ++ PACKAGE_BUGREPORT ++ ">" ++ LF)%string) s.

(** What happens around the program while it waits: the second of sleep is
    over and the loop of [main] looks at [quit_flag] again, the library
    delivers a device event (with the answers a start of the capture would
    get), the packet logger service delivers a frame, a signal arrives. *)
Inductive async : Set :=
  | Wakeup
  | DeviceEvent (e : idevice_event_t) (ans : connect_answers)
  | Packet (data : list byte) (len : Z)
  | Signalled (sig : signal_t).

(** What [main] is given: [argv[0]]; for every call of [getopt_long] that
    does not return -1, the character returned and [optarg]; the arguments
    from [argv[optind]] on; the answers of the libraries; what happens while
    the program waits. *)
Record main_input : Set := {
  argv0 : string;
  getopt_returns : list (ascii * string);
  operands : list string;
  device_count : Z;
  pcap_dump_open_result : option pcap_dumper_t;
  open_result : Z;
  open_errno : Z;
  schedule : list async
}.

(** How a run ends: [main] returns a code; the program waits for ever; a
    signal without handler ends it; a callback leaves the frame it was
    given. *)
Inductive outcome : Set :=
  | Returned (code : Z) (s : state)
  | RunsForever (s : state)
  | Killed (sig : signal_t) (s : state)
  | Undefined (s : state).

(** The [while] loop over [getopt_long]. *)
Fixpoint getopt_loop (argv_0 : string) (opts : list (ascii * string)) (s : state) : step :=
  match opts with
  | [] => inl s
  | (c, optarg) :: rest =>
      match c with
      | "d"%char => getopt_loop argv_0 rest (emit (SetDebugLevel 1) s)
      | "u"%char =>
          if String.eqb optarg "" then
            let s := emit (Stderr ("ERROR: UDID must not be empty!" ++ LF)) s in
            inr (2, print_usage argv_0 true s)
          else getopt_loop argv_0 rest (set_udid (Some optarg) s)
      | "f"%char =>
          if String.eqb optarg "" then
            let s := emit (Stderr ("ERROR: FORMAT must not be empty!" ++ LF)) s in
            inr (2, print_usage argv_0 true s)
          else getopt_loop argv_0 rest (set_log_format_string (Some optarg) s)
      | "n"%char => getopt_loop argv_0 rest (set_use_network 1 s)
      | "x"%char => getopt_loop argv_0 rest (set_exit_on_disconnect 1 s)
      | "h"%char => inr (0, print_usage argv_0 false s)
      | "v"%char => inr (0, emit (Stdout (TOOL_NAME ++ " " ++ PACKAGE_VERSION ++ LF)) s)
      | _ => inr (2, print_usage argv_0 true s)
      end
  end.

(** The output file is the first argument that is not an option. *)
Definition take_out_filename (argv_0 : string) (args : list string) (s : state) : step :=
  match args with
  | f :: _ =>
      let s := set_out_filename (Some f) s in
      inl (emit (Stdout ("Output File: " ++ f ++ LF)) s)
  | [] => inr (2, print_usage argv_0 true s)
  end.

Definition select_log_format (argv_0 : string) (s : state) : step :=
  match log_format_string s with
  | Some f =>
      if String.eqb "packetlogger" f then inl (set_log_format LOG_FORMAT_PACKETLOGGER s)
      else if String.eqb "pcap" f then inl (set_log_format LOG_FORMAT_PCAP s)
      else
        let s := emit (Stdout ("Unknown logging format: '" ++ f ++ "'" ++ LF)) s in
        inr (2, print_usage argv_0 true s)
  | None => inl s
  end.

Definition look_for_devices (num : Z) (s : state) : step :=
  let s := emit (GetDeviceList num) s in
  if num =? 0 then
    match udid s with
    | None =>
        inr (-1, emit (Stderr ("No device found. Plug in a device or pass UDID with -u "
                               ++ "to wait for device to be available." ++ LF)) s)
    | Some u =>
        inl (emit (Stderr ("Waiting for device with UDID " ++ u
                           ++ " to become available..." ++ LF)) s)
    end
  else inl s.

(** The [switch] that opens the output. *)
Definition open_output (i : main_input) (s : state) : step :=
  match log_format s with
  | LOG_FORMAT_PCAP =>
      let s := emit (Stdout ("Output Format: PCAP" ++ LF)) s in
      let s := emit (PcapDumpOpen (show (out_filename s)) (pcap_dump_open_result i)) s in
      inl (set_pcap_dumper (pcap_dump_open_result i) s)
  | LOG_FORMAT_PACKETLOGGER =>
      let s := emit (Stdout ("Output Format: PacketLogger" ++ LF)) s in
      let s := emit (Open (show (out_filename s)) (open_result i)) s in
      let s := set_packetlogger_fd (open_result i) s in
      if packetlogger_fd s <? 0 then
        inr (-2, emit (Stderr ("Failed to open file " ++ show (out_filename s)
                               ++ ", errno = " ++ show_int (open_errno i) ++ LF)) s)
      else inl s
  end.

Definition signal_eqb (a b : signal_t) : bool :=
  match a, b with
  | SIGINT, SIGINT | SIGTERM, SIGTERM | SIGQUIT, SIGQUIT | SIGPIPE, SIGPIPE => true
  | _, _ => false
  end.

(** The handler the calls of [signal] made so far have left for [sig]. *)
Definition signal_disposition (tr : list effect) (sig : signal_t) : option sighandler_t :=
  fold_left (fun acc e =>
               match e with
               | Signal sg h => if signal_eqb sg sig then Some h else acc
               | _ => acc
               end) tr None.

(** [while (!quit_flag) sleep(1);] with what happens meanwhile.  A frame
    is delivered to the callback [start_logging] chose while the packet
    logger client exists.  When nothing more happens the seconds still go
    by, and the loop ends if the flag is set. *)
Fixpoint wait_for_quit (sched : list async) (s : state) : state + outcome :=
  match sched with
  | [] => if quit_flag s =? 0 then inr (RunsForever s) else inl s
  | Wakeup :: rest => if quit_flag s =? 0 then wait_for_quit rest s else inl s
  | DeviceEvent e ans :: rest => wait_for_quit rest (device_event_cb e ans s)
  | Packet data len :: rest =>
      match bt_packet_logger s with
      | None => wait_for_quit rest s
      | Some _ =>
          match select_callback (log_format s) with
          | callback_pcap =>
              match bt_packet_logger_callback_pcap data len s with
              | Some (_, s') => wait_for_quit rest s'
              | None => inr (Undefined s)
              end
          | callback_packetlogger =>
              wait_for_quit rest (snd (bt_packet_logger_callback_packetlogger data len s))
          end
      end
  | Signalled sig :: rest =>
      match signal_disposition (trace s) sig with
      | Some handler_clean_exit => wait_for_quit rest (clean_exit sig s)
      | Some SIG_IGN => wait_for_quit rest s
      | None => inr (Killed sig s)
      end
  end.

(** What [main] does once the loop is left. *)
Definition shutdown (s : state) : state :=
  let s := emit EventUnsubscribe s in
  let s := stop_logging s in
  let s := match pcap_dumper s with
           | Some p => emit (PcapDumpClose p) s
           | None => s
           end in
  if packetlogger_fd s >=? 0 then emit (Close (packetlogger_fd s)) s else s.

(** [main] up to the subscription to device events. *)
Definition startup (i : main_input) : step :=
  let s := emit (Signal SIGINT handler_clean_exit) initial_state in
  let s := emit (Signal SIGTERM handler_clean_exit) s in
  let s := emit (Signal SIGQUIT handler_clean_exit) s in
  let s := emit (Signal SIGPIPE SIG_IGN) s in
  do s <- getopt_loop (argv0 i) (getopt_returns i) s;
  do s <- take_out_filename (argv0 i) (operands i) s;
  do s <- select_log_format (argv0 i) s;
  do s <- look_for_devices (device_count i) s;
  do s <- open_output i s;
  inl (emit EventSubscribe s).

(** Program entry. *)
Definition main (i : main_input) : outcome :=
  match startup i with
  | inr (code, s) => Returned code s
  | inl s =>
      match (if quit_flag s =? 0 then wait_for_quit (schedule i) s else inl s) with
      | inl s => Returned 0 (shutdown s)
      | inr o => o
      end
  end.

End Program.

(** ** Words of the specification *)

(** The header fields of a frame, read big-endian as the specification
    gives them. *)
Definition declared_length (data : list byte) : Z := be32 (firstn 4 data).
Definition timestamp_seconds (data : list byte) : Z := be32 (firstn 4 (skipn 4 data)).
Definition timestamp_microseconds (data : list byte) : Z := be32 (firstn 4 (skipn 8 data)).

(** The type byte of a frame, when the frame reaches that far, and the
    payload after it. *)
Definition type_byte (data : list byte) : option byte :=
  nth_error data (Z.to_nat sizeof_bt_packet_logger_header_t).
Definition payload (data : list byte) : list byte :=
  skipn (S (Z.to_nat sizeof_bt_packet_logger_header_t)) data.

(** The direction pseudo-header of the capture format. *)
Definition SENT : list byte := [x00; x00; x00; x00].
Definition RECV : list byte := [x00; x00; x00; x01].

(** The table of the specification: the UART type and the direction for a
    type byte. *)
Definition uart_table (t : byte) : byte * list byte :=
  match t with
  | x01 => (x04, RECV)
  | x00 => (x01, SENT)
  | x02 => (x02, SENT)
  | x03 => (x02, RECV)
  | other => (other, RECV)
  end.

(** The body of the translated record of the specification: direction,
    mapped type, payload. *)
Definition record_body (data : list byte) (t : byte) : list byte :=
  snd (uart_table t) ++ fst (uart_table t) :: payload data.

(** The records handed to [pcap_dump] so far. *)
Definition is_pcap_dump (e : effect) : bool :=
  match e with
  | PcapDump _ _ _ => true
  | _ => false
  end.

Definition records_dumped (s : state) : list effect := filter is_pcap_dump (trace s).

(** Everything written to the output, in either format. *)
Definition is_sink_write (e : effect) : bool :=
  match e with
  | PcapDump _ _ _ | WriteFd _ _ => true
  | _ => false
  end.

Definition is_stderr (e : effect) : bool :=
  match e with
  | Stderr _ => true
  | _ => false
  end.

(** The calls that close the output. *)
Definition is_sink_close (e : effect) : bool :=
  match e with
  | PcapDumpClose _ | Close _ => true
  | _ => false
  end.

(** The transport kind the monitor is configured for. *)
Definition configured_transport (s : state) : idevice_connection_type :=
  if use_network s =? 0 then CONNECTION_USBMUXD else CONNECTION_NETWORK.

Definition conn_type_eqb (a b : idevice_connection_type) : bool :=
  match a, b with
  | CONNECTION_USBMUXD, CONNECTION_USBMUXD | CONNECTION_NETWORK, CONNECTION_NETWORK => true
  | _, _ => false
  end.

(** An attach event of the configured transport kind. *)
Definition matching_attach (s : state) (e : idevice_event_t) : bool :=
  conn_type_eqb (conn_type e) (configured_transport s)
  && match event e with
     | IDEVICE_DEVICE_ADD => true
     | _ => false
     end.

(** The device events of a run, delivered one after the other. *)
Definition deliver_events (evs : list (idevice_event_t * connect_answers)) (s : state) : state :=
  fold_left (fun st ea => device_event_cb (fst ea) (snd ea) st) evs s.

(** The calls that neither install a signal handler, nor end the
    subscription to device events, nor close the output. *)
Definition calm (e : effect) : bool :=
  match e with
  | Signal _ _ | EventUnsubscribe | PcapDumpClose _ | Close _ => false
  | _ => true
  end.

(** From [s] to [s'] the program made calm calls only and kept the handles
    of the output. *)
Definition calmly (s s' : state) : Prop :=
  (exists l, trace s' = trace s ++ l /\ forallb calm l = true)
  /\ pcap_dumper s' = pcap_dumper s
  /\ packetlogger_fd s' = packetlogger_fd s.

(** The same for a step of [main], whether [main] goes on or returns. *)
Definition step_calmly (s : state) (r : state + Z * state) : Prop :=
  match r with
  | inl s' => calmly s s'
  | inr (_, s') => calmly s s'
  end.

(** The four calls of [signal] at the head of [main]. *)
Definition handlers_installed : list effect :=
  [Signal SIGINT handler_clean_exit; Signal SIGTERM handler_clean_exit;
   Signal SIGQUIT handler_clean_exit; Signal SIGPIPE SIG_IGN].

(** The calls of the shutdown that release the handles of the capture. *)
Definition released (s : state) : list effect :=
  match bt_packet_logger s with
  | Some c => [ClientFree (Some c)]
  | None => []
  end
  ++ match device s with
     | Some d => [DeviceFree d]
     | None => []
     end.

(** The calls of the shutdown that close the output. *)
Definition closed (s : state) : list effect :=
  match pcap_dumper s with
  | Some p => [PcapDumpClose p]
  | None => []
  end
  ++ (if packetlogger_fd s >=? 0 then [Close (packetlogger_fd s)] else []).

(** The pcap callback returns and has handed a record to [pcap_dump]. *)
Definition dumps_record (host : byte_order) (max : Z)
    (data : list byte) (n : Z) (s : state) : Prop :=
  exists data' s',
    bt_packet_logger_callback_pcap host max data n s = Some (data', s')
    /\ records_dumped s' <> records_dumped s.

(** The state with what was printed to standard error left out. *)
Definition without_stderr (s : state) : state :=
  set_trace (filter (fun e => negb (is_stderr e)) (trace s)) s.

(** ** Frames and runs used as examples *)

(** A frame from its header fields, type byte and payload. *)
Definition frame_of (length_field secs usecs : Z) (t : byte) (p : list byte) : list byte :=
  store32 BigEndian length_field ++ store32 BigEndian secs ++ store32 BigEndian usecs
  ++ t :: p.

(** An HCI event with declared length 10. *)
Definition event_frame : list byte := frame_of 10 100 200 HCI_EVENT [x0e; x04; x01].

(** Frames with the type byte 0xFF. *)
Definition ff_frame : list byte := frame_of 4 1 2 xff [x00; x00; x00].
Definition ff_note_frame : list byte := frame_of 10 100 200 xff [x0e; x04; x01].
Definition ff_short_frame : list byte := frame_of 1000 0 0 xff [].

(** A frame whose declared length is the largest a [uint32_t] holds. *)
Definition wrapping_frame : list byte := frame_of 4294967295 0 0 HCI_COMMAND [x03; x0c; x00].

(** A frame that declares more than it holds, and one that declares more
    than the maximum allows. *)
Definition overlong_frame : list byte := frame_of 1000 0 0 SENT_ACL_DATA [x2a].
Definition oversized_frame : list byte := frame_of 70000 0 0 HCI_EVENT [].

(** The variables while a capture to a pcap file runs. *)
Definition capture_state : state :=
  set_bt_packet_logger (Some 2%nat)
    (set_device (Some 1%nat)
       (set_udid (Some "00008030-001A2D3E4F50002E"%string)
          (set_pcap_dumper (Some 5%nat) (set_log_format LOG_FORMAT_PCAP initial_state)))).

Definition connects : connect_answers :=
  {| idevice_new_result := Some 1%nat;
     handshake_result := LOCKDOWN_E_SUCCESS;
     start_service_result := Some 2%nat;
     start_capture_ok := true |}.

Definition usb_event (t : idevice_event_type) (u : string) : idevice_event_t :=
  {| event := t; event_udid := u; conn_type := CONNECTION_USBMUXD |}.

(** [idevicebtlogger -f pcap -x out.pcap]: the device is attached, sends a
    frame and is detached. *)
Definition pcap_run : main_input :=
  {| argv0 := "/usr/bin/idevicebtlogger";
     getopt_returns := [("f"%char, "pcap"%string); ("x"%char, ""%string)];
     operands := ["out.pcap"%string];
     device_count := 1;
     pcap_dump_open_result := Some 5%nat;
     open_result := -1;
     open_errno := 0;
     schedule := [DeviceEvent (usb_event IDEVICE_DEVICE_ADD "abc") connects;
                  Packet event_frame 16;
                  DeviceEvent (usb_event IDEVICE_DEVICE_REMOVE "abc") connects;
                  Wakeup] |}.

Definition pcap_run_subscribed : state :=
  Eval vm_compute in
    match startup "" "" "" pcap_run with
    | inl s => s
    | inr (_, s) => s
    end.

Definition pcap_run_end : state :=
  Eval vm_compute in
    match main LittleEndian 65535 "" "" "" pcap_run with
    | Returned _ s | RunsForever s | Killed _ s | Undefined s => s
    end.

(** [idevicebtlogger -u abc out.pklg] with no device present: the device
    is attached and sends a frame, then the process is told to terminate. *)
Definition sigterm_run : main_input :=
  {| argv0 := "idevicebtlogger";
     getopt_returns := [("u"%char, "abc"%string)];
     operands := ["out.pklg"%string];
     device_count := 0;
     pcap_dump_open_result := None;
     open_result := 3;
     open_errno := 0;
     schedule := [DeviceEvent (usb_event IDEVICE_DEVICE_ADD "abc") connects;
                  Packet event_frame 16;
                  Signalled SIGTERM;
                  DeviceEvent (usb_event IDEVICE_DEVICE_REMOVE "xyz") connects] |}.

(** A run given by what [getopt_long] returns, the arguments left and the
    number of devices found; the output can be opened and nothing happens
    but a request to terminate. *)
Definition run_of (opts : list (ascii * string)) (args : list string) (num : Z) : main_input :=
  {| argv0 := "idevicebtlogger";
     getopt_returns := opts;
     operands := args;
     device_count := num;
     pcap_dump_open_result := Some 5%nat;
     open_result := 3;
     open_errno := 0;
     schedule := [Signalled SIGTERM] |}.

(** The code [main] returns, when it returns. *)
Definition exit_code (o : outcome) : option Z :=
  match o with
  | Returned code _ => Some code
  | _ => None
  end.

(** The calls that end a run: subscription, release and closing. *)
Definition is_teardown (e : effect) : bool :=
  match e with
  | EventUnsubscribe | ClientFree _ | DeviceFree _ | PcapDumpClose _ | Close _ => true
  | _ => false
  end.

(** [idevicebtlogger -f pcap /nonexistent/out.pcap] with a device present:
    [pcap_dump_open] returns [NULL]; later the user interrupts. *)
Definition pcap_unwritable_run : main_input :=
  {| argv0 := "idevicebtlogger";
     getopt_returns := [("f"%char, "pcap"%string)];
     operands := ["/nonexistent/out.pcap"%string];
     device_count := 1;
     pcap_dump_open_result := None;
     open_result := -1;
     open_errno := 2;
     schedule := [Signalled SIGINT; Wakeup] |}.

(** The same in the PacketLogger format: [open] returns -1. *)
Definition packetlogger_unwritable_run : main_input :=
  {| argv0 := "idevicebtlogger";
     getopt_returns := [];
     operands := ["/nonexistent/out.pklg"%string];
     device_count := 1;
     pcap_dump_open_result := None;
     open_result := -1;
     open_errno := 2;
     schedule := [Signalled SIGINT; Wakeup] |}.

(** ** Words for the properties of the rest of the program *)

(** While the packet logger client exists, so do the device and the
    identity. *)
Definition session_ok (s : state) : Prop :=
  bt_packet_logger s <> None -> device s <> None /\ udid s <> None.

(** The PacketLogger callback on one frame after the other, each with its
    own byte count. *)
Definition write_frames (frames : list (list byte)) (s : state) : state :=
  fold_left
    (fun st f =>
       snd (bt_packet_logger_callback_packetlogger f (Z.of_nat (List.length f)) st))
    frames s.

(** The bytes the calls of [write] have put into the descriptor [fd]. *)
Definition bytes_written (fd : Z) (tr : list effect) : list byte :=
  flat_map (fun e =>
              match e with
              | WriteFd fd' b => if fd' =? fd then b else []
              | _ => []
              end) tr.

(** The returns of [getopt_long] at which the loop over the options makes
    [main] return: help, version, an empty UDID or format, and any character
    that is not an option of the program. *)
Definition option_stops (o : ascii * string) : bool :=
  match fst o with
  | "d"%char | "n"%char | "x"%char => false
  | "u"%char | "f"%char => String.eqb (snd o) ""
  | _ => true
  end.

(** The argument of the last occurrence of the option [c]. *)
Fixpoint last_optarg (c : ascii) (opts : list (ascii * string)) : option string :=
  match opts with
  | [] => None
  | (c', a) :: rest =>
      match last_optarg c rest with
      | Some x => Some x
      | None => if Ascii.eqb c' c then Some a else None
      end
  end.

Definition has_option (c : ascii) (opts : list (ascii * string)) : bool :=
  existsb (fun o => Ascii.eqb (fst o) c) opts.

(** What an option that does not stop the loop does to the variables. *)
Definition apply_option (o : ascii * string) (s : state) : state :=
  if Ascii.eqb (fst o) "d" then emit (SetDebugLevel 1) s
  else if Ascii.eqb (fst o) "u" then set_udid (Some (snd o)) s
  else if Ascii.eqb (fst o) "f" then set_log_format_string (Some (snd o)) s
  else if Ascii.eqb (fst o) "n" then set_use_network 1 s
  else if Ascii.eqb (fst o) "x" then set_exit_on_disconnect 1 s
  else s.

(** The code with which the loop over the options makes [main] return at
    the option [o]. *)
Definition stop_code (o : ascii * string) : Z :=
  if Ascii.eqb (fst o) "h" || Ascii.eqb (fst o) "v" then 0 else 2.

(** The calls [main] makes before it opens the output, other than those of
    [signal]. *)
Definition quiet (e : effect) : bool :=
  match e with
  | Stdout _ | Stderr _ | SetDebugLevel _ | GetDeviceList _ => true
  | _ => false
  end.

(** From [s] to [s'] only such calls were made, and neither the flag nor
    the handles of the capture changed. *)
Definition quietly (s s' : state) : Prop :=
  (exists l, trace s' = trace s ++ l /\ forallb quiet l = true)
  /\ quit_flag s' = quit_flag s
  /\ device s' = device s
  /\ bt_packet_logger s' = bt_packet_logger s.

Definition step_quietly (s : state) (r : state + Z * state) : Prop :=
  match r with
  | inl s' => quietly s s'
  | inr (_, s') => quietly s s'
  end.

(** What the options and the start of [main] settle: [s'] has the settings
    and the output handles of [s]. *)
Definition same_settings (s s' : state) : Prop :=
  use_network s' = use_network s
  /\ exit_on_disconnect s' = exit_on_disconnect s
  /\ log_format s' = log_format s
  /\ log_format_string s' = log_format_string s
  /\ out_filename s' = out_filename s
  /\ pcap_dumper s' = pcap_dumper s
  /\ packetlogger_fd s' = packetlogger_fd s.

Fixpoint has_slash (s : string) : bool :=
  match s with
  | EmptyString => false
  | String c r => Ascii.eqb c "/" || has_slash r
  end.

(** The two lines of [print_usage] for the program name [name]. *)
Definition usage_lines (url bugreport name : string) : list string :=
  [("Usage: " ++ name ++ " [OPTIONS] <FILE>" ++ LF)%string;
   (LF
    ++ "Capture HCI packets from a connected device." ++ LF
    ++ LF
    ++ "OPTIONS:" ++ LF
    ++ "  -u, --udid UDID     target specific device by UDID" ++ LF
    ++ "  -n, --network       connect to network device" ++ LF
    ++ "  -f, --format FORMAT logging format: packetlogger (default) or pcap" ++ LF
    ++ "  -x, --exit          exit when device disconnects" ++ LF
    ++ "  -h, --help          prints usage information" ++ LF
    ++ "  -d, --debug         enable communication debugging" ++ LF
    ++ "  -v, --version       prints version information" ++ LF
    ++ LF
    ++ "Homepage:    <" ++ url ++ ">" ++ LF
    ++ "Bug Reports: <" ++ bugreport ++ ">" ++ LF)%string].

(** A schedule in which no signal arrives. *)
Definition no_signal (a : async) : bool :=
  match a with
  | Signalled _ => false
  | _ => true
  end.

(** A frame whose header declares the type byte and the payload. *)
Definition consistent_frame : list byte := frame_of 4 100 200 HCI_EVENT [x0e; x04; x01].

(** Answers of the libraries when lockdownd refuses the handshake. *)
Definition refuses : connect_answers :=
  {| idevice_new_result := Some 1%nat;
     handshake_result := LOCKDOWN_E_failure (-17);
     start_service_result := None;
     start_capture_ok := false |}.

Definition started : Z * state := Eval vm_compute in start_logging connects initial_state.

(** The state in which the loop of [pcap_run] is left. *)
Definition pcap_run_left : state :=
  Eval vm_compute in
    match wait_for_quit LittleEndian 65535 (schedule pcap_run) pcap_run_subscribed with
    | inl s => s
    | inr _ => initial_state
    end.

(** [idevicebtlogger out.pklg]: a device comes and goes, and nothing asks
    the program to end. *)
Definition idle_run : main_input :=
  {| argv0 := "idevicebtlogger";
     getopt_returns := [];
     operands := ["out.pklg"%string];
     device_count := 1;
     pcap_dump_open_result := None;
     open_result := 3;
     open_errno := 0;
     schedule := [DeviceEvent (usb_event IDEVICE_DEVICE_ADD "abc") connects;
                  Packet event_frame 16;
                  DeviceEvent (usb_event IDEVICE_DEVICE_REMOVE "abc") connects;
                  Wakeup] |}.

Definition idle_run_subscribed : state :=
  Eval vm_compute in
    match startup "" "" "" idle_run with
    | inl s => s
    | inr (_, s) => s
    end.

(** [idevicebtlogger -q out.pklg]: [getopt_long] returns '?'. *)
Definition usage_error_end : state :=
  Eval vm_compute in
    match main LittleEndian 65535 "" "" ""
            (run_of [("?"%char, ""%string)] ["out.pklg"%string] 1) with
    | Returned _ s | RunsForever s | Killed _ s | Undefined s => s
    end.

(** * Properties *)

(** ** Bytes and byte order *)

Lemma byte_to_Z_range (b : byte) : 0 <= byte_to_Z b < 256.
Proof.
  unfold byte_to_Z. pose proof (Byte.to_N_bounded b). lia.
Qed.

Lemma Z_to_byte_unique (z : Z) (b : byte) : z mod 256 = byte_to_Z b -> Z_to_byte z = b.
Proof.
  unfold Z_to_byte, byte_to_Z. intros ->.
  rewrite N2Z.id, Byte.of_to_N. reflexivity.
Qed.

Lemma byte_to_Z_to_byte (z : Z) : byte_to_Z (Z_to_byte z) = z mod 256.
Proof.
  assert (H : 0 <= z mod 256 < 256) by (apply Z.mod_pos_bound; lia).
  unfold Z_to_byte, byte_to_Z.
  destruct (Byte.of_N (Z.to_N (z mod 256))) as [b|] eqn:E.
  - apply Byte.to_of_N in E. rewrite E. lia.
  - apply Byte.of_N_None_iff in E. lia.
Qed.

Lemma le_decode_4 (b0 b1 b2 b3 : byte) :
  le_decode [b0; b1; b2; b3]
  = byte_to_Z b0 + 2 ^ 8 * byte_to_Z b1 + 2 ^ 16 * byte_to_Z b2 + 2 ^ 24 * byte_to_Z b3.
Proof.
  unfold le_decode, fold_right.
  change (2 ^ 8) with 256; change (2 ^ 16) with 65536; change (2 ^ 24) with 16777216.
  lia.
Qed.

Lemma le_decode_4_range (b0 b1 b2 b3 : byte) : 0 <= le_decode [b0; b1; b2; b3] < 2 ^ 32.
Proof.
  rewrite le_decode_4.
  pose proof (byte_to_Z_range b0). pose proof (byte_to_Z_range b1).
  pose proof (byte_to_Z_range b2). pose proof (byte_to_Z_range b3). lia.
Qed.

Lemma le_bytes32_le_decode (b0 b1 b2 b3 : byte) :
  le_bytes32 (le_decode [b0; b1; b2; b3]) = [b0; b1; b2; b3].
Proof.
  rewrite le_decode_4. unfold le_bytes32.
  pose proof (byte_to_Z_range b0). pose proof (byte_to_Z_range b1).
  pose proof (byte_to_Z_range b2). pose proof (byte_to_Z_range b3).
  repeat f_equal; apply Z_to_byte_unique;
    change (2 ^ 8) with 256; change (2 ^ 16) with 65536; change (2 ^ 24) with 16777216;
    Z.div_mod_to_equations; lia.
Qed.

Lemma le_decode_le_bytes32 (x : Z) : le_decode (le_bytes32 x) = x mod 2 ^ 32.
Proof.
  unfold le_bytes32. rewrite le_decode_4, !byte_to_Z_to_byte.
  change (2 ^ 8) with 256; change (2 ^ 16) with 65536; change (2 ^ 24) with 16777216.
  change (2 ^ 32) with 4294967296.
  Z.div_mod_to_equations; lia.
Qed.

Lemma length_4_inv {A : Type} (l : list A) :
  List.length l = 4%nat -> exists a b c d, l = [a; b; c; d].
Proof.
  destruct l as [|a [|b [|c [|d [|e l]]]]]; simpl; try discriminate.
  intros _. now exists a, b, c, d.
Qed.

(** Storing what was loaded gives the bytes back, in either byte order. *)
Lemma store32_load32 (order : byte_order) (bs : list byte) :
  List.length bs = 4%nat -> store32 order (load32 order bs) = bs.
Proof.
  intros H. destruct (length_4_inv bs H) as (a & b & c & d & ->).
  destruct order; unfold store32, load32.
  - apply le_bytes32_le_decode.
  - change (rev [a; b; c; d]) with [d; c; b; a].
    rewrite le_bytes32_le_decode. reflexivity.
Qed.

(** [ntohl] of a field read from memory is the big-endian value of its
    bytes, whatever the byte order of the host. *)
Lemma ntohl_load32 (host : byte_order) (bs : list byte) :
  List.length bs = 4%nat -> ntohl host (load32 host bs) = be32 bs.
Proof.
  intros H. unfold ntohl. rewrite store32_load32 by assumption. reflexivity.
Qed.

(** [htonl] of a value is stored as the big-endian bytes of the value. *)
Lemma store32_htonl (host : byte_order) (v : Z) :
  store32 host (htonl host v) = store32 BigEndian v.
Proof.
  unfold htonl. apply store32_load32. reflexivity.
Qed.

Lemma be32_range (bs : list byte) : List.length bs = 4%nat -> 0 <= be32 bs < 2 ^ 32.
Proof.
  intros H. destruct (length_4_inv bs H) as (a & b & c & d & ->).
  unfold be32. change (rev [a; b; c; d]) with [d; c; b; a]. apply le_decode_4_range.
Qed.

Lemma store32_RECV (host : byte_order) :
  store32 host (LIBPCAP_BT_PHDR_RECV host) = [x00; x00; x00; x01].
Proof.
  unfold LIBPCAP_BT_PHDR_RECV. rewrite store32_htonl. reflexivity.
Qed.

Lemma store32_SENT (host : byte_order) :
  store32 host LIBPCAP_BT_PHDR_SENT = [x00; x00; x00; x00].
Proof.
  destruct host; reflexivity.
Qed.

(** ** The pcap callback on a frame with header and type byte *)

Section Translator.

Variable host : byte_order.
Variable BT_MAX_PACKET_SIZE : Z.

(** A frame that holds the header and a type byte splits into the three
    header fields, the type byte and the payload. *)
Lemma frame_split (data : list byte) (t : byte) :
  nth_error data 12 = Some t ->
  exists l0 l1 l2 l3 s0 s1 s2 s3 u0 u1 u2 u3 p,
    data = [l0; l1; l2; l3; s0; s1; s2; s3; u0; u1; u2; u3; t] ++ p.
Proof.
  destruct data as [|l0 [|l1 [|l2 [|l3 [|s0 [|s1 [|s2 [|s3 [|u0 [|u1 [|u2 [|u3 [|t' p]]]]]]]]]]]]];
    simpl; try discriminate.
  intros [= ->]. now exists l0, l1, l2, l3, s0, s1, s2, s3, u0, u1, u2, u3, p.
Qed.

(** What the callback does with such a frame, case by case. *)
Lemma callback_pcap_frame (l0 l1 l2 l3 s0 s1 s2 s3 u0 u1 u2 u3 t : byte)
    (p : list byte) (n : Z) (s : state) :
  let data := [l0; l1; l2; l3; s0; s1; s2; s3; u0; u1; u2; u3; t] ++ p in
  let h := {| tv_sec := be32 [s0; s1; s2; s3];
              tv_usec := be32 [u0; u1; u2; u3];
              caplen := wrap32 (be32 [l0; l1; l2; l3] + 4);
              len := wrap32 (n - 12 + 4) |} in
  bt_packet_logger_callback_pcap host BT_MAX_PACKET_SIZE data n s =
    if (len h >? BT_MAX_PACKET_SIZE) || (caplen h >? BT_MAX_PACKET_SIZE) then
      Some (data,
            emit (Stderr ("WARNING: Packet length exceeded max size, corruption likely."
                          ++ LF ++ " ")) s)
    else if Byte.eqb (fst (map_packet_type host t)) xff then Some (data, s)
    else
      let body := store32 host (snd (map_packet_type host t))
                  ++ fst (map_packet_type host t) :: p in
      Some ([l0; l1; l2; l3; s0; s1; s2; s3] ++ body,
            emit (PcapDumpFlush (pcap_dumper s))
              (emit (PcapDump (pcap_dumper s) h body) s)).
Proof.
  intros data h. unfold bt_packet_logger_callback_pcap.
  unfold read32, offsetof_length, offsetof_ts_secs, offsetof_ts_usecs.
  subst data.
  cbn [app skipn firstn List.length Nat.eqb].
  rewrite !ntohl_load32 by reflexivity.
  change (Z.to_nat (wrap16 sizeof_bt_packet_logger_header_t)) with 12%nat.
  change (Z.to_nat (wrap16 (wrap16 sizeof_bt_packet_logger_header_t - sizeof_uint32_t)))
    with 8%nat.
  change sizeof_bt_packet_logger_header_t with 12.
  change sizeof_uint32_t with 4.
  subst h. cbn [len caplen nth_error].
  destruct (_ || _); [reflexivity|].
  destruct (map_packet_type host t) as [hci_h4_type direction]. cbn [fst snd].
  destruct (Byte.eqb hci_h4_type xff); [reflexivity|].
  assert (E : write_bytes
                (write_bytes
                   (l0 :: l1 :: l2 :: l3 :: s0 :: s1 :: s2 :: s3
                       :: u0 :: u1 :: u2 :: u3 :: t :: p) 12 [hci_h4_type])
                8 (store32 host direction)
              = [l0; l1; l2; l3; s0; s1; s2; s3]
                ++ store32 host direction ++ hci_h4_type :: p).
  { unfold write_bytes. destruct host; reflexivity. }
  rewrite E. reflexivity.
Qed.

Lemma map_packet_type_table (t : byte) :
  (fst (map_packet_type host t), store32 host (snd (map_packet_type host t)))
  = uart_table t.
Proof.
  destruct t; cbn [map_packet_type uart_table fst snd];
    rewrite ?store32_RECV, ?store32_SENT; reflexivity.
Qed.

Lemma map_packet_type_xff (t : byte) :
  Byte.eqb (fst (map_packet_type host t)) xff = Byte.eqb t xff.
Proof.
  destruct t; reflexivity.
Qed.

Lemma byte_eqb_neq (a b : byte) : a <> b -> Byte.eqb a b = false.
Proof.
  intros H. destruct (Byte.eqb a b) eqn:E; [|reflexivity].
  apply Byte.byte_dec_bl in E. contradiction.
Qed.

(** The same on a frame given as a whole. *)
Lemma callback_pcap_data (data : list byte) (t : byte) (n : Z) (s : state) :
  type_byte data = Some t ->
  let h := {| tv_sec := timestamp_seconds data;
              tv_usec := timestamp_microseconds data;
              caplen := wrap32 (declared_length data + 4);
              len := wrap32 (n - 12 + 4) |} in
  bt_packet_logger_callback_pcap host BT_MAX_PACKET_SIZE data n s =
    if (len h >? BT_MAX_PACKET_SIZE) || (caplen h >? BT_MAX_PACKET_SIZE) then
      Some (data,
            emit (Stderr ("WARNING: Packet length exceeded max size, corruption likely."
                          ++ LF ++ " ")) s)
    else if Byte.eqb t xff then Some (data, s)
    else
      Some (firstn 8 data ++ record_body data t,
            emit (PcapDumpFlush (pcap_dumper s))
              (emit (PcapDump (pcap_dumper s) h (record_body data t)) s)).
Proof.
  intros Ht.
  destruct (frame_split data t Ht)
    as (l0 & l1 & l2 & l3 & s0 & s1 & s2 & s3 & u0 & u1 & u2 & u3 & p & ->).
  intros h. rewrite callback_pcap_frame. rewrite map_packet_type_xff.
  unfold record_body.
  rewrite <- (map_packet_type_table t). cbn [fst snd]. reflexivity.
Qed.

(** A frame that holds the whole header is dropped when a computed length
    is over the maximum, whatever follows the header. *)
Lemma callback_pcap_drop (data : list byte) (n : Z) (s : state) :
  (12 <= List.length data)%nat ->
  (wrap32 (n - 12 + 4) >? BT_MAX_PACKET_SIZE)
  || (wrap32 (declared_length data + 4) >? BT_MAX_PACKET_SIZE) = true ->
  bt_packet_logger_callback_pcap host BT_MAX_PACKET_SIZE data n s =
    Some (data,
          emit (Stderr ("WARNING: Packet length exceeded max size, corruption likely."
                        ++ LF ++ " ")) s).
Proof.
  intros Hlen Hbig.
  destruct data as [|l0 [|l1 [|l2 [|l3 [|s0 [|s1 [|s2 [|s3 [|u0 [|u1 [|u2 [|u3 p]]]]]]]]]]]];
    simpl in Hlen; try lia.
  unfold bt_packet_logger_callback_pcap.
  unfold read32, offsetof_length, offsetof_ts_secs, offsetof_ts_usecs.
  cbn [app skipn firstn List.length Nat.eqb].
  rewrite !ntohl_load32 by reflexivity.
  change sizeof_bt_packet_logger_header_t with 12.
  change sizeof_uint32_t with 4.
  unfold declared_length in Hbig. cbn [firstn] in Hbig.
  rewrite Hbig. reflexivity.
Qed.

Lemma emit_emit (e1 e2 : effect) (s : state) :
  emit e2 (emit e1 s) = set_trace (trace s ++ [e1; e2]) s.
Proof.
  unfold emit, set_trace. cbn. rewrite <- app_assoc. reflexivity.
Qed.

Lemma length_direction (t : byte) : List.length (snd (uart_table t)) = 4%nat.
Proof.
  destruct t; reflexivity.
Qed.

Lemma length_record_body (data : list byte) (t : byte) :
  type_byte data = Some t ->
  Z.of_nat (List.length (record_body data t)) = Z.of_nat (List.length data) - 8.
Proof.
  intros Ht.
  destruct (frame_split data t Ht)
    as (l0 & l1 & l2 & l3 & s0 & s1 & s2 & s3 & u0 & u1 & u2 & u3 & p & ->).
  unfold record_body, payload. rewrite length_app, length_direction.
  change (Z.to_nat sizeof_bt_packet_logger_header_t) with 12%nat.
  cbn [app skipn List.length]. lia.
Qed.

Lemma declared_length_range (data : list byte) (t : byte) :
  type_byte data = Some t -> 0 <= declared_length data < 2 ^ 32.
Proof.
  intros Ht.
  destruct (frame_split data t Ht)
    as (l0 & l1 & l2 & l3 & s0 & s1 & s2 & s3 & u0 & u1 & u2 & u3 & p & ->).
  apply be32_range. reflexivity.
Qed.

Lemma type_byte_length (data : list byte) (t : byte) :
  type_byte data = Some t -> 13 <= Z.of_nat (List.length data).
Proof.
  intros Ht.
  destruct (frame_split data t Ht)
    as (l0 & l1 & l2 & l3 & s0 & s1 & s2 & s3 & u0 & u1 & u2 & u3 & p & ->).
  cbn [app List.length]. lia.
Qed.

Lemma wrap32_small (z : Z) : 0 <= z < 2 ^ 32 -> wrap32 z = z.
Proof.
  intros H. unfold wrap32. apply Z.mod_small. assumption.
Qed.

(** A frame within the limits, with a type byte other than 0xFF, is handed
    to [pcap_dump] with the lengths written without wrap-around. *)
Lemma callback_pcap_accepts (data : list byte) (t : byte) (n : Z) (s : state) :
  BT_MAX_PACKET_SIZE < 2 ^ 32 ->
  type_byte data = Some t ->
  t <> xff ->
  Z.of_nat (List.length data) = n ->
  declared_length data + sizeof_uint32_t <= BT_MAX_PACKET_SIZE ->
  n - sizeof_bt_packet_logger_header_t + sizeof_uint32_t <= BT_MAX_PACKET_SIZE ->
  bt_packet_logger_callback_pcap host BT_MAX_PACKET_SIZE data n s =
    Some (firstn 8 data ++ record_body data t,
          emit (PcapDumpFlush (pcap_dumper s))
            (emit (PcapDump (pcap_dumper s)
                     {| tv_sec := timestamp_seconds data;
                        tv_usec := timestamp_microseconds data;
                        caplen := declared_length data + sizeof_uint32_t;
                        len := n - sizeof_bt_packet_logger_header_t + sizeof_uint32_t |}
                     (record_body data t)) s)).
Proof.
  intros Hmax Ht Hff Hn Hcap Hlen.
  pose proof (declared_length_range data t Ht) as HL.
  pose proof (type_byte_length data t Ht) as HF.
  change sizeof_uint32_t with 4 in *. change sizeof_bt_packet_logger_header_t with 12 in *.
  rewrite (callback_pcap_data data t n s Ht). cbn [len caplen].
  rewrite !wrap32_small by lia.
  replace (n - 12 + 4 >? BT_MAX_PACKET_SIZE) with false by (symmetry; lia).
  replace (declared_length data + 4 >? BT_MAX_PACKET_SIZE) with false by (symmetry; lia).
  rewrite (byte_eqb_neq t xff Hff). reflexivity.
Qed.

Lemma set_trace_same (s : state) : set_trace (trace s) s = s.
Proof.
  destruct s; reflexivity.
Qed.

Lemma emit_one (e : effect) (s : state) : emit e s = set_trace (trace s ++ [e]) s.
Proof.
  reflexivity.
Qed.

Lemma firstn_8_body (data body : list byte) (t : byte) :
  type_byte data = Some t -> firstn 8 (firstn 8 data ++ body) = firstn 8 data.
Proof.
  intros Ht.
  destruct (frame_split data t Ht)
    as (l0 & l1 & l2 & l3 & s0 & s1 & s2 & s3 & u0 & u1 & u2 & u3 & p & ->).
  reflexivity.
Qed.

Lemma skipn_8_body (data body : list byte) (t : byte) :
  type_byte data = Some t -> skipn 8 (firstn 8 data ++ body) = body.
Proof.
  intros Ht.
  destruct (frame_split data t Ht)
    as (l0 & l1 & l2 & l3 & s0 & s1 & s2 & s3 & u0 & u1 & u2 & u3 & p & ->).
  reflexivity.
Qed.

Lemma payload_rewritten (data : list byte) (t : byte) :
  type_byte data = Some t ->
  payload (firstn 8 data ++ record_body data t) = payload data.
Proof.
  intros Ht.
  destruct (frame_split data t Ht)
    as (l0 & l1 & l2 & l3 & s0 & s1 & s2 & s3 & u0 & u1 & u2 & u3 & p & ->).
  unfold record_body. destruct t; reflexivity.
Qed.

Lemma length_rewritten (data : list byte) (t : byte) :
  type_byte data = Some t ->
  List.length (firstn 8 data ++ record_body data t) = List.length data.
Proof.
  intros Ht. pose proof (length_record_body data t Ht) as Hb.
  pose proof (type_byte_length data t Ht) as HF.
  rewrite length_app, length_firstn. lia.
Qed.

(** X19: a frame that holds the header and a type byte other than
    0xFF, with declared length L and byte count F such that L + 4 and
    F - headerSize + 4 are at most the maximum frame size, is handed to
    [pcap_dump] as one record with capture length L + 4, original length
    F - headerSize + 4, and the seconds and microseconds of the header read
    big-endian. *)
Theorem pcap_record_lengths (data : list byte) (t : byte) (n : Z) (s : state) :
  BT_MAX_PACKET_SIZE < 2 ^ 32 ->
  type_byte data = Some t ->
  t <> xff ->
  Z.of_nat (List.length data) = n ->
  declared_length data + 4 <= BT_MAX_PACKET_SIZE ->
  n - sizeof_bt_packet_logger_header_t + 4 <= BT_MAX_PACKET_SIZE ->
  exists data' h body,
    bt_packet_logger_callback_pcap host BT_MAX_PACKET_SIZE data n s =
      Some (data',
            emit (PcapDumpFlush (pcap_dumper s))
              (emit (PcapDump (pcap_dumper s) h body) s))
    /\ caplen h = declared_length data + 4
    /\ len h = n - sizeof_bt_packet_logger_header_t + 4
    /\ tv_sec h = timestamp_seconds data
    /\ tv_usec h = timestamp_microseconds data.
Proof.
  intros Hmax Ht Hff Hn Hcap Hlen.
  eexists _, _, _. split.
  - apply (callback_pcap_accepts data t n s); assumption.
  - repeat split.
Qed.

(** X20: for a frame that passes the check of the lengths, a type
    byte other than 0xFF is mapped by the table HciEvent(0x01) -> (0x04,
    RECV), HciCommand(0x00) -> (0x01, SENT), SentAclData(0x02) -> (0x02,
    SENT), RecvAclData(0x03) -> (0x02, RECV), any other value unchanged with
    RECV, and the record with this direction and type in front of the
    payload is handed to [pcap_dump]; for the type byte 0xFF nothing is
    handed over and the frame stays as it was. *)
Theorem type_byte_mapping (data : list byte) (t : byte) (n : Z) (s : state) :
  type_byte data = Some t ->
  wrap32 (declared_length data + 4) <= BT_MAX_PACKET_SIZE ->
  wrap32 (n - sizeof_bt_packet_logger_header_t + 4) <= BT_MAX_PACKET_SIZE ->
  (t <> xff ->
   exists h,
     bt_packet_logger_callback_pcap host BT_MAX_PACKET_SIZE data n s =
       Some (firstn 8 data ++ snd (uart_table t) ++ fst (uart_table t) :: payload data,
             emit (PcapDumpFlush (pcap_dumper s))
               (emit (PcapDump (pcap_dumper s) h
                        (snd (uart_table t) ++ fst (uart_table t) :: payload data)) s)))
  /\ (t = xff ->
      bt_packet_logger_callback_pcap host BT_MAX_PACKET_SIZE data n s = Some (data, s)).
Proof.
  intros Ht Hcap Hlen.
  change sizeof_bt_packet_logger_header_t with 12 in Hlen.
  rewrite (callback_pcap_data data t n s Ht). cbn [len caplen].
  replace (wrap32 (n - 12 + 4) >? BT_MAX_PACKET_SIZE) with false by (symmetry; lia).
  replace (wrap32 (declared_length data + 4) >? BT_MAX_PACKET_SIZE) with false
    by (symmetry; lia).
  cbn [orb]. split.
  - intros Hff. rewrite (byte_eqb_neq t xff Hff). eexists. reflexivity.
  - intros ->. reflexivity.
Qed.

(** C3 (amended): a frame that holds the header and whose computed capture
    length or original length is over the maximum frame size, a constant
    that is not negative, is dropped: the
    callback returns, the frame is as it was, one warning goes to standard
    error, nothing is written to the output, and nothing else changes, so
    that later frames are handled as before; the program keeps no count of
    the frames it drops. *)
Theorem oversized_frame_dropped (data : list byte) (n : Z) (s : state) :
  0 <= BT_MAX_PACKET_SIZE ->
  (12 <= List.length data)%nat ->
  wrap32 (declared_length data + 4) > BT_MAX_PACKET_SIZE
  \/ wrap32 (n - sizeof_bt_packet_logger_header_t + 4) > BT_MAX_PACKET_SIZE ->
  exists s',
    bt_packet_logger_callback_pcap host BT_MAX_PACKET_SIZE data n s = Some (data, s')
    /\ trace s' = trace s
                  ++ [Stderr ("WARNING: Packet length exceeded max size, corruption likely."
                              ++ LF ++ " ")]
    /\ filter is_sink_write (trace s') = filter is_sink_write (trace s)
    /\ without_stderr s' = without_stderr s.
Proof.
  intros _ Hdata Hbig.
  change sizeof_bt_packet_logger_header_t with 12 in Hbig.
  eexists. split; [|split; [|split]].
  - apply callback_pcap_drop; [assumption|].
    apply orb_true_iff. destruct Hbig; [right|left]; lia.
  - reflexivity.
  - cbn [emit set_trace trace]. rewrite filter_app, app_nil_r. reflexivity.
  - unfold without_stderr, emit, set_trace. cbn.
    rewrite filter_app, app_nil_r. reflexivity.
Qed.

(** The rewritten frame is the frame itself exactly when bytes 8 to 12
    already held the direction and the mapped type. *)
Lemma rewritten_same_iff (data : list byte) (t : byte) :
  type_byte data = Some t ->
  firstn 8 data ++ record_body data t = data
  <-> firstn 5 (skipn 8 data) = snd (uart_table t) ++ [fst (uart_table t)].
Proof.
  intros Ht.
  destruct (frame_split data t Ht)
    as (l0 & l1 & l2 & l3 & s0 & s1 & s2 & s3 & u0 & u1 & u2 & u3 & p & ->).
  unfold record_body, payload.
  change (Z.to_nat sizeof_bt_packet_logger_header_t) with 12%nat.
  pose proof (length_direction t) as Hd.
  destruct (uart_table t) as [ty dir]. cbn [fst snd] in *.
  destruct (length_4_inv dir Hd) as (d0 & d1 & d2 & d3 & ->).
  cbn [app firstn skipn]. split.
  - intros [= <- <- <- <- <-]. reflexivity.
  - intros [= <- <- <- <- <-]. reflexivity.
Qed.

(** C8 (amended): the pcap callback is a function of the frame, its byte
    count and the dumper: the frame it leaves and the calls it makes do not
    depend on anything else, and it changes no variable of the program.  It
    is not free of effects: whenever it hands a record to [pcap_dump] it has
    written the direction into bytes 8 to 11 and the mapped type into byte
    12 of the frame (the record is the frame from byte 8 on), leaving the
    first 8 bytes and the payload as they were, so that the frame is changed
    exactly when those five bytes did not hold these values before; when no
    record is handed over the frame is unchanged. *)
Theorem callback_pcap_effect (data : list byte) (t : byte) (n : Z) :
  type_byte data = Some t ->
  exists (data' : list byte) (calls : option pcap_dumper_t -> list effect),
    (forall s : state,
        bt_packet_logger_callback_pcap host BT_MAX_PACKET_SIZE data n s =
          Some (data', set_trace (trace s ++ calls (pcap_dumper s)) s))
    /\ firstn 8 data' = firstn 8 data
    /\ payload data' = payload data
    /\ List.length data' = List.length data
    /\ ((data' = data /\ forall d, filter is_pcap_dump (calls d) = [])
        \/ (data' = firstn 8 data ++ record_body data t
            /\ skipn 8 data' = record_body data t
            /\ (forall d, exists h,
                   calls d = [PcapDump d h (record_body data t); PcapDumpFlush d])
            /\ (data' = data
                <-> firstn 5 (skipn 8 data) = snd (uart_table t) ++ [fst (uart_table t)]))).
Proof.
  intros Ht.
  pose proof (fun s => callback_pcap_data data t n s Ht) as E. cbn zeta in E.
  destruct ((_ >? _) || (_ >? _)) eqn:Hbig in E.
  - exists data, (fun _ =>
      [Stderr ("WARNING: Packet length exceeded max size, corruption likely."
               ++ LF ++ " ")]).
    split; [intros s; rewrite E; reflexivity|].
    repeat split. left. split; reflexivity.
  - destruct (Byte.eqb t xff) eqn:Hff.
    + exists data, (fun _ => []).
      split; [intros s; rewrite E, app_nil_r, set_trace_same; reflexivity|].
      repeat split. left. split; reflexivity.
    + eexists (firstn 8 data ++ record_body data t), (fun d => [PcapDump d _ _; PcapDumpFlush d]).
      split; [intros s; rewrite E, emit_emit; reflexivity|].
      split; [apply (firstn_8_body _ _ t Ht)|].
      split; [apply (payload_rewritten _ t Ht)|].
      split; [apply (length_rewritten _ t Ht)|].
      right. split; [reflexivity|].
      split; [apply (skipn_8_body _ _ t Ht)|].
      split; [intros d; eexists; reflexivity|].
      apply (rewritten_same_iff data t Ht).
Qed.

(** X21: the callback does not compare the declared length with
    the byte count of the frame.  A frame with a type byte other than 0xFF,
    whose declared length plus 4 and whose byte count minus the header size
    plus 4 are within the maximum, is handed to [pcap_dump] also when the
    declared length is more than the bytes behind the header; the capture
    length of the record is then more than its original length and more than
    the bytes of the frame [pcap_dump] is pointed at. *)
Theorem declared_length_unchecked (data : list byte) (t : byte) (n : Z) (s : state) :
  BT_MAX_PACKET_SIZE < 2 ^ 32 ->
  type_byte data = Some t ->
  t <> xff ->
  Z.of_nat (List.length data) = n ->
  declared_length data + 4 <= BT_MAX_PACKET_SIZE ->
  n - sizeof_bt_packet_logger_header_t + 4 <= BT_MAX_PACKET_SIZE ->
  n - sizeof_bt_packet_logger_header_t < declared_length data ->
  exists data' h body,
    bt_packet_logger_callback_pcap host BT_MAX_PACKET_SIZE data n s =
      Some (data',
            emit (PcapDumpFlush (pcap_dumper s))
              (emit (PcapDump (pcap_dumper s) h body) s))
    /\ body = skipn 8 data'
    /\ caplen h = declared_length data + 4
    /\ len h < caplen h
    /\ Z.of_nat (List.length body) < caplen h.
Proof.
  intros Hmax Ht Hff Hn Hcap Hlen Hover.
  eexists _, _, _. split.
  - apply (callback_pcap_accepts data t n s); assumption.
  - cbn [caplen len]. change sizeof_uint32_t with 4.
    change sizeof_bt_packet_logger_header_t with 12 in *.
    rewrite (skipn_8_body _ _ t Ht), (length_record_body data t Ht).
    repeat split; lia.
Qed.

End Translator.

(** ** Start and stop of the capture *)

Lemma stop_logging_trace (s : state) :
  trace (stop_logging s)
  = trace s ++ [Fflush]
    ++ match bt_packet_logger s with
       | Some c => [ClientFree (Some c)]
       | None => []
       end
    ++ match device s with
       | Some d => [DeviceFree d]
       | None => []
       end.
Proof.
  unfold stop_logging.
  destruct s as [q x u d b un o lfs pd fd lf tr].
  destruct b, d; cbn; rewrite <- ?app_assoc; reflexivity.
Qed.

(** [stop_logging] releases both handles and touches no other variable. *)
Lemma stop_logging_state (s : state) :
  stop_logging s
  = set_trace (trace (stop_logging s)) (set_device None (set_bt_packet_logger None s)).
Proof.
  unfold stop_logging.
  destruct s as [q x u d b un o lfs pd fd lf tr].
  destruct b, d; reflexivity.
Qed.

(** What [start_logging] leaves alone. *)
Lemma start_logging_keeps (ans : connect_answers) (s : state) :
  let s' := snd (start_logging ans s) in
  quit_flag s' = quit_flag s /\ exit_on_disconnect s' = exit_on_disconnect s
  /\ udid s' = udid s /\ use_network s' = use_network s
  /\ pcap_dumper s' = pcap_dumper s /\ packetlogger_fd s' = packetlogger_fd s
  /\ log_format s' = log_format s.
Proof.
  unfold start_logging.
  destruct (idevice_new_result ans); [|repeat split].
  destruct (handshake_result ans); [|repeat split].
  destruct (start_capture_ok ans); repeat split.
Qed.

Lemma udid_is_true (p : option string) (other : string) :
  udid_is p other = true <-> p = Some other.
Proof.
  destruct p as [u|]; simpl.
  - rewrite String.eqb_eq. split; [intros ->; reflexivity|intros [= ->]; reflexivity].
  - split; discriminate.
Qed.

Lemma conn_type_eqb_eq (a b : idevice_connection_type) :
  conn_type_eqb a b = true <-> a = b.
Proof.
  destruct a, b; simpl; split; (reflexivity || discriminate).
Qed.

(** The two tests at the head of [device_event_cb] let exactly the events
    of the configured transport kind through. *)
Lemma device_event_cb_other_transport (e : idevice_event_t) (ans : connect_answers) (s : state) :
  conn_type e <> configured_transport s -> device_event_cb e ans s = s.
Proof.
  unfold configured_transport, device_event_cb.
  destruct (use_network s =? 0), (conn_type e); cbn; congruence.
Qed.

Lemma device_event_cb_same_transport (e : idevice_event_t) (ans : connect_answers) (s : state) :
  conn_type e = configured_transport s ->
  device_event_cb e ans s =
    match event e with
    | IDEVICE_DEVICE_ADD =>
        match bt_packet_logger s with
        | Some _ => s
        | None =>
            let s := match udid s with
                     | None => set_udid (Some (event_udid e)) s
                     | Some _ => s
                     end in
            if udid_is (udid s) (event_udid e) then
              let '(r, s) := start_logging ans s in
              if negb (r =? 0) then
                emit (Stderr ("Could not start logger for udid " ++ show (udid s) ++ LF)) s
              else s
            else s
        end
    | IDEVICE_DEVICE_REMOVE =>
        match bt_packet_logger s with
        | Some _ =>
            if udid_is (udid s) (event_udid e) then
              let s := stop_logging s in
              let s := emit (Stdout ("[disconnected:" ++ show (udid s) ++ "]" ++ LF)) s in
              if negb (exit_on_disconnect s =? 0) then set_quit_flag (quit_flag s + 1) s
              else s
            else s
        | None => s
        end
    | _ => s
    end.
Proof.
  unfold configured_transport, device_event_cb.
  destruct (use_network s =? 0), (conn_type e); cbn; congruence.
Qed.

(** An event never changes the identity once it is bound, nor the
    configured transport kind. *)
Lemma device_event_cb_keeps_udid (e : idevice_event_t) (ans : connect_answers)
    (s : state) (u : string) :
  udid s = Some u -> udid (device_event_cb e ans s) = Some u.
Proof.
  intros Hu.
  destruct (conn_type_eqb (conn_type e) (configured_transport s)) eqn:Hc.
  - apply conn_type_eqb_eq in Hc. rewrite (device_event_cb_same_transport e ans s Hc).
    destruct (event e); [| |assumption].
    + destruct (bt_packet_logger s); [assumption|]. rewrite Hu. cbn zeta.
      destruct (udid_is _ (event_udid e)); [|assumption].
      pose proof (start_logging_keeps ans s) as K. cbn zeta in K.
      destruct (start_logging ans s) as [r s1]. cbn [snd] in K.
      destruct K as (_ & _ & K & _).
      destruct (negb (r =? 0)); cbn; congruence.
    + destruct (bt_packet_logger s); [|assumption].
      destruct (udid_is (udid s) (event_udid e)); [|assumption].
      cbn zeta. rewrite stop_logging_state.
      destruct (negb _); cbn; assumption.
  - rewrite device_event_cb_other_transport; [assumption|].
    intros Hc'. apply conn_type_eqb_eq in Hc'. congruence.
Qed.

Lemma device_event_cb_keeps_use_network (e : idevice_event_t) (ans : connect_answers)
    (s : state) :
  use_network (device_event_cb e ans s) = use_network s.
Proof.
  destruct (conn_type_eqb (conn_type e) (configured_transport s)) eqn:Hc.
  - apply conn_type_eqb_eq in Hc. rewrite (device_event_cb_same_transport e ans s Hc).
    destruct (event e); [| |reflexivity].
    + destruct (bt_packet_logger s); [reflexivity|]. cbn zeta.
      destruct (udid_is _ (event_udid e)); [|destruct (udid s); reflexivity].
      pose proof (start_logging_keeps ans
                    match udid s with
                    | Some _ => s
                    | None => set_udid (Some (event_udid e)) s
                    end) as K. cbn zeta in K.
      destruct (start_logging ans _) as [r s1]. cbn [snd] in K.
      destruct K as (_ & _ & _ & K & _).
      destruct (negb (r =? 0)); cbn; rewrite K; destruct (udid s); reflexivity.
    + destruct (bt_packet_logger s); [|reflexivity].
      destruct (udid_is (udid s) (event_udid e)); [|reflexivity].
      cbn zeta. rewrite stop_logging_state.
      destruct (negb _); reflexivity.
  - rewrite device_event_cb_other_transport; [reflexivity|].
    intros Hc'. apply conn_type_eqb_eq in Hc'. congruence.
Qed.

(** ** The device events *)

Lemma matching_attach_true (s : state) (e : idevice_event_t) :
  matching_attach s e = true
  <-> conn_type e = configured_transport s /\ event e = IDEVICE_DEVICE_ADD.
Proof.
  unfold matching_attach. rewrite andb_true_iff, conn_type_eqb_eq.
  destruct (event e); intuition discriminate.
Qed.

(** Without an identity and without a capture, anything but an attach event
    of the configured transport kind changes nothing. *)
Lemma device_event_cb_unbound_ignored (e : idevice_event_t) (ans : connect_answers) (s : state) :
  bt_packet_logger s = None ->
  matching_attach s e = false ->
  device_event_cb e ans s = s.
Proof.
  intros Hb Hm.
  destruct (conn_type_eqb (conn_type e) (configured_transport s)) eqn:Hc.
  - unfold matching_attach in Hm. rewrite Hc in Hm. cbn [andb] in Hm.
    apply conn_type_eqb_eq in Hc. rewrite (device_event_cb_same_transport e ans s Hc).
    destruct (event e); [discriminate| |reflexivity].
    rewrite Hb. reflexivity.
  - apply device_event_cb_other_transport.
    intros Hc'. apply conn_type_eqb_eq in Hc'. congruence.
Qed.

(** Without an identity and without a capture, an attach event of the
    configured transport kind binds its identity. *)
Lemma device_event_cb_adopts (e : idevice_event_t) (ans : connect_answers) (s : state) :
  udid s = None ->
  bt_packet_logger s = None ->
  matching_attach s e = true ->
  udid (device_event_cb e ans s) = Some (event_udid e).
Proof.
  intros Hu Hb Hm. apply matching_attach_true in Hm. destruct Hm as [Hc He].
  rewrite (device_event_cb_same_transport e ans s Hc), He, Hb, Hu. cbn zeta.
  cbn [udid set_udid]. unfold udid_is. rewrite String.eqb_refl.
  pose proof (start_logging_keeps ans (set_udid (Some (event_udid e)) s)) as K.
  cbn zeta in K. destruct (start_logging ans _) as [r s1]. cbn [snd] in K.
  destruct K as (_ & _ & K & _).
  destruct (negb (r =? 0)); cbn; rewrite K; reflexivity.
Qed.

Lemma deliver_events_keeps_udid (evs : list (idevice_event_t * connect_answers))
    (s : state) (u : string) :
  udid s = Some u -> udid (deliver_events evs s) = Some u.
Proof.
  revert s. induction evs as [|[e ans] evs IH]; intros s Hu.
  - assumption.
  - cbn. apply IH. apply device_event_cb_keeps_udid. assumption.
Qed.

(** C4: events of the transport kind the monitor is not configured for are
    ignored entirely; while an identity is bound, attach and detach events
    of any other identity are ignored; and starting without an identity,
    the identity of the first attach event of the configured transport kind
    becomes the bound identity and stays it whatever events follow. *)
Theorem monitor_identity (s : state) :
  (forall e ans, conn_type e <> configured_transport s -> device_event_cb e ans s = s)
  /\ (forall e ans u,
        udid s = Some u -> event_udid e <> u -> device_event_cb e ans s = s)
  /\ (forall before e ans after,
        udid s = None ->
        bt_packet_logger s = None ->
        Forall (fun ea => matching_attach s (fst ea) = false) before ->
        matching_attach s e = true ->
        udid (deliver_events (before ++ (e, ans) :: after) s) = Some (event_udid e)).
Proof.
  split; [|split].
  - intros e ans. apply device_event_cb_other_transport.
  - intros e ans u Hu Hne.
    destruct (conn_type_eqb (conn_type e) (configured_transport s)) eqn:Hc.
    + apply conn_type_eqb_eq in Hc. rewrite (device_event_cb_same_transport e ans s Hc).
      assert (Hno : udid_is (udid s) (event_udid e) = false).
      { destruct (udid_is (udid s) (event_udid e)) eqn:E; [|reflexivity].
        apply udid_is_true in E. congruence. }
      destruct (event e); [| |reflexivity].
      * destruct (bt_packet_logger s); [reflexivity|].
        rewrite Hu. cbv beta iota zeta. rewrite Hno. reflexivity.
      * destruct (bt_packet_logger s); [|reflexivity]. rewrite Hno. reflexivity.
    + apply device_event_cb_other_transport.
      intros Hc'. apply conn_type_eqb_eq in Hc'. congruence.
  - intros before e ans after Hu Hb Hbefore Hm.
    unfold deliver_events. rewrite fold_left_app. cbn [fold_left fst snd].
    assert (Hsame : fold_left (fun st ea => device_event_cb (fst ea) (snd ea) st) before s = s).
    { induction Hbefore as [|[e0 a0] l H0 _ IH]; [reflexivity|].
      cbn [fold_left fst snd] in *.
      rewrite (device_event_cb_unbound_ignored e0 a0 s Hb H0). exact IH. }
    rewrite Hsame.
    apply (deliver_events_keeps_udid after).
    apply device_event_cb_adopts; assumption.
Qed.

(** C5: a detach event of the configured transport kind that names the
    bound identity while the packet logger client exists stops the capture:
    the client and then the device are released, both handles are cleared,
    the line [disconnected:UDID] is printed, and [quit_flag] is incremented
    exactly when [exit_on_disconnect] is set, so that a process that was not
    asked to terminate is asked to if and only if the policy is set.  No
    other variable changes: the identity stays bound, and the next attach
    event for it starts the capture again. *)
Theorem detach_stops_session (e : idevice_event_t) (ans : connect_answers) (s : state)
    (c : bt_packet_logger_client_t) (u : string) :
  bt_packet_logger s = Some c ->
  udid s = Some u ->
  event e = IDEVICE_DEVICE_REMOVE ->
  event_udid e = u ->
  conn_type e = configured_transport s ->
  let s' := device_event_cb e ans s in
  s' = set_quit_flag (if exit_on_disconnect s =? 0 then quit_flag s else quit_flag s + 1)
         (set_trace (trace s ++ [Fflush; ClientFree (Some c)]
                       ++ match device s with
                          | Some d => [DeviceFree d]
                          | None => []
                          end
                       ++ [Stdout ("[disconnected:" ++ u ++ "]" ++ LF)])
            (set_device None (set_bt_packet_logger None s)))
  /\ bt_packet_logger s' = None
  /\ device s' = None
  /\ (quit_flag s = 0 -> (quit_flag s' <> 0 <-> exit_on_disconnect s <> 0))
  /\ (forall e2 ans2,
        matching_attach s' e2 = true ->
        event_udid e2 = u ->
        device_event_cb e2 ans2 s' =
          let '(r, s2) := start_logging ans2 s' in
          if negb (r =? 0) then
            emit (Stderr ("Could not start logger for udid " ++ u ++ LF)) s2
          else s2).
Proof.
  intros Hb Hu He Hid Hc s'.
  assert (E : s' = set_quit_flag
                     (if exit_on_disconnect s =? 0 then quit_flag s else quit_flag s + 1)
                     (set_trace (trace s ++ [Fflush; ClientFree (Some c)]
                                   ++ match device s with
                                      | Some d => [DeviceFree d]
                                      | None => []
                                      end
                                   ++ [Stdout ("[disconnected:" ++ u ++ "]" ++ LF)])
                        (set_device None (set_bt_packet_logger None s)))).
  { subst s'. rewrite (device_event_cb_same_transport e ans s Hc), He, Hb.
    rewrite Hu, Hid. unfold udid_is. rewrite String.eqb_refl. cbn zeta.
    rewrite stop_logging_state, stop_logging_trace, Hb.
    destruct s as [q x ud d b un o lfs pd fd lf tr]. cbn in *. subst ud.
    destruct (x =? 0), d;
      unfold emit, set_quit_flag, set_trace, set_device, set_bt_packet_logger;
      cbn [quit_flag exit_on_disconnect udid device bt_packet_logger use_network
           out_filename log_format_string pcap_dumper packetlogger_fd log_format trace
           negb show];
      rewrite <- ?app_assoc; reflexivity. }
  split; [exact E|].
  split; [rewrite E; reflexivity|].
  split; [rewrite E; reflexivity|].
  split.
  - intros Hq. rewrite E. cbn [quit_flag set_quit_flag].
    destruct (exit_on_disconnect s =? 0) eqn:Hx; lia.
  - intros e2 ans2 Hm Hid2. apply matching_attach_true in Hm. destruct Hm as [Hc2 He2].
    rewrite (device_event_cb_same_transport e2 ans2 s' Hc2), He2.
    assert (Hb' : bt_packet_logger s' = None) by (rewrite E; reflexivity).
    assert (Hu' : udid s' = Some u) by (rewrite E; exact Hu).
    rewrite Hb', Hu'. cbn zeta. rewrite Hu', Hid2. unfold udid_is. rewrite String.eqb_refl.
    pose proof (start_logging_keeps ans2 s') as K. cbn zeta in K.
    destruct (start_logging ans2 s') as [r s2]. cbn [snd] in K.
    destruct K as (_ & _ & K & _). rewrite K, Hu'. reflexivity.
Qed.

(** ** The signal handler *)

(** C9 (amended): the handler of the termination signals increments
    [quit_flag], a plain [int], and prints one line to standard error; it
    changes no other variable, releases no handle and writes nothing to the
    output: apart from the flag and standard error the state after the
    handler is the state before. *)
Theorem clean_exit_effect (sig : signal_t) (s : state) :
  quit_flag (clean_exit sig s) = quit_flag s + 1
  /\ filter is_stderr (trace (clean_exit sig s))
     = filter is_stderr (trace s) ++ [Stderr (LF ++ "Exiting..." ++ LF)]
  /\ filter is_sink_write (trace (clean_exit sig s)) = filter is_sink_write (trace s)
  /\ without_stderr (set_quit_flag (quit_flag s) (clean_exit sig s)) = without_stderr s.
Proof.
  destruct s as [q x ud d b un o lfs pd fd lf tr].
  unfold clean_exit, without_stderr, emit, set_quit_flag, set_trace. cbn.
  rewrite !filter_app. cbn. rewrite !app_nil_r. repeat split.
Qed.

(** ** Calls made before the shutdown *)

Lemma calmly_refl (s : state) : calmly s s.
Proof.
  split; [|split; reflexivity]. exists []. rewrite app_nil_r. split; reflexivity.
Qed.

Lemma calmly_trans (s1 s2 s3 : state) : calmly s1 s2 -> calmly s2 s3 -> calmly s1 s3.
Proof.
  intros [(l1 & E1 & F1) [P1 Q1]] [(l2 & E2 & F2) [P2 Q2]].
  split; [|split; congruence].
  exists (l1 ++ l2). rewrite E2, E1, app_assoc, forallb_app, F1, F2. split; reflexivity.
Qed.

Lemma calmly_emit (e : effect) (s s1 : state) :
  calm e = true -> calmly s s1 -> calmly s (emit e s1).
Proof.
  intros He H. apply (calmly_trans s s1); [assumption|].
  split; [|split; reflexivity].
  exists [e]. cbn. rewrite He. split; reflexivity.
Qed.

Lemma calmly_set_quit_flag (v : Z) (s s1 : state) :
  calmly s s1 -> calmly s (set_quit_flag v s1).
Proof. intros H. exact H. Qed.

Lemma calmly_set_exit_on_disconnect (v : Z) (s s1 : state) :
  calmly s s1 -> calmly s (set_exit_on_disconnect v s1).
Proof. intros H. exact H. Qed.

Lemma calmly_set_udid (v : option string) (s s1 : state) :
  calmly s s1 -> calmly s (set_udid v s1).
Proof. intros H. exact H. Qed.

Lemma calmly_set_device (v : option idevice_t) (s s1 : state) :
  calmly s s1 -> calmly s (set_device v s1).
Proof. intros H. exact H. Qed.

Lemma calmly_set_bt_packet_logger (v : option bt_packet_logger_client_t) (s s1 : state) :
  calmly s s1 -> calmly s (set_bt_packet_logger v s1).
Proof. intros H. exact H. Qed.

Lemma calmly_set_use_network (v : Z) (s s1 : state) :
  calmly s s1 -> calmly s (set_use_network v s1).
Proof. intros H. exact H. Qed.

Lemma calmly_set_out_filename (v : option string) (s s1 : state) :
  calmly s s1 -> calmly s (set_out_filename v s1).
Proof. intros H. exact H. Qed.

Lemma calmly_set_log_format_string (v : option string) (s s1 : state) :
  calmly s s1 -> calmly s (set_log_format_string v s1).
Proof. intros H. exact H. Qed.

Lemma calmly_set_log_format (v : log_format_t) (s s1 : state) :
  calmly s s1 -> calmly s (set_log_format v s1).
Proof. intros H. exact H. Qed.

Create HintDb calm.

#[local] Hint Resolve calmly_refl calmly_set_quit_flag calmly_set_exit_on_disconnect
  calmly_set_udid calmly_set_device calmly_set_bt_packet_logger calmly_set_use_network
  calmly_set_out_filename calmly_set_log_format_string calmly_set_log_format : calm.

#[local] Hint Extern 1 (calmly _ (emit _ _)) => apply calmly_emit; [reflexivity|] : calm.

Lemma calmly_stop_logging (s s1 : state) : calmly s s1 -> calmly s (stop_logging s1).
Proof.
  intros H. unfold stop_logging.
  destruct (bt_packet_logger (emit Fflush s1));
    match goal with |- context [match device ?x with _ => _ end] => destruct (device x) end;
    auto 10 with calm.
Qed.

Lemma calmly_start_logging (ans : connect_answers) (s s1 : state) :
  calmly s s1 -> calmly s (snd (start_logging ans s1)).
Proof.
  intros H. unfold start_logging.
  destruct (idevice_new_result ans); [|cbn [snd]; auto 10 with calm].
  destruct (handshake_result ans); [|cbn [snd]; auto 10 with calm].
  destruct (start_capture_ok ans); cbn [snd negb]; auto 20 with calm.
Qed.

#[local] Hint Resolve calmly_stop_logging : calm.

Lemma calmly_device_event_cb (e : idevice_event_t) (ans : connect_answers) (s s1 : state) :
  calmly s s1 -> calmly s (device_event_cb e ans s1).
Proof.
  intros H. unfold device_event_cb.
  destruct (_ && _); [assumption|].
  destruct (_ && _); [assumption|].
  destruct (event e); [| |assumption].
  - destruct (bt_packet_logger s1); [assumption|]. cbv zeta.
    destruct (udid_is _ _); [|destruct (udid s1); auto with calm].
    pose proof (fun s0 => calmly_start_logging ans s s0) as K.
    match goal with |- context [start_logging ans ?x] =>
      specialize (K x); destruct (start_logging ans x) as [r s2] end.
    cbn [snd] in K.
    assert (calmly s s2) by (apply K; destruct (udid s1); auto with calm).
    destruct (negb (r =? 0)); auto with calm.
  - destruct (bt_packet_logger s1); [|assumption].
    destruct (udid_is _ _); [|assumption]. cbv zeta.
    destruct (negb _); auto 10 with calm.
Qed.

Lemma calmly_clean_exit (sig : signal_t) (s s1 : state) :
  calmly s s1 -> calmly s (clean_exit sig s1).
Proof.
  intros H. unfold clean_exit. auto with calm.
Qed.

(** ** The run of [main] *)

Section Main.

Variable host : byte_order.
Variable BT_MAX_PACKET_SIZE : Z.
Variables PACKAGE_URL PACKAGE_BUGREPORT PACKAGE_VERSION : string.

Lemma calmly_callback_pcap (data data' : list byte) (n : Z) (s s1 s' : state) :
  bt_packet_logger_callback_pcap host BT_MAX_PACKET_SIZE data n s1 = Some (data', s') ->
  calmly s s1 -> calmly s s'.
Proof.
  unfold bt_packet_logger_callback_pcap. intros E H.
  destruct (read32 host data offsetof_length); [|discriminate].
  destruct (read32 host data offsetof_ts_secs); [|discriminate].
  destruct (read32 host data offsetof_ts_usecs); [|discriminate].
  destruct (_ || _).
  - injection E as _ <-. auto with calm.
  - destruct (nth_error data _); [|discriminate].
    destruct (map_packet_type host _) as [hci_h4_type direction].
    destruct (Byte.eqb hci_h4_type xff); injection E as _ <-; auto with calm.
Qed.

Lemma calmly_callback_packetlogger (data : list byte) (n : Z) (s s1 : state) :
  calmly s s1 -> calmly s (snd (bt_packet_logger_callback_packetlogger data n s1)).
Proof.
  intros H. cbn [bt_packet_logger_callback_packetlogger snd]. auto with calm.
Qed.

(** While the program waits it makes calm calls only. *)
Lemma calmly_wait_for_quit (sched : list async) (s s1 s' : state) :
  wait_for_quit host BT_MAX_PACKET_SIZE sched s1 = inl s' ->
  calmly s s1 -> calmly s s'.
Proof.
  revert s1. induction sched as [|a sched IH]; intros s1 E H; cbn [wait_for_quit] in E.
  - destruct (quit_flag s1 =? 0); [discriminate|]. injection E as <-. assumption.
  - destruct a as [|e ans|data n|sig].
    + destruct (quit_flag s1 =? 0); [eauto|]. injection E as <-. assumption.
    + apply IH in E; [assumption|]. apply calmly_device_event_cb. assumption.
    + destruct (bt_packet_logger s1); [|eauto].
      destruct (select_callback (log_format s1)).
      * destruct (bt_packet_logger_callback_pcap host BT_MAX_PACKET_SIZE data n s1)
          as [[data' s2]|] eqn:Ecb; [|discriminate].
        apply IH in E; [assumption|]. eapply calmly_callback_pcap; eassumption.
      * apply IH in E; [assumption|]. apply calmly_callback_packetlogger. assumption.
    + destruct (signal_disposition (trace s1) sig) as [[|]|]; [| |discriminate].
      * apply IH in E; [assumption|]. apply calmly_clean_exit. assumption.
      * eauto.
Qed.

(** The loop never ends with a return of [main]. *)
Lemma wait_for_quit_not_returned (sched : list async) (s : state) (code : Z) (s' : state) :
  wait_for_quit host BT_MAX_PACKET_SIZE sched s <> inr (Returned code s').
Proof.
  revert s. induction sched as [|x sched IH]; intros s; cbn [wait_for_quit].
  - destruct (quit_flag s =? 0); discriminate.
  - destruct x as [|e ans|data n|sig].
    + destruct (quit_flag s =? 0); [apply IH|discriminate].
    + apply IH.
    + destruct (bt_packet_logger s); [|apply IH].
      destruct (select_callback (log_format s)); [|apply IH].
      destruct (bt_packet_logger_callback_pcap _ _ _ _ _) as [[? ?]|];
        [apply IH|discriminate].
    + destruct (signal_disposition (trace s) sig) as [[|]|];
        [apply IH|apply IH|discriminate].
Qed.

(** The calls of the shutdown, in their order, and what it leaves. *)
Lemma shutdown_trace (s : state) :
  trace (shutdown s) = trace s ++ [EventUnsubscribe; Fflush] ++ released s ++ closed s.
Proof.
  unfold shutdown, released, closed.
  destruct s as [q x ud d b un o lfs pd fd lf tr].
  destruct b, d, pd, (fd >=? 0) eqn:Hfd;
    cbn; rewrite ?Hfd; cbn; rewrite <- ?app_assoc; reflexivity.
Qed.

Lemma shutdown_state (s : state) :
  shutdown s
  = set_trace (trace (shutdown s)) (set_device None (set_bt_packet_logger None s)).
Proof.
  unfold shutdown.
  destruct s as [q x ud d b un o lfs pd fd lf tr].
  destruct b, d, pd, (fd >=? 0) eqn:Hfd; cbn; rewrite ?Hfd; reflexivity.
Qed.

(** A second [stop_logging] finds nothing to release. *)
Lemma stop_logging_idempotent (s : state) :
  stop_logging (stop_logging s) = emit Fflush (stop_logging s).
Proof.
  rewrite (stop_logging_state s). generalize (trace (stop_logging s)). intros tr.
  destruct s; reflexivity.
Qed.

Lemma calmly_print_usage (argv_0 : string) (is_error : bool) (s s1 : state) :
  calmly s s1 -> calmly s (print_usage PACKAGE_URL PACKAGE_BUGREPORT argv_0 is_error s1).
Proof.
  intros H. unfold print_usage. destruct is_error; auto with calm.
Qed.

#[local] Hint Resolve calmly_print_usage : calm.

Lemma getopt_loop_calmly (argv_0 : string) (opts : list (ascii * string)) (s s1 : state) :
  calmly s s1 ->
  step_calmly s (getopt_loop PACKAGE_URL PACKAGE_BUGREPORT PACKAGE_VERSION argv_0 opts s1).
Proof.
  revert s1. induction opts as [|[c optarg] opts IH]; intros s1 H; cbn [getopt_loop].
  - exact H.
  - destruct c as [[|] [|] [|] [|] [|] [|] [|] [|]];
      try (cbn [step_calmly]; auto with calm; fail);
      try (apply IH; auto with calm; fail);
      destruct (String.eqb optarg ""); try (apply IH; auto with calm; fail);
      cbn [step_calmly]; auto with calm.
Qed.

Lemma take_out_filename_calmly (argv_0 : string) (args : list string) (s s1 : state) :
  calmly s s1 ->
  step_calmly s (take_out_filename PACKAGE_URL PACKAGE_BUGREPORT argv_0 args s1).
Proof.
  intros H. destruct args; cbn [take_out_filename step_calmly]; auto with calm.
Qed.

Lemma select_log_format_calmly (argv_0 : string) (s s1 : state) :
  calmly s s1 ->
  step_calmly s (select_log_format PACKAGE_URL PACKAGE_BUGREPORT argv_0 s1).
Proof.
  intros H. unfold select_log_format.
  destruct (log_format_string s1); [|exact H].
  destruct (String.eqb _ _); [cbn; auto with calm|].
  destruct (String.eqb _ _); cbn [step_calmly]; auto with calm.
Qed.

Lemma look_for_devices_calmly (num : Z) (s s1 : state) :
  calmly s s1 -> step_calmly s (look_for_devices num s1).
Proof.
  intros H. unfold look_for_devices.
  destruct (num =? 0); [|cbn; auto with calm].
  match goal with |- context [match udid ?x with _ => _ end] => destruct (udid x) end;
    cbn [step_calmly]; auto with calm.
Qed.

(** The steps before the output is opened leave the output handles as they
    are at the start: no dumper, no file descriptor. *)
Lemma before_open_output (i : main_input) (s : state) :
  (do s <- getopt_loop PACKAGE_URL PACKAGE_BUGREPORT PACKAGE_VERSION
             (argv0 i) (getopt_returns i)
             (set_trace handlers_installed initial_state);
   do s <- take_out_filename PACKAGE_URL PACKAGE_BUGREPORT (argv0 i) (operands i) s;
   do s <- select_log_format PACKAGE_URL PACKAGE_BUGREPORT (argv0 i) s;
   look_for_devices (device_count i) s) = inl s ->
  calmly (set_trace handlers_installed initial_state) s.
Proof.
  intros E.
  pose proof (getopt_loop_calmly (argv0 i) (getopt_returns i) _ _
                (calmly_refl (set_trace handlers_installed initial_state))) as H1.
  destruct (getopt_loop _ _ _ _ _ _) as [s1|]; [|discriminate]. cbn in H1.
  pose proof (take_out_filename_calmly (argv0 i) (operands i) _ _ H1) as H2.
  destruct (take_out_filename _ _ _ _ _) as [s2|]; [|discriminate]. cbn in H2.
  pose proof (select_log_format_calmly (argv0 i) _ _ H2) as H3.
  destruct (select_log_format _ _ _ _) as [s3|]; [|discriminate]. cbn in H3.
  pose proof (look_for_devices_calmly (device_count i) _ _ H3) as H4.
  rewrite E in H4. exact H4.
Qed.

(** When [main] subscribes to the device events, the handlers are
    installed, the calls since were calm, and the output handles are those
    of the chosen format: the dumper [pcap_dump_open] returned, be it
    [NULL], or the descriptor [open] returned, which is not negative. *)
Lemma startup_subscribed (i : main_input) (s : state) :
  startup PACKAGE_URL PACKAGE_BUGREPORT PACKAGE_VERSION i = inl s ->
  (exists l, trace s = handlers_installed ++ l /\ forallb calm l = true)
  /\ ((pcap_dumper s = pcap_dump_open_result i /\ packetlogger_fd s = -1)
      \/ (pcap_dumper s = None /\ 0 <= packetlogger_fd s)).
Proof.
  unfold startup.
  change (emit (Signal SIGPIPE SIG_IGN) _)
    with (set_trace handlers_installed initial_state).
  intros E.
  pose proof (before_open_output i) as B.
  destruct (do s <- getopt_loop PACKAGE_URL PACKAGE_BUGREPORT PACKAGE_VERSION
             (argv0 i) (getopt_returns i)
             (set_trace handlers_installed initial_state);
   do s <- take_out_filename PACKAGE_URL PACKAGE_BUGREPORT (argv0 i) (operands i) s;
   do s <- select_log_format PACKAGE_URL PACKAGE_BUGREPORT (argv0 i) s;
   look_for_devices (device_count i) s) as [s4|] eqn:E4.
  - specialize (B s4 eq_refl). destruct B as [(l & Hl & Fl) [Hp Hf]].
    cbn [trace set_trace pcap_dumper packetlogger_fd initial_state] in Hl, Hp, Hf.
    destruct (getopt_loop _ _ _ _ _ _) as [s1|]; [|discriminate].
    destruct (take_out_filename _ _ _ _ _) as [s2|]; [|discriminate].
    destruct (select_log_format _ _ _ _) as [s3|]; [|discriminate].
    rewrite E4 in E. unfold open_output in E.
    destruct (log_format s4).
    + cbn [packetlogger_fd set_packetlogger_fd] in E.
      destruct (open_result i <? 0) eqn:Hneg; [discriminate|].
      injection E as <-. split.
      * eexists. cbn [trace emit set_trace set_packetlogger_fd]. rewrite Hl.
        rewrite <- !app_assoc. split; [reflexivity|].
        rewrite forallb_app, Fl. reflexivity.
      * right. cbn. split; [assumption|lia].
    + injection E as <-. split.
      * eexists. cbn [trace emit set_trace set_pcap_dumper]. rewrite Hl.
        rewrite <- !app_assoc. split; [reflexivity|].
        rewrite forallb_app, Fl. reflexivity.
      * left. cbn. split; [reflexivity|assumption].
  - destruct (getopt_loop _ _ _ _ _ _) as [s1|]; [|discriminate].
    destruct (take_out_filename _ _ _ _ _) as [s2|]; [|discriminate].
    destruct (select_log_format _ _ _ _) as [s3|]; [|discriminate].
    rewrite E4 in E. discriminate.
Qed.

Lemma calm_not_shutdown (e : effect) :
  calm e = true -> e <> EventUnsubscribe /\ is_sink_close e = false.
Proof.
  destruct e; cbn; intros H; split; (discriminate || reflexivity).
Qed.

Lemma calm_no_close (l : list effect) : forallb calm l = true -> filter is_sink_close l = [].
Proof.
  induction l as [|e l IH]; cbn; [reflexivity|].
  rewrite andb_true_iff. intros [He Hl].
  destruct (calm_not_shutdown e He) as [_ ->]. auto.
Qed.

Lemma released_no_close (s : state) : filter is_sink_close (released s) = [].
Proof.
  unfold released. destruct (bt_packet_logger s), (device s); reflexivity.
Qed.

(** Calm calls leave the handlers of the signals as they are. *)
Lemma signal_disposition_calm (tr l : list effect) (sig : signal_t) :
  forallb calm l = true ->
  signal_disposition (tr ++ l) sig = signal_disposition tr sig.
Proof.
  unfold signal_disposition. rewrite fold_left_app.
  generalize (fold_left
                (fun acc e => match e with
                              | Signal sg h => if signal_eqb sg sig then Some h else acc
                              | _ => acc
                              end) tr None).
  induction l as [|e l IH]; intros acc; cbn; [reflexivity|].
  rewrite andb_true_iff. intros [He Hl].
  destruct e; try discriminate; apply IH; assumption.
Qed.

(** From the subscription on, an interrupt, terminate or quit signal runs
    [clean_exit], and a broken pipe is ignored. *)
Lemma termination_signals_handled (i : main_input) (s0 s : state) (sig : signal_t) :
  startup PACKAGE_URL PACKAGE_BUGREPORT PACKAGE_VERSION i = inl s0 ->
  calmly s0 s ->
  signal_disposition (trace s) sig
  = match sig with
    | SIGPIPE => Some SIG_IGN
    | _ => Some handler_clean_exit
    end.
Proof.
  intros E [(l2 & H2 & F2) _].
  destruct (startup_subscribed i s0 E) as [(l1 & H1 & F1) _].
  rewrite H2, H1, !signal_disposition_calm by assumption.
  destruct sig; reflexivity.
Qed.

(** X22: in every run of [main] that got as far as the subscription to the
    device events and returns, whatever set [quit_flag], the calls of the
    shutdown come last, after everything done until the loop was left, and
    in this order: [idevice_event_unsubscribe]; then [stop_logging], which
    flushes and releases the packet logger client and then the device that
    are held when the loop is left, and which would release nothing when
    called again; then the calls that close the output.  No call before them
    ends the subscription or closes the output, and an output that was
    opened is closed exactly once in the whole run. *)
Theorem shutdown_order (i : main_input) (s0 : state) (code : Z) (s' : state) :
  startup PACKAGE_URL PACKAGE_BUGREPORT PACKAGE_VERSION i = inl s0 ->
  main host BT_MAX_PACKET_SIZE PACKAGE_URL PACKAGE_BUGREPORT PACKAGE_VERSION i
  = Returned code s' ->
  exists sf,
    (if quit_flag s0 =? 0
     then wait_for_quit host BT_MAX_PACKET_SIZE (schedule i) s0
     else inl s0) = inl sf
    /\ code = 0
    /\ trace s' = trace sf ++ [EventUnsubscribe; Fflush] ++ released sf ++ closed sf
    /\ Forall (fun e => e <> EventUnsubscribe /\ is_sink_close e = false) (trace sf)
    /\ bt_packet_logger s' = None /\ device s' = None
    /\ stop_logging s' = emit Fflush s'
    /\ (pcap_dumper s0 <> None \/ 0 <= packetlogger_fd s0 ->
        List.length (filter is_sink_close (trace s')) = 1%nat).
Proof.
  intros E0 Em. unfold main in Em. rewrite E0 in Em.
  assert (Hsf : exists sf,
             (if quit_flag s0 =? 0
              then wait_for_quit host BT_MAX_PACKET_SIZE (schedule i) s0
              else inl s0) = inl sf
             /\ calmly s0 sf /\ code = 0 /\ s' = shutdown sf).
  { destruct (quit_flag s0 =? 0).
    - destruct (wait_for_quit host BT_MAX_PACKET_SIZE (schedule i) s0) as [sf|o] eqn:Ew.
      + cbv beta iota in Em. injection Em as Hcode Hs'. subst code s'.
        exists sf. split; [reflexivity|]. split; [|split; reflexivity].
        eapply calmly_wait_for_quit; [exact Ew|apply calmly_refl].
      + cbv beta iota in Em. subst o.
        exfalso. exact (wait_for_quit_not_returned _ _ _ _ Ew).
    - cbv beta iota in Em. injection Em as Hcode Hs'. subst code s'.
      exists s0. split; [reflexivity|]. split; [apply calmly_refl|split; reflexivity]. }
  destruct Hsf as (sf & Hleft & [(l2 & H2 & F2) [Hp Hf]] & -> & ->).
  destruct (startup_subscribed i s0 E0) as [(l1 & H1 & F1) Hout].
  exists sf.
  split; [exact Hleft|].
  split; [reflexivity|].
  split; [rewrite shutdown_trace; reflexivity|].
  split.
  { rewrite H2, H1, <- app_assoc. apply Forall_app. split.
    - repeat constructor; discriminate.
    - apply Forall_forall. intros e He. apply calm_not_shutdown.
      assert (F : forallb calm (l1 ++ l2) = true) by (rewrite forallb_app, F1, F2; reflexivity).
      rewrite forallb_forall in F. auto. }
  split; [rewrite shutdown_state; reflexivity|].
  split; [rewrite shutdown_state; reflexivity|].
  split.
  { rewrite (shutdown_state sf). generalize (trace (shutdown sf)). intros tr.
    destruct sf; reflexivity. }
  intros Hopen.
  rewrite shutdown_trace, H2, H1, !filter_app.
  rewrite (calm_no_close l1 F1), (calm_no_close l2 F2), released_no_close.
  unfold closed. rewrite Hp, Hf.
  destruct Hout as [[Hd Hfd]|[Hd Hfd]].
  - rewrite Hfd in *. destruct (pcap_dumper s0); [reflexivity|].
    destruct Hopen; [congruence|lia].
  - rewrite Hd. cbn. destruct (packetlogger_fd s0 >=? 0) eqn:G; [reflexivity|lia].
Qed.

End Main.

(** ** The output that cannot be opened *)

(** The two branches of the [switch] that opens the output: a descriptor
    that is negative makes [main] return -2, a dumper that is [NULL] is
    stored and [main] goes on. *)
Lemma open_output_failure (i : main_input) (s : state) :
  match log_format s with
  | LOG_FORMAT_PACKETLOGGER =>
      open_result i < 0 -> exists s', open_output i s = inr (-2, s')
  | LOG_FORMAT_PCAP =>
      exists s', open_output i s = inl s' /\ pcap_dumper s' = pcap_dump_open_result i
  end.
Proof.
  unfold open_output. destruct (log_format s).
  - intros H. cbn [packetlogger_fd set_packetlogger_fd].
    destruct (open_result i <? 0) eqn:E; [eexists; reflexivity|lia].
  - eexists. split; reflexivity.
Qed.

Section ExitCodes.

Variables PACKAGE_URL PACKAGE_BUGREPORT PACKAGE_VERSION : string.

Lemma getopt_loop_returns (argv_0 : string) (opts : list (ascii * string))
    (s : state) (code : Z) (s' : state) :
  getopt_loop PACKAGE_URL PACKAGE_BUGREPORT PACKAGE_VERSION argv_0 opts s = inr (code, s') ->
  code = 0 \/ code = 2.
Proof.
  revert s. induction opts as [|[c optarg] opts IH]; intros s; cbn [getopt_loop].
  - discriminate.
  - destruct c as [[|] [|] [|] [|] [|] [|] [|] [|]];
      try (intros [= <- _]; auto; fail);
      try (apply IH; fail);
      destruct (String.eqb optarg ""); try (apply IH; fail);
      intros [= <- _]; auto.
Qed.

(** The codes [main] returns before it subscribes: 0 and 2 from the
    options, 2 for a missing output file or an unknown format, -1 without
    device and UDID, and -2 only from the PacketLogger branch, when [open]
    failed. *)
Lemma startup_returns (i : main_input) (code : Z) (s : state) :
  startup PACKAGE_URL PACKAGE_BUGREPORT PACKAGE_VERSION i = inr (code, s) ->
  code = 0 \/ code = 2 \/ code = -1
  \/ (code = -2 /\ log_format s = LOG_FORMAT_PACKETLOGGER /\ open_result i < 0).
Proof.
  unfold startup.
  destruct (getopt_loop _ _ _ _ _ _) as [s1|[c1 s1']] eqn:E1.
  2:{ intros [= <- _]. destruct (getopt_loop_returns _ _ _ _ _ E1); auto. }
  unfold take_out_filename. destruct (operands i) as [|f args]; [intros [= <- _]; auto|].
  unfold select_log_format. cbn [log_format_string set_out_filename emit set_trace].
  assert (K : forall s3 : state,
             (do s <- look_for_devices (device_count i) s3;
              do s <- open_output i s; inl (emit EventSubscribe s)) = inr (code, s) ->
             code = -1
             \/ (code = -2 /\ log_format s = LOG_FORMAT_PACKETLOGGER /\ open_result i < 0)).
  { intros s3. unfold look_for_devices.
    assert (O : forall s4 : state,
               (do s <- open_output i s4; inl (emit EventSubscribe s)) = inr (code, s) ->
               code = -2 /\ log_format s = LOG_FORMAT_PACKETLOGGER /\ open_result i < 0).
    { intros s4. unfold open_output. destruct (log_format s4) eqn:F; [|discriminate].
      cbn [packetlogger_fd set_packetlogger_fd].
      destruct (open_result i <? 0) eqn:N; [|discriminate].
      intros [= <- <-]. repeat split; [exact F|lia]. }
    destruct (device_count i =? 0); [|intros H; right; exact (O _ H)].
    match goal with |- context [match udid ?x with _ => _ end] => destruct (udid x) end.
    - intros H. right. exact (O _ H).
    - intros [= <- _]. auto. }
  destruct (log_format_string s1) as [f0|]; [|intros H; destruct (K _ H); auto].
  destruct (String.eqb "packetlogger" f0); [intros H; destruct (K _ H); auto|].
  destruct (String.eqb "pcap" f0); [intros H; destruct (K _ H); auto|].
  intros [= <- _]. auto.
Qed.

End ExitCodes.

(** The exit codes on runs: help and version, a run that ends on a signal;
    an unknown option or a missing option argument (for which [getopt_long]
    returns '?'), an empty UDID, an empty format, a missing output file, an
    unknown format; no device and no UDID. *)
Example exit_codes :
  map (fun i => exit_code (main LittleEndian 65535 "" "" "" i))
      [run_of [("h"%char, ""%string)] [] 1;
       run_of [("v"%char, ""%string)] [] 1;
       run_of [("n"%char, ""%string); ("d"%char, ""%string)] ["out.pklg"%string] 1;
       run_of [("?"%char, ""%string)] ["out.pklg"%string] 1;
       run_of [("u"%char, ""%string)] ["out.pklg"%string] 1;
       run_of [("f"%char, ""%string)] ["out.pklg"%string] 1;
       run_of [] [] 1;
       run_of [("f"%char, "btsnoop"%string)] ["out.pklg"%string] 1;
       run_of [] ["out.pklg"%string] 0;
       run_of [("u"%char, "abc"%string)] ["out.pklg"%string] 0]
  = [Some 0; Some 0; Some 0; Some 2; Some 2; Some 2; Some 2; Some 2; Some (-1); Some 0].
Proof.
  vm_compute. reflexivity.
Qed.

(** C6 (what the code does, against the claim): with the pcap format and an
    output file that cannot be opened, [pcap_dump_open] returns [NULL] and
    [main] does not return -2: it subscribes to the device events, waits,
    and returns 0 after the interrupt; with the PacketLogger format the
    same file makes [main] return -2 before it subscribes. *)
Theorem pcap_open_failure_not_fatal :
  (exists s,
      main LittleEndian 65535 "" "" "" pcap_unwritable_run = Returned 0 s
      /\ pcap_dumper s = None
      /\ filter (fun e => match e with
                          | PcapDumpOpen _ _ | EventSubscribe | EventUnsubscribe => true
                          | _ => is_sink_close e
                          end) (trace s)
         = [PcapDumpOpen "/nonexistent/out.pcap" None; EventSubscribe; EventUnsubscribe])
  /\ (exists s,
         main LittleEndian 65535 "" "" "" packetlogger_unwritable_run = Returned (-2) s
         /\ filter (fun e => match e with
                             | Open _ _ | EventSubscribe => true
                             | _ => false
                             end) (trace s)
            = [Open "/nonexistent/out.pklg" (-1)]).
Proof.
  split; eexists; (split; [vm_compute; reflexivity|]); repeat split.
Qed.

(** C7 (what the code does, against the claim): in the run with the pcap
    format and an output file that cannot be opened, [main] goes through its
    shutdown, unsubscribes and returns 0, and the output is closed not once
    but never: [pcap_dumper] is [NULL] and [packetlogger_fd] is -1, so
    neither [pcap_dump_close] nor [close] is called. *)
Theorem unopened_output_never_closed :
  exists s,
    main LittleEndian 65535 "" "" "" pcap_unwritable_run = Returned 0 s
    /\ pcap_dumper s = None
    /\ packetlogger_fd s = -1
    /\ filter is_teardown (trace s) = [EventUnsubscribe]
    /\ List.length (filter is_sink_close (trace s)) = 0%nat.
Proof.
  eexists. split; [vm_compute; reflexivity|]. repeat split.
Qed.

(** ** The claims on concrete frames and runs *)

(** The scenario of the specification: declared length 10 and type byte
    HciEvent give direction RECV, UART type 0x04 and capture length 14. *)
Example event_frame_translated :
  bt_packet_logger_callback_pcap LittleEndian 65535 event_frame 16 capture_state
  = Some (firstn 8 event_frame ++ RECV ++ x04 :: [x0e; x04; x01],
          emit (PcapDumpFlush (Some 5%nat))
            (emit (PcapDump (Some 5%nat)
                     {| tv_sec := 100; tv_usec := 200; caplen := 14; len := 8 |}
                     (RECV ++ x04 :: [x0e; x04; x01])) capture_state)).
Proof.
  vm_compute. reflexivity.
Qed.

(** The capture length is a [uint32_t]: a declared length of 2^32 - 4 or
    more wraps around, and the frame passes the check with a capture length
    of 0 to 3. *)
Example capture_length_wraps :
  declared_length wrapping_frame = 4294967295
  /\ exists data' body,
       bt_packet_logger_callback_pcap LittleEndian 65535 wrapping_frame 16 capture_state
       = Some (data',
               emit (PcapDumpFlush (Some 5%nat))
                 (emit (PcapDump (Some 5%nat)
                          {| tv_sec := 0; tv_usec := 0; caplen := 3; len := 8 |} body)
                    capture_state)).
Proof.
  split; [vm_compute; reflexivity|]. eexists _, _. vm_compute. reflexivity.
Qed.

Lemma pcap_record_lengths_witness :
  exists data' h body,
    bt_packet_logger_callback_pcap LittleEndian 65535 event_frame 16 capture_state =
      Some (data',
            emit (PcapDumpFlush (pcap_dumper capture_state))
              (emit (PcapDump (pcap_dumper capture_state) h body) capture_state))
    /\ caplen h = declared_length event_frame + 4
    /\ len h = 16 - sizeof_bt_packet_logger_header_t + 4
    /\ tv_sec h = timestamp_seconds event_frame
    /\ tv_usec h = timestamp_microseconds event_frame.
Proof.
  apply (pcap_record_lengths LittleEndian 65535 event_frame x01 16 capture_state).
  - reflexivity.
  - reflexivity.
  - discriminate.
  - reflexivity.
  - vm_compute. discriminate.
  - vm_compute. discriminate.
Defined.

(** C1 (what the code does, against the claim): on a frame with the type
    byte 0xFF both lengths are within the maximum and no record is handed to
    [pcap_dump]: the default branch of the [switch] passes the type on, as
    its comment says, and the test against the initial value 0xff then
    skips the record. *)
Lemma ff_frame_yields_no_record :
  type_byte ff_frame = Some xff
  /\ Z.of_nat (List.length ff_frame) = 16
  /\ declared_length ff_frame + 4 <= 65535
  /\ 16 - sizeof_bt_packet_logger_header_t + 4 <= 65535
  /\ ~ dumps_record LittleEndian 65535 ff_frame 16 capture_state.
Proof.
  repeat split; try (vm_compute; discriminate).
  intros (data' & s' & E & H). vm_compute in E. injection E as _ <-.
  apply H. reflexivity.
Qed.

Lemma type_byte_mapping_witness :
  (x01 <> xff ->
   exists h,
     bt_packet_logger_callback_pcap BigEndian 65535 event_frame 16 capture_state =
       Some (firstn 8 event_frame ++ snd (uart_table x01) ++ fst (uart_table x01)
               :: payload event_frame,
             emit (PcapDumpFlush (pcap_dumper capture_state))
               (emit (PcapDump (pcap_dumper capture_state) h
                        (snd (uart_table x01) ++ fst (uart_table x01)
                           :: payload event_frame)) capture_state)))
  /\ (x01 = xff ->
      bt_packet_logger_callback_pcap BigEndian 65535 event_frame 16 capture_state
      = Some (event_frame, capture_state)).
Proof.
  apply (type_byte_mapping BigEndian 65535 event_frame x01 16 capture_state).
  - reflexivity.
  - vm_compute. discriminate.
  - vm_compute. discriminate.
Defined.

(** C2 (what the code does, against the claim): the type byte 0xFF is
    outside the table, the frame passes the check of the lengths, and the
    callback returns without a record and without touching the frame,
    although the default branch is meant to pass every unknown type on. *)
Lemma type_byte_ff_not_emitted :
  type_byte ff_note_frame = Some xff
  /\ wrap32 (declared_length ff_note_frame + 4) <= 65535
  /\ wrap32 (16 - sizeof_bt_packet_logger_header_t + 4) <= 65535
  /\ bt_packet_logger_callback_pcap BigEndian 65535 ff_note_frame 16 capture_state
     = Some (ff_note_frame, capture_state)
  /\ ~ dumps_record BigEndian 65535 ff_note_frame 16 capture_state.
Proof.
  repeat split; try (vm_compute; discriminate).
  intros (data' & s' & E & H). vm_compute in E. injection E as _ <-.
  apply H. reflexivity.
Qed.

Lemma oversized_frame_dropped_witness :
  exists s',
    bt_packet_logger_callback_pcap LittleEndian 65535 oversized_frame 13 capture_state
    = Some (oversized_frame, s')
    /\ trace s' = trace capture_state
                  ++ [Stderr ("WARNING: Packet length exceeded max size, corruption likely."
                              ++ LF ++ " ")]
    /\ filter is_sink_write (trace s') = filter is_sink_write (trace capture_state)
    /\ without_stderr s' = without_stderr capture_state.
Proof.
  apply (oversized_frame_dropped LittleEndian 65535 oversized_frame 13 capture_state).
  - discriminate.
  - vm_compute. repeat constructor.
  - left. vm_compute. reflexivity.
Defined.

(** The claim C3 fails on its counter: when the oversized frame is dropped,
    nothing that is determined by the variables of the program and by its
    calls other than the prints to standard error goes up by one. *)
Lemma no_drop_counter :
  wrap32 (declared_length oversized_frame + 4) > 65535
  /\ ~ (exists data' s' (counter : state -> Z),
          bt_packet_logger_callback_pcap LittleEndian 65535 oversized_frame 13 capture_state
          = Some (data', s')
          /\ counter (without_stderr s') = counter (without_stderr capture_state) + 1).
Proof.
  split; [vm_compute; reflexivity|].
  intros (data' & s' & counter & E & H). vm_compute in E. injection E as _ <-.
  change (counter capture_state = counter capture_state + 1) in H. lia.
Qed.

Lemma callback_pcap_effect_witness :
  exists (data' : list byte) (calls : option pcap_dumper_t -> list effect),
    (forall s : state,
        bt_packet_logger_callback_pcap LittleEndian 65535 event_frame 16 s =
          Some (data', set_trace (trace s ++ calls (pcap_dumper s)) s))
    /\ firstn 8 data' = firstn 8 event_frame
    /\ payload data' = payload event_frame
    /\ List.length data' = List.length event_frame
    /\ ((data' = event_frame /\ forall d, filter is_pcap_dump (calls d) = [])
        \/ (data' = firstn 8 event_frame ++ record_body event_frame x01
            /\ skipn 8 data' = record_body event_frame x01
            /\ (forall d, exists h,
                   calls d = [PcapDump d h (record_body event_frame x01); PcapDumpFlush d])
            /\ (data' = event_frame
                <-> firstn 5 (skipn 8 event_frame)
                    = snd (uart_table x01) ++ [fst (uart_table x01)]))).
Proof.
  apply (callback_pcap_effect LittleEndian 65535 event_frame x01 16).
  reflexivity.
Defined.

(** The claim C8 fails on the frame of an HCI event: the callback leaves
    the direction in bytes 8 to 11 and the UART type in byte 12. *)
Lemma callback_pcap_rewrites_frame :
  exists data' s',
    bt_packet_logger_callback_pcap LittleEndian 65535 event_frame 16 capture_state
    = Some (data', s')
    /\ data' <> event_frame
    /\ skipn 8 event_frame = [x00; x00; x00; xc8; x01; x0e; x04; x01]
    /\ skipn 8 data' = [x00; x00; x00; x01; x04; x0e; x04; x01].
Proof.
  eexists _, _. split; [vm_compute; reflexivity|].
  repeat split. discriminate.
Qed.

Lemma declared_length_unchecked_witness :
  exists data' h body,
    bt_packet_logger_callback_pcap LittleEndian 65535 overlong_frame 14 capture_state =
      Some (data',
            emit (PcapDumpFlush (pcap_dumper capture_state))
              (emit (PcapDump (pcap_dumper capture_state) h body) capture_state))
    /\ body = skipn 8 data'
    /\ caplen h = declared_length overlong_frame + 4
    /\ len h < caplen h
    /\ Z.of_nat (List.length body) < caplen h.
Proof.
  apply (declared_length_unchecked LittleEndian 65535 overlong_frame x02 14 capture_state).
  - reflexivity.
  - reflexivity.
  - discriminate.
  - reflexivity.
  - vm_compute. discriminate.
  - vm_compute. discriminate.
  - vm_compute. reflexivity.
Defined.

(** C10 (what the code does, against the claim): on a frame with the type
    byte 0xFF whose lengths are within the maximum and whose declared length
    is more than the frame holds, no record is handed to [pcap_dump]. *)
Lemma ff_short_frame_yields_no_record :
  declared_length ff_short_frame + 4 <= 65535
  /\ 13 - sizeof_bt_packet_logger_header_t + 4 <= 65535
  /\ 13 - sizeof_bt_packet_logger_header_t < declared_length ff_short_frame
  /\ ~ dumps_record LittleEndian 65535 ff_short_frame 13 capture_state.
Proof.
  repeat split; try (vm_compute; discriminate).
  intros (data' & s' & E & H). vm_compute in E. injection E as _ <-.
  apply H. reflexivity.
Qed.

Lemma monitor_identity_witness :
  device_event_cb
    {| event := IDEVICE_DEVICE_ADD; event_udid := "net"; conn_type := CONNECTION_NETWORK |}
    connects capture_state = capture_state
  /\ device_event_cb (usb_event IDEVICE_DEVICE_REMOVE "other") connects capture_state
     = capture_state
  /\ udid (deliver_events
             ([(usb_event IDEVICE_DEVICE_REMOVE "gone", connects);
               ({| event := IDEVICE_DEVICE_ADD; event_udid := "net";
                   conn_type := CONNECTION_NETWORK |}, connects)]
              ++ (usb_event IDEVICE_DEVICE_ADD "abc", connects)
              :: [(usb_event IDEVICE_DEVICE_ADD "def", connects);
                  (usb_event IDEVICE_DEVICE_REMOVE "abc", connects)])
             initial_state)
     = Some "abc"%string.
Proof.
  split; [|split].
  - apply (proj1 (monitor_identity capture_state)). discriminate.
  - apply (proj1 (proj2 (monitor_identity capture_state))
             (usb_event IDEVICE_DEVICE_REMOVE "other") connects
             "00008030-001A2D3E4F50002E"%string).
    + reflexivity.
    + discriminate.
  - apply (proj2 (proj2 (monitor_identity initial_state))
             _ (usb_event IDEVICE_DEVICE_ADD "abc") connects).
    + reflexivity.
    + reflexivity.
    + repeat constructor.
    + reflexivity.
Defined.

Lemma detach_stops_session_witness :
  let s := set_exit_on_disconnect 1 capture_state in
  let s' := device_event_cb (usb_event IDEVICE_DEVICE_REMOVE "00008030-001A2D3E4F50002E")
              connects s in
  s' = set_quit_flag (if exit_on_disconnect s =? 0 then quit_flag s else quit_flag s + 1)
         (set_trace (trace s ++ [Fflush; ClientFree (Some 2%nat)]
                       ++ match device s with
                          | Some d => [DeviceFree d]
                          | None => []
                          end
                       ++ [Stdout ("[disconnected:" ++ "00008030-001A2D3E4F50002E" ++ "]"
                                   ++ LF)])
            (set_device None (set_bt_packet_logger None s)))
  /\ bt_packet_logger s' = None
  /\ device s' = None
  /\ (quit_flag s = 0 -> (quit_flag s' <> 0 <-> exit_on_disconnect s <> 0))
  /\ (forall e2 ans2,
        matching_attach s' e2 = true ->
        event_udid e2 = "00008030-001A2D3E4F50002E"%string ->
        device_event_cb e2 ans2 s' =
          let '(r, s2) := start_logging ans2 s' in
          if negb (r =? 0) then
            emit (Stderr ("Could not start logger for udid " ++ "00008030-001A2D3E4F50002E"
                          ++ LF)) s2
          else s2).
Proof.
  apply (detach_stops_session
           (usb_event IDEVICE_DEVICE_REMOVE "00008030-001A2D3E4F50002E") connects
           (set_exit_on_disconnect 1 capture_state) 2%nat
           "00008030-001A2D3E4F50002E"%string); reflexivity.
Defined.

(** The claim C9 fails on any run of the handler: it prints to standard
    error, so that more than the flag has changed. *)
Lemma clean_exit_prints :
  filter is_stderr (trace (clean_exit SIGINT capture_state))
  = [Stderr (LF ++ "Exiting..." ++ LF)]
  /\ set_quit_flag (quit_flag capture_state) (clean_exit SIGINT capture_state)
     <> capture_state.
Proof.
  split; [reflexivity|]. intros H.
  apply (f_equal trace) in H. vm_compute in H. discriminate H.
Qed.

Lemma shutdown_order_witness :
  exists sf,
    (if quit_flag pcap_run_subscribed =? 0
     then wait_for_quit LittleEndian 65535 (schedule pcap_run) pcap_run_subscribed
     else inl pcap_run_subscribed) = inl sf
    /\ 0 = 0
    /\ trace pcap_run_end = trace sf ++ [EventUnsubscribe; Fflush] ++ released sf ++ closed sf
    /\ Forall (fun e => e <> EventUnsubscribe /\ is_sink_close e = false) (trace sf)
    /\ bt_packet_logger pcap_run_end = None /\ device pcap_run_end = None
    /\ stop_logging pcap_run_end = emit Fflush pcap_run_end
    /\ (pcap_dumper pcap_run_subscribed <> None \/ 0 <= packetlogger_fd pcap_run_subscribed ->
        List.length (filter is_sink_close (trace pcap_run_end)) = 1%nat).
Proof.
  apply (shutdown_order LittleEndian 65535 "" "" "" pcap_run pcap_run_subscribed 0
           pcap_run_end).
  - vm_compute. reflexivity.
  - vm_compute. reflexivity.
Defined.

(** The shutdown after a disconnect under [-x] and after a signal: the same
    calls in the same order. *)
Example shutdown_after_disconnect :
  filter is_teardown (trace pcap_run_end)
  = [ClientFree (Some 2%nat); DeviceFree 1%nat; EventUnsubscribe; PcapDumpClose 5%nat].
Proof.
  vm_compute. reflexivity.
Qed.

Example shutdown_after_signal :
  exists s,
    main LittleEndian 65535 "" "" "" sigterm_run = Returned 0 s
    /\ filter is_teardown (trace s)
       = [EventUnsubscribe; ClientFree (Some 2%nat); DeviceFree 1%nat; Close 3].
Proof.
  eexists. split; vm_compute; reflexivity.
Qed.

(** * The rest of the program *)

(** ** The pcap callback at the edges *)

Lemma callback_pcap_header_only (host : byte_order) (max : Z)
    (l0 l1 l2 l3 s0 s1 s2 s3 u0 u1 u2 u3 : byte) (n : Z) (s : state) :
  let data := [l0; l1; l2; l3; s0; s1; s2; s3; u0; u1; u2; u3] in
  bt_packet_logger_callback_pcap host max data n s =
    if (wrap32 (n - 12 + 4) >? max) || (wrap32 (be32 [l0; l1; l2; l3] + 4) >? max) then
      Some (data,
            emit (Stderr ("WARNING: Packet length exceeded max size, corruption likely."
                          ++ LF ++ " ")) s)
    else None.
Proof.
  intros data. unfold bt_packet_logger_callback_pcap.
  unfold read32, offsetof_length, offsetof_ts_secs, offsetof_ts_usecs.
  subst data. cbn [app skipn firstn List.length Nat.eqb].
  rewrite !ntohl_load32 by reflexivity.
  change (Z.to_nat (wrap16 sizeof_bt_packet_logger_header_t)) with 12%nat.
  change sizeof_bt_packet_logger_header_t with 12.
  change sizeof_uint32_t with 4.
  destruct (_ || _); reflexivity.
Qed.

(** X1: the pcap callback does the same on a little-endian and on a
    big-endian host: the uses of [ntohl] and [htonl] make the decision, the
    record and the rewritten frame independent of the byte order. *)
Theorem callback_pcap_byte_order (max : Z) (data : list byte) (n : Z) (s : state) :
  bt_packet_logger_callback_pcap LittleEndian max data n s
  = bt_packet_logger_callback_pcap BigEndian max data n s.
Proof.
  destruct data as [|l0 [|l1 [|l2 [|l3 [|s0 [|s1 [|s2 [|s3 [|u0 [|u1 [|u2 [|u3 [|t p]]]]]]]]]]]]];
    try reflexivity.
  - rewrite !callback_pcap_header_only. reflexivity.
  - change (l0 :: l1 :: l2 :: l3 :: s0 :: s1 :: s2 :: s3 :: u0 :: u1 :: u2 :: u3 :: t :: p)
      with ([l0; l1; l2; l3; s0; s1; s2; s3; u0; u1; u2; u3; t] ++ p).
    rewrite !callback_pcap_frame. cbv zeta.
    pose proof (map_packet_type_table LittleEndian t) as HL.
    pose proof (map_packet_type_table BigEndian t) as HB.
    pose proof (f_equal fst HL) as HL1. pose proof (f_equal snd HL) as HL2.
    pose proof (f_equal fst HB) as HB1. pose proof (f_equal snd HB) as HB2.
    cbn [fst snd] in HL1, HL2, HB1, HB2.
    rewrite HL1, HL2, HB1, HB2. reflexivity.
Qed.

Section TranslatorEdges.

Variable host : byte_order.
Variable BT_MAX_PACKET_SIZE : Z.

(** X2: the capture length is computed in 32 bits, so the check of the
    lengths does not stop a declared length of 2^32 - 4 or more: such a
    frame, with a type byte other than 0xFF and an original length within
    the maximum, is handed to [pcap_dump] with a capture length of 0 to 3,
    namely the declared length plus 4 minus 2^32. *)
Theorem capture_length_wraps_past_check (data : list byte) (t : byte) (n : Z) (s : state) :
  type_byte data = Some t ->
  t <> xff ->
  2 ^ 32 - 4 <= declared_length data ->
  3 <= BT_MAX_PACKET_SIZE ->
  wrap32 (n - 12 + 4) <= BT_MAX_PACKET_SIZE ->
  exists data' h body,
    bt_packet_logger_callback_pcap host BT_MAX_PACKET_SIZE data n s =
      Some (data',
            emit (PcapDumpFlush (pcap_dumper s))
              (emit (PcapDump (pcap_dumper s) h body) s))
    /\ caplen h = declared_length data + 4 - 2 ^ 32
    /\ 0 <= caplen h <= 3.
Proof.
  intros Ht Hff HL Hmax Hlen.
  pose proof (declared_length_range data t Ht) as R.
  assert (W : wrap32 (declared_length data + 4) = declared_length data + 4 - 2 ^ 32).
  { unfold wrap32. symmetry.
    apply (Z.mod_unique _ _ 1); [left|]; lia. }
  rewrite (callback_pcap_data host BT_MAX_PACKET_SIZE data t n s Ht). cbn [len caplen].
  rewrite W.
  replace (wrap32 (n - 12 + 4) >? BT_MAX_PACKET_SIZE) with false by (symmetry; lia).
  replace (declared_length data + 4 - 2 ^ 32 >? BT_MAX_PACKET_SIZE) with false
    by (symmetry; lia).
  rewrite (byte_eqb_neq t xff Hff). cbn [orb].
  eexists _, _, _. split; [reflexivity|]. cbn [caplen]. lia.
Qed.

(** X3: the original length is computed without a test of the byte count
    against the header size: for a byte count below 8 it wraps around to
    2^32 - 8 or more, and the frame is dropped with the warning whenever the
    maximum is below that. *)
Theorem short_count_dropped (data : list byte) (n : Z) (s : state) :
  (12 <= List.length data)%nat ->
  0 <= n < 8 ->
  0 <= BT_MAX_PACKET_SIZE < 2 ^ 32 - 8 ->
  bt_packet_logger_callback_pcap host BT_MAX_PACKET_SIZE data n s =
    Some (data,
          emit (Stderr ("WARNING: Packet length exceeded max size, corruption likely."
                        ++ LF ++ " ")) s).
Proof.
  intros Hd Hn Hmax. apply callback_pcap_drop; [assumption|].
  assert (W : wrap32 (n - 12 + 4) = n - 8 + 2 ^ 32).
  { unfold wrap32. symmetry. apply (Z.mod_unique _ _ (-1)); [left|]; lia. }
  rewrite W. apply orb_true_iff. left. lia.
Qed.

(** X5: when the header declares what the frame holds behind it (the type
    byte and the payload), the record is consistent: capture length and
    original length are equal and are the number of bytes [pcap_dump] is
    pointed at, the direction, the type and the payload. *)
Theorem consistent_frame_record (data : list byte) (t : byte) (n : Z) (s : state) :
  BT_MAX_PACKET_SIZE < 2 ^ 32 ->
  type_byte data = Some t ->
  t <> xff ->
  Z.of_nat (List.length data) = n ->
  declared_length data = n - sizeof_bt_packet_logger_header_t ->
  n - sizeof_bt_packet_logger_header_t + 4 <= BT_MAX_PACKET_SIZE ->
  exists data' h,
    bt_packet_logger_callback_pcap host BT_MAX_PACKET_SIZE data n s =
      Some (data',
            emit (PcapDumpFlush (pcap_dumper s))
              (emit (PcapDump (pcap_dumper s) h (record_body data t)) s))
    /\ caplen h = len h
    /\ len h = Z.of_nat (List.length (record_body data t))
    /\ Z.of_nat (List.length (record_body data t))
       = 4 + 1 + Z.of_nat (List.length (payload data)).
Proof.
  intros Hmax Ht Hff Hn HL Hlen.
  change sizeof_bt_packet_logger_header_t with 12 in *.
  eexists _, _. split.
  - apply (callback_pcap_accepts host BT_MAX_PACKET_SIZE data t n s); try assumption.
    change sizeof_uint32_t with 4. lia.
  - cbn [caplen len]. change sizeof_uint32_t with 4.
    change sizeof_bt_packet_logger_header_t with 12.
    split; [lia|]. split; [rewrite (length_record_body data t Ht); lia|].
    unfold record_body. rewrite length_app, length_direction. cbn [List.length]. lia.
Qed.

End TranslatorEdges.

(** ** The PacketLogger callback *)

Lemma bytes_written_app (fd : Z) (l1 l2 : list effect) :
  bytes_written fd (l1 ++ l2) = bytes_written fd l1 ++ bytes_written fd l2.
Proof.
  unfold bytes_written. apply flat_map_app.
Qed.

(** X6: in the PacketLogger format the frames are passed on byte for byte:
    after the callback has run on a sequence of frames, the bytes handed to
    [write] on [packetlogger_fd] are those handed over before followed by
    the frames in their order, and no variable of the program has changed. *)
Theorem packetlogger_passthrough (frames : list (list byte)) (s : state) :
  bytes_written (packetlogger_fd s) (trace (write_frames frames s))
  = bytes_written (packetlogger_fd s) (trace s) ++ List.concat frames
  /\ set_trace (trace s) (write_frames frames s) = s.
Proof.
  revert s. induction frames as [|f frames IH]; intros s.
  - cbn. rewrite app_nil_r. split; [reflexivity|apply set_trace_same].
  - unfold write_frames in *. cbn [fold_left List.concat].
    assert (E : snd (bt_packet_logger_callback_packetlogger f (Z.of_nat (List.length f)) s)
                = emit (WriteFd (packetlogger_fd s) f) s).
    { cbn [bt_packet_logger_callback_packetlogger snd].
      rewrite Nat2Z.id, firstn_all. reflexivity. }
    rewrite E.
    destruct (IH (emit (WriteFd (packetlogger_fd s) f) s)) as [IH1 IH2].
    cbn [packetlogger_fd emit set_trace] in IH1. split.
    + rewrite IH1. cbn [trace emit set_trace]. rewrite bytes_written_app.
      cbn [bytes_written flat_map]. rewrite Z.eqb_refl, app_nil_r, <- app_assoc.
      reflexivity.
    + apply (f_equal (set_trace (trace s))) in IH2.
      destruct s; cbn in *. exact IH2.
Qed.

(** ** Start and stop of the capture, device events *)

Lemma trace_emit (e : effect) (s : state) : trace (emit e s) = trace s ++ [e].
Proof. reflexivity. Qed.

Lemma trace_set_device (v : option idevice_t) (s : state) : trace (set_device v s) = trace s.
Proof. reflexivity. Qed.

Lemma trace_set_bt_packet_logger (v : option bt_packet_logger_client_t) (s : state) :
  trace (set_bt_packet_logger v s) = trace s.
Proof. reflexivity. Qed.

Lemma trace_set_quit_flag (v : Z) (s : state) : trace (set_quit_flag v s) = trace s.
Proof. reflexivity. Qed.

Lemma bt_packet_logger_emit (e : effect) (s : state) :
  bt_packet_logger (emit e s) = bt_packet_logger s.
Proof. reflexivity. Qed.

Lemma bt_packet_logger_set (v : option bt_packet_logger_client_t) (s : state) :
  bt_packet_logger (set_bt_packet_logger v s) = v.
Proof. reflexivity. Qed.

Create Rewrite HintDb trace.

Lemma trace_set_packetlogger_fd (v : Z) (s : state) :
  trace (set_packetlogger_fd v s) = trace s.
Proof. reflexivity. Qed.

Lemma trace_set_pcap_dumper (v : option pcap_dumper_t) (s : state) :
  trace (set_pcap_dumper v s) = trace s.
Proof. reflexivity. Qed.

#[local] Hint Rewrite trace_emit trace_set_device trace_set_bt_packet_logger
  trace_set_quit_flag trace_set_packetlogger_fd trace_set_pcap_dumper
  bt_packet_logger_emit bt_packet_logger_set : trace.

(** X7: [start_logging] returns 0 or -1.  It returns 0 exactly when the
    device was found, the handshake with lockdownd succeeded and the capture
    started; the device handle and whatever [bt_packet_logger_client_start_service]
    returned are then kept.  When it returns -1, the two handles the program
    keeps, [device] and [bt_packet_logger], are [NULL] again, and the device
    and the packet logger client it had obtained were passed to
    [idevice_free] and [bt_packet_logger_client_free].  The lockdownd client
    of the handshake is not among them: no path releases it. *)
Theorem start_logging_outcome (ans : connect_answers) (s : state) (r : Z) (s' : state) :
  device s = None ->
  bt_packet_logger s = None ->
  start_logging ans s = (r, s') ->
  (r = 0
   /\ device s' = idevice_new_result ans /\ device s' <> None
   /\ handshake_result ans = LOCKDOWN_E_SUCCESS
   /\ start_capture_ok ans = true
   /\ bt_packet_logger s' = start_service_result ans)
  \/ (r = -1
      /\ (idevice_new_result ans = None
          \/ handshake_result ans <> LOCKDOWN_E_SUCCESS
          \/ start_capture_ok ans = false)
      /\ device s' = None
      /\ bt_packet_logger s' = None
      /\ (forall d, idevice_new_result ans = Some d -> In (DeviceFree d) (trace s'))
      /\ (forall c,
            idevice_new_result ans <> None ->
            handshake_result ans = LOCKDOWN_E_SUCCESS ->
            start_service_result ans = Some c ->
            In (ClientFree (Some c)) (trace s'))).
Proof.
  intros Hd Hb. unfold start_logging.
  destruct (idevice_new_result ans) as [d|] eqn:En.
  - destruct (handshake_result ans) as [|lerr] eqn:Eh.
    + destruct (start_capture_ok ans) eqn:Ec; cbn [negb]; intros [= <- <-].
      * left. repeat split. discriminate.
      * right. split; [reflexivity|]. split; [auto|].
        split; [reflexivity|]. split; [reflexivity|]. split.
        -- intros d' [= <-]. autorewrite with trace. rewrite !in_app_iff. cbn [In]. auto.
        -- intros c _ _ Hc. autorewrite with trace. rewrite Hc, !in_app_iff. cbn [In]. auto 10.
    + intros [= <- <-]. right. split; [reflexivity|].
      split; [right; left; discriminate|].
      split; [reflexivity|]. split; [exact Hb|]. split.
      * intros d' [= <-]. autorewrite with trace. rewrite !in_app_iff. cbn [In]. auto.
      * intros c _ [=].
  - intros [= <- <-]. right. split; [reflexivity|]. split; [auto|].
    split; [exact Hd|]. split; [exact Hb|]. split.
    + intros d [=].
    + intros c H. congruence.
Qed.

Lemma start_logging_fails (ans : connect_answers) (s : state) (r : Z) (s' : state) :
  device s = None ->
  bt_packet_logger s = None ->
  start_logging ans s = (r, s') ->
  (r = 0
   /\ device s' = idevice_new_result ans /\ device s' <> None
   /\ handshake_result ans = LOCKDOWN_E_SUCCESS
   /\ start_capture_ok ans = true
   /\ bt_packet_logger s' = start_service_result ans)
  \/ (r = -1
      /\ (idevice_new_result ans = None
          \/ handshake_result ans <> LOCKDOWN_E_SUCCESS
          \/ start_capture_ok ans = false)
      /\ device s' = None
      /\ bt_packet_logger s' = None).
Proof.
  intros Hd Hb. unfold start_logging.
  destruct (idevice_new_result ans) as [d|] eqn:En.
  - destruct (handshake_result ans) as [|lerr] eqn:Eh.
    + destruct (start_capture_ok ans) eqn:Ec; cbn [negb]; intros [= <- <-].
      * left. repeat split. discriminate.
      * right. repeat split. auto.
    + intros [= <- <-]. right. split; [reflexivity|].
      split; [right; left; discriminate|]. split; [reflexivity|exact Hb].
  - intros [= <- <-]. right. split; [reflexivity|]. split; [auto|].
    split; [exact Hd|exact Hb].
Qed.

Lemma start_logging_handles (ans : connect_answers) (s : state) :
  bt_packet_logger s = None ->
  bt_packet_logger (snd (start_logging ans s)) <> None ->
  device (snd (start_logging ans s)) <> None.
Proof.
  intros Hb. unfold start_logging.
  destruct (idevice_new_result ans) as [d|]; [|cbn; congruence].
  destruct (handshake_result ans); [|cbn; congruence].
  destruct (start_capture_ok ans); cbn; congruence.
Qed.

Lemma device_event_cb_session_ok (e : idevice_event_t) (ans : connect_answers) (s : state) :
  session_ok s -> session_ok (device_event_cb e ans s).
Proof.
  intros Hs.
  destruct (conn_type_eqb (conn_type e) (configured_transport s)) eqn:Hc.
  2:{ rewrite device_event_cb_other_transport; [assumption|].
      intros Hc'. apply conn_type_eqb_eq in Hc'. congruence. }
  apply conn_type_eqb_eq in Hc. rewrite (device_event_cb_same_transport e ans s Hc).
  destruct (event e); [| |assumption].
  - destruct (bt_packet_logger s) eqn:Hb; [assumption|]. cbv zeta.
    set (s1 := match udid s with
               | Some _ => s
               | None => set_udid (Some (event_udid e)) s
               end).
    assert (Hb1 : bt_packet_logger s1 = None) by (subst s1; destruct (udid s); exact Hb).
    destruct (udid_is (udid s1) (event_udid e)) eqn:Hu.
    + apply udid_is_true in Hu.
      pose proof (start_logging_handles ans s1 Hb1) as Hh.
      pose proof (start_logging_keeps ans s1) as K. cbn zeta in K.
      destruct (start_logging ans s1) as [r s2]. cbn [snd] in Hh, K.
      destruct K as (_ & _ & K & _).
      assert (session_ok s2).
      { intros H2. split; [auto|]. rewrite K, Hu. discriminate. }
      destruct (negb (r =? 0)); assumption.
    + intros H. congruence.
  - destruct (bt_packet_logger s); [|assumption].
    destruct (udid_is (udid s) (event_udid e)); [|assumption].
    cbv zeta. rewrite stop_logging_state.
    destruct (negb _); intros H; cbn in H; congruence.
Qed.

(** X8: while the packet logger client exists, the device handle and the
    identity exist too, through any sequence of device events and whatever
    the libraries answer; in particular [strcmp] is never handed a [NULL]
    identity on a detach event. *)
Theorem session_kept (evs : list (idevice_event_t * connect_answers)) (s : state) :
  session_ok s -> session_ok (deliver_events evs s).
Proof.
  revert s. induction evs as [|[e ans] evs IH]; intros s Hs.
  - exact Hs.
  - cbn. apply IH. apply device_event_cb_session_ok. exact Hs.
Qed.

(** X9: [device_event_cb] changes something in two situations only, both
    for an event of the configured transport kind: an attach event while no
    packet logger client exists, when no identity is bound or the event
    names the bound identity; and a detach event that names the bound
    identity while the client exists.  Everything else, an attach while a
    capture runs or a pairing event included, leaves the state as it is. *)
Theorem device_event_cb_acts_only (e : idevice_event_t) (ans : connect_answers) (s : state) :
  device_event_cb e ans s <> s ->
  conn_type e = configured_transport s
  /\ ((event e = IDEVICE_DEVICE_ADD
       /\ bt_packet_logger s = None
       /\ (udid s = None \/ udid s = Some (event_udid e)))
      \/ (event e = IDEVICE_DEVICE_REMOVE
          /\ bt_packet_logger s <> None
          /\ udid s = Some (event_udid e))).
Proof.
  intros Hne.
  destruct (conn_type_eqb (conn_type e) (configured_transport s)) eqn:Hc.
  2:{ exfalso. apply Hne. apply device_event_cb_other_transport.
      intros Hc'. apply conn_type_eqb_eq in Hc'. congruence. }
  apply conn_type_eqb_eq in Hc. split; [exact Hc|].
  rewrite (device_event_cb_same_transport e ans s Hc) in Hne.
  destruct (event e); [| |contradiction].
  - left. split; [reflexivity|].
    destruct (bt_packet_logger s); [contradiction|]. split; [reflexivity|].
    destruct (udid s) as [u|] eqn:Hu; [|left; reflexivity].
    right. cbv zeta in Hne.
    destruct (udid_is (udid s) (event_udid e)) eqn:Hi; [|contradiction].
    apply udid_is_true in Hi. congruence.
  - right. split; [reflexivity|].
    destruct (bt_packet_logger s); [|contradiction]. split; [discriminate|].
    destruct (udid_is (udid s) (event_udid e)) eqn:Hi; [|contradiction].
    apply udid_is_true in Hi. exact Hi.
Qed.

Lemma device_event_cb_other_identity (e : idevice_event_t) (ans : connect_answers)
    (s : state) (u : string) :
  udid s = Some u -> event_udid e <> u -> device_event_cb e ans s = s.
Proof.
  intros Hu Hne.
  destruct (conn_type_eqb (conn_type e) (configured_transport s)) eqn:Hc.
  - apply conn_type_eqb_eq in Hc. rewrite (device_event_cb_same_transport e ans s Hc).
    assert (Hno : udid_is (udid s) (event_udid e) = false).
    { destruct (udid_is (udid s) (event_udid e)) eqn:E; [|reflexivity].
      apply udid_is_true in E. congruence. }
    destruct (event e); [| |reflexivity].
    + destruct (bt_packet_logger s); [reflexivity|].
      rewrite Hu. cbv beta iota zeta. rewrite Hno. reflexivity.
    + destruct (bt_packet_logger s); [|reflexivity]. rewrite Hno. reflexivity.
  - apply device_event_cb_other_transport.
    intros Hc'. apply conn_type_eqb_eq in Hc'. congruence.
Qed.

(** X10: the identity of the first attach event is bound before the capture
    is started and stays bound when the start fails: after an attach event
    of the configured kind whose start fails (no device, no handshake or no
    capture), the identity of the event is bound, no handle is held, the
    last line on standard error names the identity, and the events of every
    other identity are ignored from then on. *)
Theorem failed_attach_binds_identity (e : idevice_event_t) (ans : connect_answers)
    (s : state) :
  udid s = None ->
  bt_packet_logger s = None ->
  device s = None ->
  matching_attach s e = true ->
  (idevice_new_result ans = None
   \/ handshake_result ans <> LOCKDOWN_E_SUCCESS
   \/ start_capture_ok ans = false) ->
  let s' := device_event_cb e ans s in
  udid s' = Some (event_udid e)
  /\ bt_packet_logger s' = None
  /\ device s' = None
  /\ (exists tr,
        trace s' = tr ++ [Stderr ("Could not start logger for udid " ++ event_udid e ++ LF)])
  /\ (forall e2 ans2, event_udid e2 <> event_udid e -> device_event_cb e2 ans2 s' = s').
Proof.
  intros Hu Hb Hd Hm Hfail s'.
  assert (E : udid s' = Some (event_udid e) /\ bt_packet_logger s' = None
              /\ device s' = None
              /\ exists tr,
                  trace s'
                  = tr ++ [Stderr ("Could not start logger for udid " ++ event_udid e ++ LF)]).
  { subst s'. apply matching_attach_true in Hm. destruct Hm as [Hc He].
    rewrite (device_event_cb_same_transport e ans s Hc), He, Hb, Hu. cbv zeta.
    cbn [udid set_udid]. unfold udid_is. rewrite String.eqb_refl.
    pose proof (fun r0 s0 =>
                  start_logging_fails ans (set_udid (Some (event_udid e)) s) r0 s0 Hd Hb)
      as O.
    pose proof (start_logging_keeps ans (set_udid (Some (event_udid e)) s)) as K.
    cbv zeta in K.
    destruct (start_logging ans (set_udid (Some (event_udid e)) s)) as [r s2].
    specialize (O r s2 eq_refl).
    cbn [snd] in K. destruct K as (_ & _ & K & _). cbn [udid set_udid] in K.
    destruct O as [(_ & Hdev & Hdev' & Hh & Hcap & _)|(-> & _ & Hd2 & Hb2)].
    - exfalso. destruct Hfail as [F|[F|F]]; [|contradiction|congruence].
      rewrite F in Hdev. contradiction.
    - cbn [negb Z.eqb]. rewrite K. cbn [show].
      repeat split; try assumption. eexists. reflexivity. }
  destruct E as (E1 & E2 & E3 & E4).
  repeat split; try assumption.
  intros e2 ans2 Hne. apply (device_event_cb_other_identity e2 ans2 s' (event_udid e) E1 Hne).
Qed.

(** X11: [stop_logging] leaves both handles [NULL] and changes no other
    variable; it releases the client before the device, each only if it
    exists; called again, it releases nothing and only flushes. *)
Theorem stop_logging_releases_once (s : state) :
  bt_packet_logger (stop_logging s) = None
  /\ device (stop_logging s) = None
  /\ filter is_teardown (trace (stop_logging s)) = filter is_teardown (trace s) ++ released s
  /\ stop_logging (stop_logging s) = emit Fflush (stop_logging s)
  /\ same_settings s (stop_logging s)
  /\ udid (stop_logging s) = udid s
  /\ quit_flag (stop_logging s) = quit_flag s.
Proof.
  split; [rewrite stop_logging_state; reflexivity|].
  split; [rewrite stop_logging_state; reflexivity|].
  split.
  { rewrite stop_logging_trace, !filter_app. unfold released.
    destruct (bt_packet_logger s), (device s); reflexivity. }
  split.
  { rewrite (stop_logging_state s). generalize (trace (stop_logging s)). intros tr.
    destruct s; reflexivity. }
  rewrite stop_logging_state. repeat split.
Qed.

(** ** The options and the start of [main] *)

Section Startup.

Variables PACKAGE_URL PACKAGE_BUGREPORT PACKAGE_VERSION : string.

Lemma quietly_refl (s : state) : quietly s s.
Proof.
  split; [|repeat split]. exists []. rewrite app_nil_r. split; reflexivity.
Qed.

Lemma quietly_trans (s1 s2 s3 : state) : quietly s1 s2 -> quietly s2 s3 -> quietly s1 s3.
Proof.
  intros [(l1 & E1 & F1) (Q1 & D1 & B1)] [(l2 & E2 & F2) (Q2 & D2 & B2)].
  split; [|repeat split; congruence].
  exists (l1 ++ l2). rewrite E2, E1, app_assoc, forallb_app, F1, F2. split; reflexivity.
Qed.

Lemma quietly_emit (e : effect) (s s1 : state) :
  quiet e = true -> quietly s s1 -> quietly s (emit e s1).
Proof.
  intros He H. apply (quietly_trans s s1); [assumption|].
  split; [|repeat split].
  exists [e]. cbn. rewrite He. split; reflexivity.
Qed.

Lemma quietly_set_udid (v : option string) (s s1 : state) :
  quietly s s1 -> quietly s (set_udid v s1).
Proof. intros H. exact H. Qed.

Lemma quietly_set_log_format_string (v : option string) (s s1 : state) :
  quietly s s1 -> quietly s (set_log_format_string v s1).
Proof. intros H. exact H. Qed.

Lemma quietly_set_use_network (v : Z) (s s1 : state) :
  quietly s s1 -> quietly s (set_use_network v s1).
Proof. intros H. exact H. Qed.

Lemma quietly_set_exit_on_disconnect (v : Z) (s s1 : state) :
  quietly s s1 -> quietly s (set_exit_on_disconnect v s1).
Proof. intros H. exact H. Qed.

Lemma quietly_set_out_filename (v : option string) (s s1 : state) :
  quietly s s1 -> quietly s (set_out_filename v s1).
Proof. intros H. exact H. Qed.

Lemma quietly_set_log_format (v : log_format_t) (s s1 : state) :
  quietly s s1 -> quietly s (set_log_format v s1).
Proof. intros H. exact H. Qed.

Create HintDb quiet.

#[local] Hint Resolve quietly_refl quietly_set_udid quietly_set_log_format_string
  quietly_set_use_network quietly_set_exit_on_disconnect quietly_set_out_filename
  quietly_set_log_format : quiet.

#[local] Hint Extern 1 (quietly _ (emit _ _)) => apply quietly_emit; [reflexivity|] : quiet.

Lemma quietly_print_usage (argv_0 : string) (is_error : bool) (s s1 : state) :
  quietly s s1 -> quietly s (print_usage PACKAGE_URL PACKAGE_BUGREPORT argv_0 is_error s1).
Proof.
  intros H. unfold print_usage. destruct is_error; auto with quiet.
Qed.

#[local] Hint Resolve quietly_print_usage : quiet.

(** One turn of the loop over the options. *)
Lemma getopt_loop_step (argv_0 : string) (o : ascii * string)
    (rest : list (ascii * string)) (s : state) :
  getopt_loop PACKAGE_URL PACKAGE_BUGREPORT PACKAGE_VERSION argv_0 (o :: rest) s =
    if option_stops o then
      inr (stop_code o,
           if Ascii.eqb (fst o) "h" then
             print_usage PACKAGE_URL PACKAGE_BUGREPORT argv_0 false s
           else if Ascii.eqb (fst o) "v" then
             emit (Stdout (TOOL_NAME ++ " " ++ PACKAGE_VERSION ++ LF)) s
           else if Ascii.eqb (fst o) "u" then
             print_usage PACKAGE_URL PACKAGE_BUGREPORT argv_0 true
               (emit (Stderr ("ERROR: UDID must not be empty!" ++ LF)) s)
           else if Ascii.eqb (fst o) "f" then
             print_usage PACKAGE_URL PACKAGE_BUGREPORT argv_0 true
               (emit (Stderr ("ERROR: FORMAT must not be empty!" ++ LF)) s)
           else print_usage PACKAGE_URL PACKAGE_BUGREPORT argv_0 true s)
    else
      getopt_loop PACKAGE_URL PACKAGE_BUGREPORT PACKAGE_VERSION argv_0 rest
        (apply_option o s).
Proof.
  destruct o as [c a]. cbn [getopt_loop]. unfold option_stops, stop_code, apply_option.
  cbn [fst snd].
  destruct c as [[|] [|] [|] [|] [|] [|] [|] [|]]; try reflexivity;
    destruct (String.eqb a ""); reflexivity.
Qed.

Lemma apply_option_quietly (o : ascii * string) (s s1 : state) :
  quietly s s1 -> quietly s (apply_option o s1).
Proof.
  intros H. unfold apply_option.
  repeat (destruct (Ascii.eqb (fst o) _); [auto with quiet|]). assumption.
Qed.

Lemma getopt_loop_quietly (argv_0 : string) (opts : list (ascii * string)) (s s1 : state) :
  quietly s s1 ->
  step_quietly s (getopt_loop PACKAGE_URL PACKAGE_BUGREPORT PACKAGE_VERSION argv_0 opts s1).
Proof.
  revert s1. induction opts as [|o opts IH]; intros s1 H.
  - exact H.
  - rewrite getopt_loop_step. destruct (option_stops o).
    + cbn [step_quietly].
      repeat (destruct (Ascii.eqb (fst o) _); [auto with quiet|]). auto with quiet.
    + apply IH. apply apply_option_quietly. exact H.
Qed.

(** X12: the loop over the options.  It stops at the first return of
    [getopt_long] that is help, version, an empty UDID or format, or no
    option of the program, with the code 0 for help and version and 2
    otherwise, and does not look at what follows.  When no option stops it,
    the UDID and the format are the arguments of the last [-u] and the last
    [-f] (or what they were), [use_network] and [exit_on_disconnect] are 1
    when [-n] and [-x] occur (or what they were), and nothing else changes
    but the debug level. *)
Theorem getopt_loop_settings (argv_0 : string) (opts : list (ascii * string)) (s : state) :
  match find option_stops opts with
  | Some o =>
      exists s',
        getopt_loop PACKAGE_URL PACKAGE_BUGREPORT PACKAGE_VERSION argv_0 opts s
        = inr (stop_code o, s')
  | None =>
      exists s',
        getopt_loop PACKAGE_URL PACKAGE_BUGREPORT PACKAGE_VERSION argv_0 opts s = inl s'
        /\ udid s' = match last_optarg "u" opts with
                     | Some a => Some a
                     | None => udid s
                     end
        /\ log_format_string s' = match last_optarg "f" opts with
                                  | Some a => Some a
                                  | None => log_format_string s
                                  end
        /\ use_network s' = (if has_option "n" opts then 1 else use_network s)
        /\ exit_on_disconnect s' = (if has_option "x" opts then 1 else exit_on_disconnect s)
        /\ quit_flag s' = quit_flag s /\ device s' = device s
        /\ bt_packet_logger s' = bt_packet_logger s
        /\ out_filename s' = out_filename s /\ log_format s' = log_format s
        /\ pcap_dumper s' = pcap_dumper s /\ packetlogger_fd s' = packetlogger_fd s
        /\ trace s' = trace s
                      ++ map (fun _ => SetDebugLevel 1)
                           (filter (fun o => Ascii.eqb (fst o) "d") opts)
  end.
Proof.
  revert s. induction opts as [|o opts IH]; intros s.
  - cbn. exists s. rewrite app_nil_r. repeat split.
  - cbn [find]. rewrite getopt_loop_step. destruct (option_stops o) eqn:Ho.
    + eexists. reflexivity.
    + specialize (IH (apply_option o s)).
      destruct (find option_stops opts) as [o'|]; [exact IH|].
      destruct IH as (s' & E & Hu & Hf & Hn & Hx & Hq & Hd & Hb & Ho' & Hl & Hp & Hfd & Ht).
      exists s'. split; [exact E|].
      destruct o as [c a]. unfold option_stops in Ho. cbn [fst snd] in Ho.
      unfold apply_option in *. cbn [fst snd last_optarg has_option existsb filter] in *.
      rewrite Hu, Hf, Hn, Hx, Hq, Hd, Hb, Ho', Hl, Hp, Hfd, Ht.
      fold (has_option "n" opts). fold (has_option "x" opts).
      destruct (last_optarg "u" opts), (last_optarg "f" opts),
        (has_option "n" opts), (has_option "x" opts);
        (destruct (Ascii.eqb_spec c "d") as [->|Nd];
         [cbn; rewrite <- ?app_assoc; repeat split|]);
        (destruct (Ascii.eqb_spec c "u") as [->|Nu]; [cbn; repeat split|]);
        (destruct (Ascii.eqb_spec c "f") as [->|Nf]; [cbn; repeat split|]);
        (destruct (Ascii.eqb_spec c "n") as [->|Nn]; [cbn; repeat split|]);
        (destruct (Ascii.eqb_spec c "x") as [->|Nx]; [cbn; repeat split|]);
        exfalso; clear - Ho Nd Nu Nf Nn Nx;
        destruct c as [[|] [|] [|] [|] [|] [|] [|] [|]]; try discriminate; congruence.
Qed.

Lemma take_out_filename_quietly (argv_0 : string) (args : list string) (s s1 : state) :
  quietly s s1 ->
  match take_out_filename PACKAGE_URL PACKAGE_BUGREPORT argv_0 args s1 with
  | inl s' => quietly s s'
  | inr (code, s') => quietly s s' /\ code = 2
  end.
Proof.
  intros H. destruct args; cbn [take_out_filename]; [split|]; auto with quiet.
Qed.

Lemma select_log_format_quietly (argv_0 : string) (s s1 : state) :
  quietly s s1 ->
  match select_log_format PACKAGE_URL PACKAGE_BUGREPORT argv_0 s1 with
  | inl s' => quietly s s'
  | inr (code, s') => quietly s s' /\ code = 2
  end.
Proof.
  intros H. unfold select_log_format.
  destruct (log_format_string s1); [|exact H].
  destruct (String.eqb _ _); [auto with quiet|].
  destruct (String.eqb _ _); [|split]; auto with quiet.
Qed.

Lemma look_for_devices_quietly (num : Z) (s s1 : state) :
  quietly s s1 ->
  match look_for_devices num s1 with
  | inl s' => quietly s s'
  | inr (code, s') => quietly s s' /\ code = -1
  end.
Proof.
  intros H. unfold look_for_devices.
  destruct (num =? 0); [|auto with quiet].
  match goal with |- context [match udid ?x with _ => _ end] => destruct (udid x) end;
    [|split]; auto with quiet.
Qed.

(** [main] from the options to the search for devices. *)
Lemma before_open_quietly (i : main_input) :
  match (do s <- getopt_loop PACKAGE_URL PACKAGE_BUGREPORT PACKAGE_VERSION
                   (argv0 i) (getopt_returns i)
                   (set_trace handlers_installed initial_state);
         do s <- take_out_filename PACKAGE_URL PACKAGE_BUGREPORT (argv0 i) (operands i) s;
         do s <- select_log_format PACKAGE_URL PACKAGE_BUGREPORT (argv0 i) s;
         look_for_devices (device_count i) s) with
  | inl s => quietly (set_trace handlers_installed initial_state) s
  | inr (code, s) =>
      quietly (set_trace handlers_installed initial_state) s
      /\ (code = 0 \/ code = 2 \/ code = -1)
  end.
Proof.
  pose proof (getopt_loop_quietly (argv0 i) (getopt_returns i) _ _
                (quietly_refl (set_trace handlers_installed initial_state))) as H1.
  pose proof (getopt_loop_returns PACKAGE_URL PACKAGE_BUGREPORT PACKAGE_VERSION (argv0 i)
                (getopt_returns i) (set_trace handlers_installed initial_state)) as R1.
  destruct (getopt_loop _ _ _ _ _ _) as [s1|[c1 s1]]; cbn [step_quietly] in H1.
  2:{ split; [exact H1|]. destruct (R1 c1 s1 eq_refl); auto. }
  pose proof (take_out_filename_quietly (argv0 i) (operands i) _ _ H1) as H2.
  destruct (take_out_filename _ _ _ _ _) as [s2|[c2 s2]].
  2:{ destruct H2 as [H2 ->]. auto. }
  pose proof (select_log_format_quietly (argv0 i) _ _ H2) as H3.
  destruct (select_log_format _ _ _ _) as [s3|[c3 s3]].
  2:{ destruct H3 as [H3 ->]. auto. }
  pose proof (look_for_devices_quietly (device_count i) _ _ H3) as H4.
  destruct (look_for_devices _ _) as [s4|[c4 s4]].
  - exact H4.
  - destruct H4 as [H4 ->]. auto.
Qed.

(** The calls of [main] up to an early return or the subscription. *)
Lemma startup_outcome (i : main_input) :
  match startup PACKAGE_URL PACKAGE_BUGREPORT PACKAGE_VERSION i with
  | inl s =>
      exists l o,
        trace s = handlers_installed ++ l ++ [o; EventSubscribe]
        /\ forallb quiet l = true
        /\ (o = PcapDumpOpen (show (out_filename s)) (pcap_dump_open_result i)
            \/ o = Open (show (out_filename s)) (open_result i))
        /\ quit_flag s = 0 /\ device s = None /\ bt_packet_logger s = None
  | inr (code, s) =>
      exists l,
        forallb quiet l = true
        /\ quit_flag s = 0 /\ device s = None /\ bt_packet_logger s = None
        /\ (((code = 0 \/ code = 2 \/ code = -1) /\ trace s = handlers_installed ++ l)
            \/ (code = -2
                /\ exists message,
                    trace s = handlers_installed
                              ++ l ++ [Open (show (out_filename s)) (open_result i);
                                       Stderr message]))
  end.
Proof.
  unfold startup.
  change (emit (Signal SIGPIPE SIG_IGN) _)
    with (set_trace handlers_installed initial_state).
  pose proof (before_open_quietly i) as B.
  destruct (getopt_loop _ _ _ _ _ _) as [s1|[c1 s1]].
  2:{ destruct B as [[(l & Hl & Fl) (Hq & Hd & Hb)] Hc]. exists l. auto 10. }
  destruct (take_out_filename _ _ _ _ _) as [s2|[c2 s2]].
  2:{ destruct B as [[(l & Hl & Fl) (Hq & Hd & Hb)] Hc]. exists l. auto 10. }
  destruct (select_log_format _ _ _ _) as [s3|[c3 s3]].
  2:{ destruct B as [[(l & Hl & Fl) (Hq & Hd & Hb)] Hc]. exists l. auto 10. }
  destruct (look_for_devices _ _) as [s4|[c4 s4]].
  2:{ destruct B as [[(l & Hl & Fl) (Hq & Hd & Hb)] Hc]. exists l. auto 10. }
  destruct B as [(l & Hl & Fl) (Hq & Hd & Hb)].
  cbn [trace set_trace quit_flag device bt_packet_logger initial_state] in Hl, Hq, Hd, Hb.
  unfold open_output. destruct (log_format s4).
  - cbn [packetlogger_fd set_packetlogger_fd].
    destruct (open_result i <? 0).
    + exists (l ++ [Stdout ("Output Format: PacketLogger" ++ LF)]).
      split; [rewrite forallb_app, Fl; reflexivity|].
      split; [exact Hq|]. split; [exact Hd|]. split; [exact Hb|].
      right. split; [reflexivity|]. eexists.
      autorewrite with trace. rewrite Hl, <- !app_assoc. reflexivity.
    + exists (l ++ [Stdout ("Output Format: PacketLogger" ++ LF)]), 
        (Open (show (out_filename s4)) (open_result i)).
      split; [autorewrite with trace; rewrite Hl, <- !app_assoc; reflexivity|].
      split; [rewrite forallb_app, Fl; reflexivity|].
      split; [right; reflexivity|]. repeat split; assumption.
  - exists (l ++ [Stdout ("Output Format: PCAP" ++ LF)]),
      (PcapDumpOpen (show (out_filename s4)) (pcap_dump_open_result i)).
    split; [autorewrite with trace; rewrite Hl, <- !app_assoc; reflexivity|].
    split; [rewrite forallb_app, Fl; reflexivity|].
    split; [left; reflexivity|]. repeat split; assumption.
Qed.

(** X13: what [main] has done when it returns early or subscribes.  After
    the four calls of [signal] it only prints, sets the debug level and asks
    for the list of devices until it opens the output: when it returns 0, 2
    or -1 it has not opened (and so not truncated) the output file; when it
    returns -2 the last calls are the failed [open] and the message; when it
    goes on, the last calls are the opening of the output and the
    subscription.  In all cases no device was contacted: [quit_flag] is 0
    and both handles are [NULL]. *)
Theorem startup_calls (i : main_input) :
  match startup PACKAGE_URL PACKAGE_BUGREPORT PACKAGE_VERSION i with
  | inl s =>
      exists l o,
        trace s = handlers_installed ++ l ++ [o; EventSubscribe]
        /\ forallb quiet l = true
        /\ (o = PcapDumpOpen (show (out_filename s)) (pcap_dump_open_result i)
            \/ o = Open (show (out_filename s)) (open_result i))
        /\ quit_flag s = 0 /\ device s = None /\ bt_packet_logger s = None
  | inr (code, s) =>
      exists l,
        forallb quiet l = true
        /\ quit_flag s = 0 /\ device s = None /\ bt_packet_logger s = None
        /\ (((code = 0 \/ code = 2 \/ code = -1) /\ trace s = handlers_installed ++ l)
            \/ (code = -2
                /\ exists message,
                    trace s = handlers_installed
                              ++ l ++ [Open (show (out_filename s)) (open_result i);
                                       Stderr message]))
  end.
Proof.
  exact (startup_outcome i).
Qed.

Lemma after_last_slash_none (s : string) :
  has_slash s = false -> after_last_slash s = None.
Proof.
  induction s as [|c r IH]; cbn; [reflexivity|].
  intros H. apply orb_false_iff in H. destruct H as [Hc Hr].
  rewrite (IH Hr), Hc. reflexivity.
Qed.

Lemma after_last_slash_some (dir base : string) :
  has_slash base = false ->
  after_last_slash (dir ++ String "/" base) = Some base.
Proof.
  intros H. induction dir as [|c r IH]; cbn.
  - rewrite (after_last_slash_none base H). reflexivity.
  - rewrite IH. reflexivity.
Qed.

(** X14: [print_usage] names the program by what follows the last slash of
    [argv[0]], or by [argv[0]] itself when it has no slash; it prints its
    two pieces of text to standard error for an error and to standard
    output otherwise, and changes no variable. *)
Theorem print_usage_name (dir base : string) (is_error : bool) (s : state) :
  has_slash base = false ->
  let out := if is_error then Stderr else Stdout in
  print_usage PACKAGE_URL PACKAGE_BUGREPORT (dir ++ String "/" base) is_error s
  = set_trace (trace s ++ map out (usage_lines PACKAGE_URL PACKAGE_BUGREPORT base)) s
  /\ print_usage PACKAGE_URL PACKAGE_BUGREPORT base is_error s
     = set_trace (trace s ++ map out (usage_lines PACKAGE_URL PACKAGE_BUGREPORT base)) s.
Proof.
  intros H out. unfold print_usage.
  rewrite (after_last_slash_some dir base H), (after_last_slash_none base H).
  fold out. rewrite emit_emit. split; reflexivity.
Qed.

End Startup.

(** ** The wait for [quit_flag] *)

Lemma same_settings_refl (s : state) : same_settings s s.
Proof.
  repeat split.
Qed.

Lemma same_settings_trans (s1 s2 s3 : state) :
  same_settings s1 s2 -> same_settings s2 s3 -> same_settings s1 s3.
Proof.
  unfold same_settings. intros H1 H2.
  destruct H1 as (A1 & A2 & A3 & A4 & A5 & A6 & A7).
  destruct H2 as (B1 & B2 & B3 & B4 & B5 & B6 & B7).
  repeat split; congruence.
Qed.

Lemma start_logging_settings (ans : connect_answers) (s : state) :
  same_settings s (snd (start_logging ans s)).
Proof.
  unfold start_logging.
  destruct (idevice_new_result ans); [|repeat split].
  destruct (handshake_result ans); [|repeat split].
  destruct (start_capture_ok ans); repeat split.
Qed.

(** What a device event leaves alone: the settings and the output handles;
    [quit_flag] stays or, under [exit_on_disconnect], goes up by one. *)
Lemma device_event_cb_fields (e : idevice_event_t) (ans : connect_answers) (s : state) :
  same_settings s (device_event_cb e ans s)
  /\ (quit_flag (device_event_cb e ans s) = quit_flag s
      \/ (quit_flag (device_event_cb e ans s) = quit_flag s + 1
          /\ exit_on_disconnect s <> 0)).
Proof.
  destruct (conn_type_eqb (conn_type e) (configured_transport s)) eqn:Hc.
  2:{ rewrite device_event_cb_other_transport.
      - split; [apply same_settings_refl|left; reflexivity].
      - intros Hc'. apply conn_type_eqb_eq in Hc'. congruence. }
  apply conn_type_eqb_eq in Hc. rewrite (device_event_cb_same_transport e ans s Hc).
  destruct (event e); [| |split; [apply same_settings_refl|left; reflexivity]].
  - destruct (bt_packet_logger s); [split; [apply same_settings_refl|left; reflexivity]|].
    cbv zeta.
    set (s1 := match udid s with
               | Some _ => s
               | None => set_udid (Some (event_udid e)) s
               end).
    assert (H1 : same_settings s s1 /\ quit_flag s1 = quit_flag s)
      by (subst s1; destruct (udid s); repeat split).
    destruct H1 as [H1 Q1].
    destruct (udid_is (udid s1) (event_udid e)); [|split; [exact H1|left; exact Q1]].
    pose proof (start_logging_settings ans s1) as H2.
    pose proof (start_logging_keeps ans s1) as K. cbv zeta in K.
    destruct (start_logging ans s1) as [r s2]. cbn [snd] in H2, K.
    destruct K as (K & _).
    assert (same_settings s s2) by (eapply same_settings_trans; eassumption).
    destruct (negb (r =? 0)); (split; [assumption|left]); cbn [quit_flag emit set_trace];
      congruence.
  - destruct (bt_packet_logger s); [|split; [apply same_settings_refl|left; reflexivity]].
    destruct (udid_is (udid s) (event_udid e));
      [|split; [apply same_settings_refl|left; reflexivity]].
    cbv zeta. rewrite stop_logging_state.
    cbn [exit_on_disconnect emit set_trace set_device set_bt_packet_logger].
    destruct (exit_on_disconnect s =? 0) eqn:Hx; cbn [negb].
    + split; [repeat split|left; reflexivity].
    + split; [repeat split|right; split; [reflexivity|lia]].
Qed.

Lemma set_trace_emit (tr : list effect) (e : effect) (s : state) :
  set_trace tr (emit e s) = set_trace tr s.
Proof.
  reflexivity.
Qed.

Section Waiting.

Variable host : byte_order.
Variable BT_MAX_PACKET_SIZE : Z.
Variables PACKAGE_URL PACKAGE_BUGREPORT PACKAGE_VERSION : string.

(** The pcap callback changes no variable of the program. *)
Lemma callback_pcap_keeps (data data' : list byte) (n : Z) (s s' : state) :
  bt_packet_logger_callback_pcap host BT_MAX_PACKET_SIZE data n s = Some (data', s') ->
  set_trace (trace s) s' = s.
Proof.
  unfold bt_packet_logger_callback_pcap. intros E.
  destruct (read32 host data offsetof_length); [|discriminate].
  destruct (read32 host data offsetof_ts_secs); [|discriminate].
  destruct (read32 host data offsetof_ts_usecs); [|discriminate].
  destruct (_ || _).
  - injection E as _ <-. rewrite set_trace_emit. apply set_trace_same.
  - destruct (nth_error data _); [|discriminate].
    destruct (map_packet_type host _) as [hci_h4_type direction].
    destruct (Byte.eqb hci_h4_type xff); injection E as _ <-.
    + apply set_trace_same.
    + rewrite !set_trace_emit. apply set_trace_same.
Qed.

Lemma set_trace_fields (tr : list effect) (s s' : state) :
  set_trace tr s' = s ->
  same_settings s s' /\ quit_flag s' = quit_flag s /\ udid s' = udid s.
Proof.
  intros <-. repeat split.
Qed.

(** X15: while [main] waits, the settings made by the options and the
    handles of the output never change, a bound identity stays bound, and
    [quit_flag] never goes down; the loop is left only with [quit_flag]
    set. *)
Theorem wait_keeps_settings (sched : list async) (s s' : state) :
  wait_for_quit host BT_MAX_PACKET_SIZE sched s = inl s' ->
  same_settings s s'
  /\ quit_flag s <= quit_flag s'
  /\ quit_flag s' <> 0
  /\ (forall u, udid s = Some u -> udid s' = Some u).
Proof.
  revert s. induction sched as [|a sched IH]; intros s E; cbn [wait_for_quit] in E.
  - destruct (quit_flag s =? 0) eqn:Q; [discriminate|]. injection E as <-.
    split; [apply same_settings_refl|]. repeat split; (lia || auto).
  - destruct a as [|e ans|data n|sig].
    + destruct (quit_flag s =? 0) eqn:Q; [auto|]. injection E as <-.
      split; [apply same_settings_refl|]. repeat split; (lia || auto).
    + apply IH in E. destruct E as (S1 & Q1 & Q2 & U1).
      destruct (device_event_cb_fields e ans s) as [S0 Q0].
      split; [eapply same_settings_trans; eassumption|].
      split; [lia|]. split; [exact Q2|].
      intros u Hu. apply U1. apply device_event_cb_keeps_udid. exact Hu.
    + destruct (bt_packet_logger s); [|auto].
      destruct (select_callback (log_format s)).
      * destruct (bt_packet_logger_callback_pcap host BT_MAX_PACKET_SIZE data n s)
          as [[data' s1]|] eqn:Ecb; [|discriminate].
        apply IH in E. destruct E as (S1 & Q1 & Q2 & U1).
        destruct (set_trace_fields _ _ _ (callback_pcap_keeps _ _ _ _ _ Ecb))
          as (S0 & Q0 & U0).
        split; [eapply same_settings_trans; eassumption|].
        split; [lia|]. split; [exact Q2|].
        intros u Hu. apply U1. congruence.
      * apply IH in E. exact E.
    + destruct (signal_disposition (trace s) sig) as [[|]|]; [| |discriminate].
      * apply IH in E. destruct E as (S1 & Q1 & Q2 & U1).
        split; [exact S1|]. split; [cbn [clean_exit quit_flag set_quit_flag emit set_trace] in Q1; lia|].
        split; [exact Q2|]. exact U1.
      * auto.
Qed.

(** X16: when [exit_on_disconnect] is not set and no signal arrives, [main]
    never returns once it has subscribed: whatever devices come and go and
    whatever frames arrive, it waits for ever, unless a pcap callback leaves
    its frame. *)
Theorem no_trigger_no_return (i : main_input) (s0 : state) :
  startup PACKAGE_URL PACKAGE_BUGREPORT PACKAGE_VERSION i = inl s0 ->
  exit_on_disconnect s0 = 0 ->
  forallb no_signal (schedule i) = true ->
  exists s,
    main host BT_MAX_PACKET_SIZE PACKAGE_URL PACKAGE_BUGREPORT PACKAGE_VERSION i
    = RunsForever s
    \/ main host BT_MAX_PACKET_SIZE PACKAGE_URL PACKAGE_BUGREPORT PACKAGE_VERSION i
       = Undefined s.
Proof.
  intros E0 Hx Hs. unfold main. rewrite E0.
  pose proof (startup_outcome PACKAGE_URL PACKAGE_BUGREPORT PACKAGE_VERSION i) as C.
  rewrite E0 in C. destruct C as (l & o & _ & _ & _ & Hq & _).
  rewrite Hq. cbn [Z.eqb].
  assert (W : forall sched s,
             forallb no_signal sched = true ->
             quit_flag s = 0 -> exit_on_disconnect s = 0 ->
             exists s1,
               wait_for_quit host BT_MAX_PACKET_SIZE sched s = inr (RunsForever s1)
               \/ wait_for_quit host BT_MAX_PACKET_SIZE sched s = inr (Undefined s1)).
  { clear. induction sched as [|a sched IH]; intros s Hs Hq Hx; cbn [wait_for_quit].
    - rewrite Hq. cbn. eauto.
    - cbn [forallb] in Hs. apply andb_true_iff in Hs. destruct Hs as [Ha Hs].
      destruct a as [|e ans|data n|sig]; [| | |discriminate].
      + rewrite Hq. cbn [Z.eqb]. auto.
      + destruct (device_event_cb_fields e ans s) as [(_ & X & _) Q].
        apply IH; [exact Hs| |congruence].
        destruct Q as [Q|[_ Q]]; [congruence|contradiction].
      + destruct (bt_packet_logger s); [|auto].
        destruct (select_callback (log_format s)).
        * destruct (bt_packet_logger_callback_pcap host BT_MAX_PACKET_SIZE data n s)
            as [[data' s1]|] eqn:Ecb; [|eauto].
          destruct (set_trace_fields _ _ _ (callback_pcap_keeps _ _ _ _ _ Ecb))
            as ((_ & X & _) & Q & _).
          apply IH; [exact Hs|congruence|congruence].
        * apply IH; [exact Hs|exact Hq|exact Hx]. }
  destruct (W (schedule i) s0 Hs Hq Hx) as (s1 & [W1|W1]); rewrite W1; eauto.
Qed.

(** X17: no signal ends the program abruptly once [main] has subscribed:
    SIGINT, SIGTERM, SIGQUIT and SIGPIPE all have a disposition set by
    [main], so a run never ends killed, whatever arrives. *)
Theorem main_never_killed (i : main_input) (sig : signal_t) (s : state) :
  main host BT_MAX_PACKET_SIZE PACKAGE_URL PACKAGE_BUGREPORT PACKAGE_VERSION i
  <> Killed sig s.
Proof.
  unfold main.
  destruct (startup PACKAGE_URL PACKAGE_BUGREPORT PACKAGE_VERSION i) as [s0|[c s0]] eqn:E0;
    [|discriminate].
  assert (W : forall sched s1,
             calmly s0 s1 ->
             wait_for_quit host BT_MAX_PACKET_SIZE sched s1 <> inr (Killed sig s)).
  { induction sched as [|a sched IH]; intros s1 H1; cbn [wait_for_quit].
    - destruct (quit_flag s1 =? 0); discriminate.
    - destruct a as [|e ans|data n|sg].
      + destruct (quit_flag s1 =? 0); [auto|discriminate].
      + apply IH. apply calmly_device_event_cb. exact H1.
      + destruct (bt_packet_logger s1); [|auto].
        destruct (select_callback (log_format s1)).
        * destruct (bt_packet_logger_callback_pcap host BT_MAX_PACKET_SIZE data n s1)
            as [[data' s2]|] eqn:Ecb; [|discriminate].
          apply IH. eapply calmly_callback_pcap; eassumption.
        * apply IH. apply calmly_callback_packetlogger. exact H1.
      + rewrite (termination_signals_handled PACKAGE_URL PACKAGE_BUGREPORT PACKAGE_VERSION
                   i s0 s1 sg E0 H1).
        destruct sg; try (apply IH; apply calmly_clean_exit; exact H1).
        apply IH. exact H1. }
  destruct (quit_flag s0 =? 0); [|discriminate].
  pose proof (W (schedule i) s0 (calmly_refl s0)) as W0.
  destruct (wait_for_quit host BT_MAX_PACKET_SIZE (schedule i) s0); [discriminate|].
  congruence.
Qed.

End Waiting.

(** ** The codes of [main] *)

Section Codes.

Variable host : byte_order.
Variable BT_MAX_PACKET_SIZE : Z.
Variables PACKAGE_URL PACKAGE_BUGREPORT PACKAGE_VERSION : string.

Lemma quiet_not_subscribe (l : list effect) :
  forallb quiet l = true -> ~ In EventSubscribe l.
Proof.
  intros F H. rewrite forallb_forall in F. specialize (F _ H). discriminate.
Qed.

(** X18: [main] returns 0, 2, -1 or -2 and nothing else.  It returns a code
    other than 0 only before it has subscribed to the device events; once it
    has subscribed it returns 0, also when no capture was ever started or
    every start failed. *)
Theorem main_exit_codes (i : main_input) (code : Z) (s : state) :
  main host BT_MAX_PACKET_SIZE PACKAGE_URL PACKAGE_BUGREPORT PACKAGE_VERSION i
  = Returned code s ->
  (code = 0 \/ code = 2 \/ code = -1 \/ code = -2)
  /\ (code <> 0 -> ~ In EventSubscribe (trace s)).
Proof.
  unfold main.
  pose proof (startup_outcome PACKAGE_URL PACKAGE_BUGREPORT PACKAGE_VERSION i) as C.
  destruct (startup PACKAGE_URL PACKAGE_BUGREPORT PACKAGE_VERSION i) as [s0|[c s0]].
  - intros E.
    assert (code = 0).
    { destruct (quit_flag s0 =? 0).
      - destruct (wait_for_quit host BT_MAX_PACKET_SIZE (schedule i) s0) as [s1|o] eqn:W.
        + cbv beta iota in E. congruence.
        + cbv beta iota in E. subst o.
          exfalso. exact (wait_for_quit_not_returned _ _ _ _ _ _ W).
      - cbv beta iota in E. congruence. }
    split; [auto|]. intros H0. contradiction.
  - intros [= <- <-].
    destruct C as (l & Fl & _ & _ & _ & [[Hc Ht]|[Hc (m & Ht)]]).
    + split; [intuition|]. intros _. rewrite Ht, in_app_iff.
      intros [H|H]; [|exact (quiet_not_subscribe l Fl H)].
      cbn in H. intuition discriminate.
    + split; [auto|]. intros _. rewrite Ht, !in_app_iff.
      intros [H|[H|H]]; [|exact (quiet_not_subscribe l Fl H)|];
        cbn in H; intuition discriminate.
Qed.

End Codes.

(** ** The properties on concrete frames and runs *)

Lemma capture_length_wraps_past_check_witness :
  exists data' h body,
    bt_packet_logger_callback_pcap LittleEndian 65535 wrapping_frame 16 capture_state =
      Some (data',
            emit (PcapDumpFlush (pcap_dumper capture_state))
              (emit (PcapDump (pcap_dumper capture_state) h body) capture_state))
    /\ caplen h = declared_length wrapping_frame + 4 - 2 ^ 32
    /\ 0 <= caplen h <= 3.
Proof.
  apply (capture_length_wraps_past_check LittleEndian 65535 wrapping_frame x00 16
           capture_state).
  - reflexivity.
  - discriminate.
  - vm_compute. discriminate.
  - vm_compute. discriminate.
  - vm_compute. discriminate.
Defined.

Lemma short_count_dropped_witness :
  bt_packet_logger_callback_pcap BigEndian 65535 event_frame 5 capture_state =
    Some (event_frame,
          emit (Stderr ("WARNING: Packet length exceeded max size, corruption likely."
                        ++ LF ++ " ")) capture_state).
Proof.
  apply (short_count_dropped BigEndian 65535 event_frame 5 capture_state).
  - vm_compute. repeat constructor.
  - split; [vm_compute; discriminate|vm_compute; reflexivity].
  - split; [vm_compute; discriminate|vm_compute; reflexivity].
Defined.

Lemma consistent_frame_record_witness :
  exists data' h,
    bt_packet_logger_callback_pcap LittleEndian 65535 consistent_frame 16 capture_state =
      Some (data',
            emit (PcapDumpFlush (pcap_dumper capture_state))
              (emit (PcapDump (pcap_dumper capture_state) h
                       (record_body consistent_frame x01)) capture_state))
    /\ caplen h = len h
    /\ len h = Z.of_nat (List.length (record_body consistent_frame x01))
    /\ Z.of_nat (List.length (record_body consistent_frame x01))
       = 4 + 1 + Z.of_nat (List.length (payload consistent_frame)).
Proof.
  apply (consistent_frame_record LittleEndian 65535 consistent_frame x01 16 capture_state).
  - reflexivity.
  - reflexivity.
  - discriminate.
  - reflexivity.
  - vm_compute. reflexivity.
  - vm_compute. discriminate.
Defined.

Lemma start_logging_outcome_witness :
  (fst started = 0
   /\ device (snd started) = idevice_new_result connects /\ device (snd started) <> None
   /\ handshake_result connects = LOCKDOWN_E_SUCCESS
   /\ start_capture_ok connects = true
   /\ bt_packet_logger (snd started) = start_service_result connects)
  \/ (fst started = -1
      /\ (idevice_new_result connects = None
          \/ handshake_result connects <> LOCKDOWN_E_SUCCESS
          \/ start_capture_ok connects = false)
      /\ device (snd started) = None
      /\ bt_packet_logger (snd started) = None
      /\ (forall d, idevice_new_result connects = Some d ->
                    In (DeviceFree d) (trace (snd started)))
      /\ (forall c,
            idevice_new_result connects <> None ->
            handshake_result connects = LOCKDOWN_E_SUCCESS ->
            start_service_result connects = Some c ->
            In (ClientFree (Some c)) (trace (snd started)))).
Proof.
  apply (start_logging_outcome connects initial_state (fst started) (snd started)).
  - reflexivity.
  - reflexivity.
  - vm_compute. reflexivity.
Defined.

Lemma session_kept_witness :
  session_ok
    (deliver_events
       [(usb_event IDEVICE_DEVICE_ADD "abc", connects);
        (usb_event IDEVICE_DEVICE_REMOVE "abc", connects);
        (usb_event IDEVICE_DEVICE_ADD "abc", refuses)]
       initial_state).
Proof.
  apply (session_kept _ initial_state).
  intros H. exfalso. apply H. reflexivity.
Defined.

Lemma device_event_cb_acts_only_witness :
  let e := usb_event IDEVICE_DEVICE_REMOVE "00008030-001A2D3E4F50002E" in
  conn_type e = configured_transport capture_state
  /\ ((event e = IDEVICE_DEVICE_ADD
       /\ bt_packet_logger capture_state = None
       /\ (udid capture_state = None \/ udid capture_state = Some (event_udid e)))
      \/ (event e = IDEVICE_DEVICE_REMOVE
          /\ bt_packet_logger capture_state <> None
          /\ udid capture_state = Some (event_udid e))).
Proof.
  apply (device_event_cb_acts_only
           (usb_event IDEVICE_DEVICE_REMOVE "00008030-001A2D3E4F50002E") connects
           capture_state).
  intros H. apply (f_equal bt_packet_logger) in H. vm_compute in H. discriminate H.
Defined.

Lemma failed_attach_binds_identity_witness :
  let e := usb_event IDEVICE_DEVICE_ADD "abc" in
  let s' := device_event_cb e refuses initial_state in
  udid s' = Some (event_udid e)
  /\ bt_packet_logger s' = None
  /\ device s' = None
  /\ (exists tr,
        trace s' = tr ++ [Stderr ("Could not start logger for udid " ++ event_udid e ++ LF)])
  /\ (forall e2 ans2, event_udid e2 <> event_udid e -> device_event_cb e2 ans2 s' = s').
Proof.
  apply (failed_attach_binds_identity (usb_event IDEVICE_DEVICE_ADD "abc") refuses
           initial_state).
  - reflexivity.
  - reflexivity.
  - reflexivity.
  - reflexivity.
  - right. left. discriminate.
Defined.

Lemma print_usage_name_witness :
  let out := Stderr in
  print_usage "url" "bugs" ("/usr/bin" ++ String "/" "idevicebtlogger") true initial_state
  = set_trace (trace initial_state ++ map out (usage_lines "url" "bugs" "idevicebtlogger"))
      initial_state
  /\ print_usage "url" "bugs" "idevicebtlogger" true initial_state
     = set_trace (trace initial_state ++ map out (usage_lines "url" "bugs" "idevicebtlogger"))
         initial_state.
Proof.
  apply (print_usage_name "url" "bugs" "/usr/bin" "idevicebtlogger" true initial_state).
  reflexivity.
Defined.

Lemma wait_keeps_settings_witness :
  same_settings pcap_run_subscribed pcap_run_left
  /\ quit_flag pcap_run_subscribed <= quit_flag pcap_run_left
  /\ quit_flag pcap_run_left <> 0
  /\ (forall u, udid pcap_run_subscribed = Some u -> udid pcap_run_left = Some u).
Proof.
  apply (wait_keeps_settings LittleEndian 65535 (schedule pcap_run) pcap_run_subscribed
           pcap_run_left).
  vm_compute. reflexivity.
Defined.

Lemma no_trigger_no_return_witness :
  exists s,
    main LittleEndian 65535 "" "" "" idle_run = RunsForever s
    \/ main LittleEndian 65535 "" "" "" idle_run = Undefined s.
Proof.
  apply (no_trigger_no_return LittleEndian 65535 "" "" "" idle_run idle_run_subscribed).
  - vm_compute. reflexivity.
  - reflexivity.
  - reflexivity.
Defined.

Lemma main_exit_codes_witness :
  (2 = 0 \/ 2 = 2 \/ 2 = -1 \/ 2 = -2)
  /\ (2 <> 0 -> ~ In EventSubscribe (trace usage_error_end)).
Proof.
  apply (main_exit_codes LittleEndian 65535 "" "" ""
           (run_of [("?"%char, ""%string)] ["out.pklg"%string] 1) 2 usage_error_end).
  vm_compute. reflexivity.
Defined.
